(** * Calgary property assessment web application: data pipeline

    A shallow embedding of [src/app.py]: the start-up load of the three
    GeoJSON collections, the field normalisation of the property table, the
    formatted assessed-value summary, the selection page and the two map
    routes.

    Tables are modelled as pandas has them: a frame is a list of rows, a row
    is a finite map from column labels to dynamically typed cells, and a
    column that is not there raises [KeyError].  The module-level names
    [properties_gdf], [communities_gdf], [sector_gdf] and [calgary_center]
    live in an explicit namespace that is threaded through a small
    state-and-exception monad.  Calls into pandas, geopandas and the remote
    data portal whose results the program cannot know are fields of the
    class [Libs]; what [sorted] does with a list that is not all text is
    the field of the class [Builtins]. *)

From Stdlib Require Import ZArith NArith String Ascii List DecimalString Lia.
From Stdlib Require Import Floats.SpecFloat.
From stdpp Require Import gmap strings list sorting.

Open Scope string_scope.

(** ** Python values *)

(** A coordinate pair [(x, y)] of float64 numbers. *)
Definition point : Type := spec_float * spec_float.

(** The cells of a table: [None] (a JSON null), text, a float64 number
    (which includes NaN and the infinities) and a geometry, kept as its
    coordinate sequence.  An integer or boolean cell is taken as the float64
    number it equals: [pd.notna], [==] and the format code [f], which
    converts to float64 first, do not tell them apart; a text of its own
    for such a cell is outside the model. *)
Inductive value : Type :=
| VNone
| VStr (s : string)
| VNum (x : spec_float)
| VGeom (g : list point).

#[global] Instance spec_float_eq_dec : EqDecision spec_float.
Proof. solve_decision. Defined.

#[global] Instance value_eq_dec : EqDecision value.
Proof. solve_decision. Defined.

Inductive exn : Type :=
| KeyError (key : string)
| ValueError (msg : string)
| TypeError (msg : string)
| IndexError
| NameError (name : string)
| AttributeError (name : string)
| AssertionError (field : string) (keys : list string)
| IOError (url : string).

Inductive result (A : Type) : Type :=
| Ok (a : A)
| Raise (e : exn).
Arguments Ok {A} a.
Arguments Raise {A} e.

#[global] Instance result_ret : MRet result := fun A a => Ok a.

#[global] Instance result_bind : MBind result := fun A B k r =>
  match r with
  | Ok a => k a
  | Raise e => Raise e
  end.

(** A comprehension or [apply] whose body may raise: the first exception
    ends the traversal. *)
Fixpoint rmap {A B} (f : A -> result B) (l : list A) : result (list B) :=
  match l with
  | [] => Ok []
  | x :: l' => y ← f x; ys ← rmap f l'; Ok (y :: ys)
  end.

Definition is_nan (x : spec_float) : bool :=
  match x with
  | S754_nan => true
  | _ => false
  end.

(** [pd.notna]: false on [None] and on NaN, true on everything else. *)
Definition notna (v : value) : bool :=
  match v with
  | VNone => false
  | VNum S754_nan => false
  | _ => true
  end.

(** ** The format specification [,.0f] *)

(** The integer nearest to [m * 2^e], ties to the even one: the digits a
    correctly rounded conversion to zero decimal places prints. *)
Definition round_half_even (m : positive) (e : Z) : N :=
  if (0 <=? e)%Z then (N.pos m * 2 ^ Z.to_N e)%N
  else
    let d := (2 ^ Z.to_N (- e))%N in
    let q := (N.pos m / d)%N in
    let r := (N.pos m mod d)%N in
    match (2 * r ?= d)%N with
    | Lt => q
    | Gt => (q + 1)%N
    | Eq => if N.even q then q else (q + 1)%N
    end.

(** Thousands grouping, on the digits in reverse order (least significant
    first): a separator after every complete group of three that is
    followed by a further digit. *)
Fixpoint group_rev (ds : list ascii) : list ascii :=
  match ds with
  | a :: b :: c :: ((_ :: _) as rest) =>
      a :: b :: c :: ","%char :: group_rev rest
  | _ => ds
  end.

Definition digits (n : N) : list ascii :=
  list_ascii_of_string (NilZero.string_of_uint (N.to_uint n)).

Definition group_thousands (n : N) : string :=
  string_of_list_ascii (rev (group_rev (rev (digits n)))).

Definition sign_prefix (s : bool) : string := if s then "-" else "".

(** [format(x, ",.0f")] for a float64 [x]. *)
Definition format_comma_0f (x : spec_float) : string :=
  match x with
  | S754_zero s => sign_prefix s +:+ "0"
  | S754_infinity s => sign_prefix s +:+ "inf"
  | S754_nan => "nan"
  | S754_finite s m e => sign_prefix s +:+ group_thousands (round_half_even m e)
  end.

(** The replacement field [{v:,.0f}] of an f-string: only numbers accept the
    format code [f]; a geometry reads the specification as one for its
    coordinates and refuses the separator. *)
Definition fmt_comma_0f (v : value) : result string :=
  match v with
  | VNum x => Ok (format_comma_0f x)
  | VStr _ => Raise (ValueError "Unknown format code 'f' for object of type 'str'")
  | VNone => Raise (TypeError "unsupported format string passed to NoneType.__format__")
  | VGeom _ => Raise (ValueError "invalid format specifier: ,.0f")
  end.

(** The float64 nearest to a small non-negative integer. *)
Definition float_of_N (n : N) : spec_float :=
  match n with
  | N0 => S754_zero false
  | Npos p => S754_finite false p 0
  end.

(** ** Rows and the assessed-value summary *)

(** [row.get(key)]: the cell, or [None] when the row has no such label. *)
Definition row_get (row : gmap string value) (key : string) : value :=
  default VNone (row !! key).

(** [sep.join(parts)]. *)
Fixpoint join (sep : string) (parts : list string) : string :=
  match parts with
  | [] => ""
  | [p] => p
  | p :: rest => p +:+ sep +:+ join sep rest
  end.

(** One [if pd.notna(v): formatted_values.append(f"<label>: ${v:,.0f}")]. *)
Definition append_if_present (label : string) (v : value)
    (formatted_values : list string) : result (list string) :=
  if notna v then
    s ← fmt_comma_0f v;
    Ok (formatted_values ++ [label +:+ ": $" +:+ s])%list
  else Ok formatted_values.

Definition format_assessed_value (row : gmap string value) : result string :=
  let assessed := row_get row "assessed_value" in
  let re_assessed := row_get row "re_assessed_value" in
  let nr_assessed := row_get row "nr_assessed_value" in
  let fl_assessed := row_get row "fl_assessed_value" in
  let formatted_values := [] in
  formatted_values ←
    append_if_present "Assessed Value" assessed formatted_values;
  formatted_values ←
    append_if_present "Residential Assessed Value" re_assessed formatted_values;
  formatted_values ←
    append_if_present "Non-Residential Assessed Value" nr_assessed formatted_values;
  formatted_values ←
    append_if_present "Farm Land Assessed Value" fl_assessed formatted_values;
  Ok (match formatted_values with
      | [] => "No assessed value information"
      | _ :: _ => join "<br>" formatted_values
      end).


(** ** Frames *)

(** A [GeoDataFrame]: the column labels, the rows in index order, and the
    declared coordinate reference system, as the text that
    [crs.to_string()] gives ([None] when the frame declares none).  The
    geometry is the column ["geometry"]. *)
Record GeoDataFrame : Type := {
  columns : list string;
  rows : list (gmap string value);
  crs : option string
}.

(** The cell of a row under a column label; a label the row does not carry
    reads as NaN, the filler pandas uses. *)
Definition cell (row : gmap string value) (col : string) : value :=
  default (VNum S754_nan) (row !! col).

(** The row as [df.apply(f, axis=1)] hands it to [f]: a series indexed by
    exactly the column labels of the frame. *)
Definition row_series (df : GeoDataFrame) (row : gmap string value)
    : gmap string value :=
  list_to_map (map (fun col => (col, cell row col)) (columns df)).

(** [col in df.columns]. *)
Definition has_column (df : GeoDataFrame) (col : string) : bool :=
  bool_decide (col ∈ columns df).

(** [df[col]]: the column as a list of cells, [KeyError] without it. *)
Definition get_column (df : GeoDataFrame) (col : string) : result (list value) :=
  if has_column df col then Ok (map (fun row => cell row col) (rows df))
  else Raise (KeyError col).

(** [df[col] = values], [values] aligned with the rows: an existing column
    is overwritten, a new one is appended to the labels. *)
Definition set_column (df : GeoDataFrame) (col : string) (values : list value)
    : GeoDataFrame :=
  {| columns := if has_column df col then columns df
                else (columns df ++ [col])%list;
     rows := zip_with (fun row v => <[col := v]> row) (rows df) values;
     crs := crs df |}.

(** [df.geometry]: the active geometry column, [AttributeError] when the
    frame has none. *)
Definition geometry_column (df : GeoDataFrame) : result (list value) :=
  if has_column df "geometry" then Ok (map (fun row => cell row "geometry") (rows df))
  else Raise (AttributeError "geometry").

(** [series.iloc[0]]. *)
Definition iloc0 {A} (l : list A) : result A :=
  match l with
  | x :: _ => Ok x
  | [] => Raise IndexError
  end.

(** [row[col]] on a row taken out of [df]. *)
Definition getitem (df : GeoDataFrame) (row : gmap string value) (col : string)
    : result value :=
  if has_column df col then Ok (cell row col) else Raise (KeyError col).

(** [df.empty]: no rows or no columns. *)
Definition frame_empty (df : GeoDataFrame) : bool :=
  match rows df, columns df with
  | _ :: _, _ :: _ => false
  | _, _ => true
  end.

(** Coordinate sequences are equal when they agree number by number. *)
Fixpoint coords_eqb (g h : list point) : bool :=
  match g, h with
  | [], [] => true
  | (x, y) :: g', (x', y') :: h' => SFeqb x x' && SFeqb y y' && coords_eqb g' h'
  | _, _ => false
  end.

(** The element-wise [==] of a column against a scalar: text equals text
    character by character, numbers compare as float64 (so NaN equals
    nothing), a missing cell or a missing scalar compares false. *)
Definition value_eqb (v w : value) : bool :=
  match v, w with
  | VStr a, VStr b => String.eqb a b
  | VNum x, VNum y => SFeqb x y
  | VGeom g, VGeom h => coords_eqb g h
  | _, _ => false
  end.

(** [df[mask]]: the rows whose mask entry is true. *)
Fixpoint boolean_index (rws : list (gmap string value)) (mask : list bool)
    : list (gmap string value) :=
  match rws, mask with
  | r :: rws', b :: mask' =>
      if b then r :: boolean_index rws' mask' else boolean_index rws' mask'
  | _, _ => []
  end.

(** [df[df[col] == v].copy()]. *)
Definition select_eq (df : GeoDataFrame) (col : string) (v : value)
    : result GeoDataFrame :=
  column ← get_column df col;
  let mask := map (fun c => value_eqb c v) column in
  Ok {| columns := columns df;
        rows := boolean_index (rows df) mask;
        crs := crs df |}.

(** ** The libraries and the data portal *)

(** What the program obtains from outside: the download and parse of a
    GeoJSON resource, pandas' recogniser of numeric text, the coordinate
    transformation between two reference systems, the centroid of a
    geometry, the mean of a float64 series and the text of a number and of
    a geometry. *)
Class Libs : Type := {
  read_file : string -> result GeoDataFrame;
  parse_numeric : string -> option spec_float;
  transform : string -> string -> list point -> list point;
  centroid : list point -> point;
  mean : list spec_float -> spec_float;
  str_float : spec_float -> string;
  str_geom : list point -> string
}.

Section Program.
Context `{L : Libs}.

(** [str(v)], as an f-string and [astype(str)] use it. *)
Definition py_str (v : value) : string :=
  match v with
  | VNone => "None"
  | VStr s => s
  | VNum x => str_float x
  | VGeom g => str_geom g
  end.

(** One cell of [pd.to_numeric(column, errors='coerce')]: a number stays,
    text that parses becomes its number, everything else becomes NaN. *)
Definition to_numeric_coerce (v : value) : value :=
  match v with
  | VNum x => VNum x
  | VStr s =>
      match parse_numeric s with
      | Some x => VNum x
      | None => VNum S754_nan
      end
  | VNone => VNum S754_nan
  | VGeom _ => VNum S754_nan
  end.

Definition value_columns : list string :=
  ["assessed_value"; "re_assessed_value"; "nr_assessed_value";
   "fl_assessed_value"].

(** The body of the loop over the four value columns. *)
Definition coerce_column (df : GeoDataFrame) (col : string) : result GeoDataFrame :=
  if has_column df col then
    column ← get_column df col;
    Ok (set_column df col (map to_numeric_coerce column))
  else Ok df.

Fixpoint coerce_columns (cols : list string) (df : GeoDataFrame)
    : result GeoDataFrame :=
  match cols with
  | [] => Ok df
  | col :: cols' => df' ← coerce_column df col; coerce_columns cols' df'
  end.

(** [if col in df.columns: df[col] = df[col].astype(str)]. *)
Definition stringify_column (df : GeoDataFrame) (col : string) : result GeoDataFrame :=
  if has_column df col then
    column ← get_column df col;
    Ok (set_column df col (map (fun v => VStr (py_str v)) column))
  else Ok df.

(** Step 1 of the load, on the property table. *)
Definition preprocess_properties (df : GeoDataFrame) : result GeoDataFrame :=
  df ← coerce_columns value_columns df;
  summaries ←
    rmap (fun row => format_assessed_value (row_series df row)) (rows df);
  let df := set_column df "formatted_assessed_values" (map VStr summaries) in
  stringify_column df "mod_date".

(** Step 2, on the community boundaries. *)
Definition preprocess_communities (df : GeoDataFrame) : result GeoDataFrame :=
  df ← stringify_column df "created_dt";
  stringify_column df "modified_dt".

Definition EPSG_4326 : string := "EPSG:4326".

(** [df.to_crs(epsg=4326)], as geopandas does it: the frame needs a
    geometry column and a declared reference system; when that system is
    the target already the frame is returned as it is, otherwise every
    geometry is transformed and the target is declared. *)
Definition to_crs_cell (src dst : string) (v : value) : value :=
  match v with
  | VGeom g => VGeom (transform src dst g)
  | _ => v
  end.

Definition to_crs (df : GeoDataFrame) (epsg : Z) : result GeoDataFrame :=
  let target := "EPSG:" +:+ NilZero.string_of_int (Z.to_int epsg) in
  geometry ← geometry_column df;
  match crs df with
  | None =>
      Raise (ValueError "Cannot transform naive geometries.  Please set a crs on the object first.")
  | Some src =>
      if String.eqb src target then Ok df
      else
        Ok {| columns := columns df;
              rows := rows (set_column df "geometry"
                              (map (to_crs_cell src target) geometry));
              crs := Some target |}
  end.

(** [if df.crs and df.crs.to_string() != 'EPSG:4326': df = df.to_crs(epsg=4326)]. *)
Definition ensure_epsg_4326 (df : GeoDataFrame) : result GeoDataFrame :=
  match crs df with
  | Some c => if negb (String.eqb c EPSG_4326) then to_crs df 4326 else Ok df
  | None => Ok df
  end.

(** [df.geometry.centroid]: one point per row; a row without a geometry
    has the empty point, whose coordinates read as NaN. *)
Definition centroid_of (v : value) : point :=
  match v with
  | VGeom g => centroid g
  | _ => (S754_nan, S754_nan)
  end.

Definition centroids (df : GeoDataFrame) : result (list point) :=
  geometry ← geometry_column df;
  Ok (map centroid_of geometry).

(** ** The module namespace and the interpreter monad *)

(** A module-level name is unbound until its first assignment. *)
Inductive binding (A : Type) : Type :=
| Unbound
| Bound (a : A).
#[global] Arguments Unbound {A}.
#[global] Arguments Bound {A} a.

(** The four module-level names of the program.  A dataset name holds a
    frame or [None]; the centre is the list [[y, x]]. *)
Record namespace : Type := {
  properties_gdf : binding (option GeoDataFrame);
  communities_gdf : binding (option GeoDataFrame);
  sector_gdf : binding (option GeoDataFrame);
  calgary_center : binding (spec_float * spec_float)
}.

Definition fresh_namespace : namespace :=
  {| properties_gdf := Unbound; communities_gdf := Unbound;
     sector_gdf := Unbound; calgary_center := Unbound |}.

(** A computation reads and writes the namespace and returns or raises. *)
Definition M (A : Type) : Type := namespace -> result A * namespace.

#[global] Instance M_ret : MRet M := fun A a ns => (Ok a, ns).

#[global] Instance M_bind : MBind M := fun A B k m ns =>
  match m ns with
  | (Ok a, ns') => k a ns'
  | (Raise e, ns') => (Raise e, ns')
  end.

(** A call that returns or raises without touching the namespace. *)
Definition lift {A} (r : result A) : M A := fun ns => (r, ns).

(** Reading a name: [NameError] while it is unbound. *)
Definition read {A} (name : string) (field : namespace -> binding A) : M A :=
  fun ns =>
    match field ns with
    | Bound a => (Ok a, ns)
    | Unbound => (Raise (NameError name), ns)
    end.

Definition assign_properties_gdf (v : option GeoDataFrame) : M unit :=
  fun ns =>
    (Ok tt, {| properties_gdf := Bound v; communities_gdf := communities_gdf ns;
               sector_gdf := sector_gdf ns; calgary_center := calgary_center ns |}).

Definition assign_communities_gdf (v : option GeoDataFrame) : M unit :=
  fun ns =>
    (Ok tt, {| properties_gdf := properties_gdf ns; communities_gdf := Bound v;
               sector_gdf := sector_gdf ns; calgary_center := calgary_center ns |}).

Definition assign_sector_gdf (v : option GeoDataFrame) : M unit :=
  fun ns =>
    (Ok tt, {| properties_gdf := properties_gdf ns;
               communities_gdf := communities_gdf ns;
               sector_gdf := Bound v; calgary_center := calgary_center ns |}).

Definition assign_calgary_center (v : spec_float * spec_float) : M unit :=
  fun ns =>
    (Ok tt, {| properties_gdf := properties_gdf ns;
               communities_gdf := communities_gdf ns;
               sector_gdf := sector_gdf ns; calgary_center := Bound v |}).

(** [try: body except Exception as e: handler]. *)
Definition try_except {A} (body : M A) (handler : exn -> M A) : M A :=
  fun ns =>
    match body ns with
    | (Ok a, ns') => (Ok a, ns')
    | (Raise e, ns') => handler e ns'
    end.

(** ** Global data loading *)

Definition properties_url : string :=
  "https://data.calgary.ca/resource/4bsw-nn7w.geojson?$limit=700000".
Definition communities_url : string :=
  "https://data.calgary.ca/resource/surr-xmvs.geojson".
Definition sector_url : string :=
  "https://data.calgary.ca/resource/mz2j-7eb5.geojson".

(** [[51.0447, -114.0719]], each the nearest float64. *)
Definition default_center : spec_float * spec_float :=
  (S754_finite false 7183902871851211 (-47),
   S754_finite true 4013548174480035 (-45)).

(** The in-place steps on a loaded table: the name must hold a frame. *)
Definition frame_of (name : string) (v : option GeoDataFrame) : result GeoDataFrame :=
  match v with
  | Some df => Ok df
  | None => Raise (TypeError name)
  end.

(** The body of the [try] block.  The in-place steps on one table are
    gathered into one update of its name. *)
Definition load_body : M unit :=
  df ← lift (read_file properties_url);
  _ ← assign_properties_gdf (Some df);
  df ← lift (read_file communities_url);
  _ ← assign_communities_gdf (Some df);
  df ← lift (read_file sector_url);
  _ ← assign_sector_gdf (Some df);
  (* 1. Pre-process properties *)
  v ← read "properties_gdf" properties_gdf;
  df ← lift (df ← frame_of "properties_gdf" v; preprocess_properties df);
  _ ← assign_properties_gdf (Some df);
  (* 2. Pre-process communities *)
  v ← read "communities_gdf" communities_gdf;
  df ← lift (df ← frame_of "communities_gdf" v; preprocess_communities df);
  _ ← assign_communities_gdf (Some df);
  (* 3. Pre-process sectors *)
  v ← read "sector_gdf" sector_gdf;
  df ← lift (df ← frame_of "sector_gdf" v; ensure_epsg_4326 df);
  _ ← assign_sector_gdf (Some df);
  (* the centre of the overview map *)
  v ← read "communities_gdf" communities_gdf;
  cs ← lift (df ← frame_of "communities_gdf" v; centroids df);
  assign_calgary_center (mean (map snd cs), mean (map fst cs)).

(** The [except] block. *)
Definition load_failed (e : exn) : M unit :=
  _ ← assign_properties_gdf None;
  _ ← assign_communities_gdf None;
  _ ← assign_sector_gdf None;
  assign_calgary_center default_center.

Definition load_data : M unit := try_except load_body load_failed.

(** The namespace the request handlers run in. *)
Definition loaded_namespace : namespace := snd (load_data fresh_namespace).

(** ** The map artefact *)

(** What the program hands to folium: the layers with their data, names,
    tooltip and popup fields and fixed styles.  Of folium itself the model
    has the checks that can end a request: the location of the map and the
    fields of a tooltip or popup; the drawing is left to folium. *)
Record GeoJson : Type := {
  data : GeoDataFrame;
  name : string;
  tooltip : list (string * string);
  popup : list (string * string);
  style : list (string * string);
  highlight : list (string * string)
}.

Inductive child : Type :=
| Layer (g : GeoJson)
| LayerControl.

Record Map : Type := {
  location : spec_float * spec_float;
  zoom_start : Z;
  children : list child
}.

(** [child.add_to(m)]. *)
Definition add_to (c : child) (m : Map) : Map :=
  {| location := location m; zoom_start := zoom_start m;
     children := (children m ++ [c])%list |}.

(** [folium.Map(location=..., zoom_start=...)]: a location with a NaN in it
    is refused. *)
Definition folium_Map (centre : spec_float * spec_float) (zoom : Z) : result Map :=
  if is_nan centre.1 || is_nan centre.2
  then Raise (ValueError "Location values cannot contain NaNs.")
  else Ok {| location := centre; zoom_start := zoom; children := [] |}.

(** The keys that a tooltip or popup may name: the properties of a feature
    are the columns other than the geometry, and folium sets aside the two
    keys it uses itself. *)
Definition feature_keys (df : GeoDataFrame) : list string :=
  List.filter
    (fun key => negb (String.eqb key "geometry") && negb (String.eqb key "style")
                && negb (String.eqb key "highlight"))
    (columns df).

(** [assert value in keys] for every field, in order. *)
Fixpoint assert_fields (fields keys : list string) : result unit :=
  match fields with
  | [] => Ok tt
  | field :: fields' =>
      if bool_decide (field ∈ keys) then assert_fields fields' keys
      else Raise (AssertionError field keys)
  end.

(** The rendering of a [GeoJsonTooltip] or [GeoJsonPopup]: the fields are
    looked up in the properties of the first feature of the layer.  An empty
    list of fields stands for a layer without tooltip or popup. *)
Definition render_detail (df : GeoDataFrame) (fields : list (string * string))
    : result unit :=
  match fields with
  | [] => Ok tt
  | _ :: _ =>
      match rows df with
      | [] => Raise IndexError
      | _ :: _ => assert_fields (map fst fields) (feature_keys df)
      end
  end.

Definition render_child (c : child) : result unit :=
  match c with
  | Layer g =>
      _ ← render_detail (data g) (tooltip g);
      render_detail (data g) (popup g)
  | LayerControl => Ok tt
  end.

(** [m._repr_html_()]: the children are rendered in the order in which they
    were added. *)
Definition repr_html (m : Map) : result Map :=
  _ ← rmap render_child (children m);
  Ok m.

(** What a view function returns: a body with a status code, a rendered
    template with its context, or, when it raised, the 500 page of the
    framework. *)
Inductive response : Type :=
| Text (body : string) (status : Z)
| Template (template : string) (map_html : Map) (community_name : value)
| InternalServerError (e : exn).

(** ** Route [/calgary_overview] *)

Definition calgary_overview : M response :=
  c ← read "communities_gdf" communities_gdf;
  match c with
  | None => mret (Text "Error: Data not loaded." 500)
  | Some communities =>
  s ← read "sector_gdf" sector_gdf;
  match s with
  | None => mret (Text "Error: Data not loaded." 500)
  | Some sectors =>
  center ← read "calgary_center" calgary_center;
  calgary_map ← lift (folium_Map center 10);
  let calgary_map :=
    add_to (Layer {| data := communities; name := "Community Boundaries";
                     tooltip := [("name", "name")]; popup := [];
                     style := []; highlight := [] |}) calgary_map in
  let calgary_map :=
    add_to (Layer {| data := sectors; name := "Community Sectors";
                     tooltip := [("sector", "sector")]; popup := [];
                     style := [("fillColor", "none"); ("color", "red");
                               ("weight", "2")];
                     highlight := [] |}) calgary_map in
  let calgary_map := add_to LayerControl calgary_map in
  map_html ← lift (repr_html calgary_map);
  mret (Template "map.html" map_html (VStr "Calgary Overview"))
  end
  end.

(** ** Route [/map] *)

Definition not_selected_or_not_loaded : response :=
  Text "Error: Community not selected or data not loaded." 400.

Definition detail_fields : list (string * string) :=
  [("address", "Address"); ("assessment_class_description", "Class");
   ("formatted_assessed_values", "Assessed Values")].

(** The view function; [form] is the submitted form. *)
Definition show_map (form : gmap string string) : M response :=
  let selected_community := form !! "community_name" in
  match selected_community with
  | None => mret not_selected_or_not_loaded
  | Some selected =>
  if String.eqb selected "" then mret not_selected_or_not_loaded else
  p ← read "properties_gdf" properties_gdf;
  match p with
  | None => mret not_selected_or_not_loaded
  | Some properties =>
  c ← read "communities_gdf" communities_gdf;
  match c with
  | None => mret not_selected_or_not_loaded
  | Some communities =>
  s ← read "sector_gdf" sector_gdf;
  match s with
  | None => mret not_selected_or_not_loaded
  | Some _ =>
  (* Step 1: the boundary rows named as selected *)
  community_boundary ← lift (select_eq communities "name" (VStr selected));
  if frame_empty community_boundary then
    mret (Text ("No boundary data found for community: " +:+ selected) 404)
  else
  (* Step 2: the community code of the first of them *)
  property_filter_code ←
    lift (column ← get_column community_boundary "comm_code"; iloc0 column);
  (* Step 3: the property rows with that code *)
  community_properties_gdf ←
    lift (select_eq properties "comm_code" property_filter_code);
  if frame_empty community_properties_gdf then
    long_comm_name ←
      lift (row ← iloc0 (rows community_boundary);
            getitem community_boundary row "name");
    mret (Text ("No property data found for community: "
                +:+ py_str long_comm_name
                +:+ " (Filter Code: " +:+ py_str property_filter_code +:+ ").")
               404)
  else
  (* Step 4: the long name, from the property rows *)
  long_comm_name ←
    lift (column ← get_column community_properties_gdf "comm_name"; iloc0 column);
  community_properties_gdf ← lift (to_crs community_properties_gdf 4326);
  community_boundary ← lift (to_crs community_boundary 4326);
  cs ← lift (centroids community_boundary);
  y ← lift (iloc0 (map snd cs));
  x ← lift (iloc0 (map fst cs));
  let map_center := (y, x) in
  community_map ← lift (folium_Map map_center 14);
  let community_map :=
    add_to (Layer {| data := community_boundary;
                     name := "Boundary: " +:+ py_str long_comm_name;
                     tooltip := []; popup := [];
                     style := [("fillColor", "#007bff"); ("color", "black");
                               ("weight", "2"); ("fillOpacity", "0.1")];
                     highlight := [] |}) community_map in
  community_properties_gdf ← lift (ensure_epsg_4326 community_properties_gdf);
  let community_map :=
    add_to (Layer {| data := community_properties_gdf;
                     name := selected +:+ " Properties";
                     tooltip := detail_fields; popup := detail_fields;
                     style := [("color", "blue"); ("weight", "1");
                               ("fillColor", "none")];
                     highlight := [("fillColor", "#ffff00"); ("color", "#000000");
                                   ("fillOpacity", "0.50"); ("weight", "0.1")] |})
           community_map in
  let community_map := add_to LayerControl community_map in
  map_html ← lift (repr_html community_map);
  mret (Template "map.html" map_html long_comm_name)
  end
  end
  end
  end.

(** ** Serving requests *)

Inductive request : Type :=
| GET_calgary_overview
| POST_map (form : gmap string string).

Definition view (r : request) : M response :=
  match r with
  | GET_calgary_overview => calgary_overview
  | POST_map form => show_map form
  end.

(** One request against a namespace: the response the client sees and the
    namespace afterwards.  An exception that escapes the view function is
    answered with the 500 page. *)
Definition serve (r : request) (ns : namespace) : response * namespace :=
  match view r ns with
  | (Ok resp, ns') => (resp, ns')
  | (Raise e, ns') => (InternalServerError e, ns')
  end.

(** ** The field normaliser, row by row *)

(** What the loop over the value columns does to one row of [df]: a cell
    under a label the frame has is replaced by its coerced value. *)
Definition coerce_cell (df : GeoDataFrame) (row : gmap string value)
    (col : string) : gmap string value :=
  if has_column df col then <[col := to_numeric_coerce (cell row col)]> row
  else row.

Definition coerce_row (df : GeoDataFrame) (cols : list string)
    (row : gmap string value) : gmap string value :=
  foldl (coerce_cell df) row cols.

(** The table with the cell of row [i] under [col] set to [v]. *)
Definition with_cell (df : GeoDataFrame) (i : nat) (col : string) (v : value)
    : GeoDataFrame :=
  {| columns := columns df;
     rows := alter (fun row => <[col := v]> row) i (rows df);
     crs := crs df |}.

End Program.

(** ** Route [/] *)

(** The keys of the hash table behind [Series.unique()]: two cells are the
    same key when they are equal, and all missing numbers are one key. *)
Definition same_key (v w : value) : bool :=
  match v, w with
  | VNone, VNone => true
  | VNum x, VNum y => SFeqb x y || (is_nan x && is_nan y)
  | _, _ => value_eqb v w
  end.

(** [column.unique().tolist()]: the cells in order of first appearance;
    [seen] holds the keys that are in the table already. *)
Fixpoint unique_from (seen column : list value) : list value :=
  match column with
  | [] => []
  | v :: column' =>
      if existsb (same_key v) seen then unique_from seen column'
      else v :: unique_from (v :: seen) column'
  end.

Definition unique (column : list value) : list value := unique_from [] column.

(** The texts of a list whose elements are all text. *)
Fixpoint texts (l : list value) : option (list string) :=
  match l with
  | [] => Some []
  | VStr s :: l' => ss ← texts l'; Some (s :: ss)
  | _ :: _ => None
  end.

(** [a <= b] on [str]: lexicographic, character code by character code. *)
Definition str_le (a b : string) : Prop := String.leb a b = true.

#[global] Instance str_le_dec : RelDecision str_le :=
  fun a b => decide (String.leb a b = true).

(** What [sorted] does with a list of two or more elements that are not all
    text (mixed types, numbers with NaN among them) is left to Python. *)
Class Builtins : Type := {
  sorted_other : list value -> result (list value)
}.

(** [sorted(l)]: a list of texts comes back in ascending order; nothing is
    compared in a list of fewer than two elements. *)
Definition sorted `{Builtins} (l : list value) : result (list value) :=
  match texts l with
  | Some ss => Ok (map VStr (merge_sort str_le ss))
  | None =>
      match l with
      | [] | [_] => Ok l
      | _ => sorted_other l
      end
  end.

(** [render_template('index.html', community_names=community_names)]. *)
Record index_page : Type := {
  template_name : string;
  community_names : list value
}.

Definition index `{Builtins} : M index_page :=
  let names := [] in
  c ← read "communities_gdf" communities_gdf;
  match c with
  | None => mret {| template_name := "index.html"; community_names := names |}
  | Some communities =>
      column ← lift (get_column communities "name");
      names ← lift (sorted (unique column));
      mret {| template_name := "index.html"; community_names := names |}
  end.

(** ** The exceptions that reach the caller *)

(** [to_crs] on a frame that declares no reference system. *)
Definition naive_geometries : exn :=
  ValueError "Cannot transform naive geometries.  Please set a crs on the object first.".

(** The format code [f] on text and on a geometry. *)
Definition unknown_format_code : exn :=
  ValueError "Unknown format code 'f' for object of type 'str'".

Definition invalid_format_specifier : exn :=
  ValueError "invalid format specifier: ,.0f".

(** [folium.Map] on a location that has a NaN. *)
Definition nan_location : exn :=
  ValueError "Location values cannot contain NaNs.".

(** What each route answers when the data is not there. *)
Definition unavailable_answer (r : request) : response :=
  match r with
  | GET_calgary_overview => Text "Error: Data not loaded." 500
  | POST_map _ => Text "Error: Community not selected or data not loaded." 400
  end.

(** A computation that leaves the namespace as it found it. *)
Definition readonly {A} (m : M A) : Prop := forall ns, snd (m ns) = ns.

(** The detail route once its guard has passed: a community is selected
    and the three names hold tables. *)
Definition ready (ns : namespace) (form : gmap string string)
    (selected : string) (properties communities : GeoDataFrame) : Prop :=
  form !! "community_name" = Some selected
  /\ selected <> ""
  /\ properties_gdf ns = Bound (Some properties)
  /\ communities_gdf ns = Bound (Some communities)
  /\ exists sectors, sector_gdf ns = Bound (Some sectors).

(** What the detail route needs of the two tables: the columns it reads,
    a geometry column and a declared reference system. *)
Definition detail_schema (properties communities : GeoDataFrame) : Prop :=
  has_column communities "name" = true
  /\ has_column communities "comm_code" = true
  /\ has_column communities "geometry" = true
  /\ has_column properties "comm_code" = true
  /\ has_column properties "comm_name" = true
  /\ has_column properties "geometry" = true
  /\ is_Some (crs communities)
  /\ is_Some (crs properties).

(** What the property layer needs: the columns that its tooltip and popup
    name. *)
Definition popup_schema (properties : GeoDataFrame) : Prop :=
  has_column properties "address" = true
  /\ has_column properties "assessment_class_description" = true
  /\ has_column properties "formatted_assessed_values" = true.

(** A point that can be the centre of a map: neither coordinate is NaN. *)
Definition located (centre : point) : Prop :=
  is_nan centre.1 = false /\ is_nan centre.2 = false.

(** The namespace after a failed load. *)
Definition unavailable_namespace : namespace :=
  {| properties_gdf := Bound None; communities_gdf := Bound None;
     sector_gdf := Bound None; calgary_center := Bound default_center |}.

(** All three tables are there. *)
Definition all_available (ns : namespace) : Prop :=
  exists properties communities sectors,
    properties_gdf ns = Bound (Some properties)
    /\ communities_gdf ns = Bound (Some communities)
    /\ sector_gdf ns = Bound (Some sectors).

(** ** What the digits of a formatted number are *)

Definition is_digit (c : ascii) : bool :=
  (48 <=? nat_of_ascii c)%nat && (nat_of_ascii c <=? 57)%nat.

Definition not_comma (c : ascii) : bool := negb (Ascii.eqb c ","%char).

(** ** The summary as the specification words it *)

(** The four value attributes in their fixed order, each with its label. *)
Definition value_labels : list (string * string) :=
  [("assessed_value", "Assessed Value");
   ("re_assessed_value", "Residential Assessed Value");
   ("nr_assessed_value", "Non-Residential Assessed Value");
   ("fl_assessed_value", "Farm Land Assessed Value")].

(** A value component is present when it is a number other than NaN. *)
Definition present (v : value) : option spec_float :=
  match v with
  | VNum S754_nan => None
  | VNum x => Some x
  | _ => None
  end.

(** The line of one attribute, when it is present. *)
Definition summary_line (row : gmap string value) (cl : string * string)
    : option string :=
  x ← present (row_get row cl.1);
  Some (cl.2 +:+ ": $" +:+ format_comma_0f x).

Definition summary_lines (row : gmap string value) : list string :=
  omap (summary_line row) value_labels.

Definition summary_spec (row : gmap string value) : string :=
  match summary_lines row with
  | [] => "No assessed value information"
  | lines => join "<br>" lines
  end.

(** The text of a summary with the given lines. *)
Definition summary_text (lines : list string) : string :=
  match lines with
  | [] => "No assessed value information"
  | _ :: _ => join "<br>" lines
  end.

(** The attributes that come before [col] in the fixed order, and those
    that come after it. *)
Fixpoint labels_before (col : string) (labels : list (string * string))
    : list (string * string) :=
  match labels with
  | [] => []
  | cl :: rest => if String.eqb cl.1 col then [] else cl :: labels_before col rest
  end.

Fixpoint labels_after (col : string) (labels : list (string * string))
    : list (string * string) :=
  match labels with
  | [] => []
  | cl :: rest => if String.eqb cl.1 col then rest else labels_after col rest
  end.

(** After the field normaliser a value cell is a number or is not there. *)
Definition numeric_or_none (v : value) : Prop :=
  match v with
  | VNum _ | VNone => True
  | VStr _ | VGeom _ => False
  end.

(** ** Sample data *)

Definition nan : spec_float := S754_nan.

Definition square (x y : Z) : value :=
  let f z := match z with
             | Z0 => S754_zero false
             | Zpos p => S754_finite false p 0
             | Zneg p => S754_finite true p 0
             end in
  VGeom [(f x, f y); (f (x + 1)%Z, f y); (f (x + 1)%Z, f (y + 1)%Z);
         (f x, f (y + 1)%Z)].

Definition boundary_row (name code : string) (x : Z) : gmap string value :=
  <["name" := VStr name]> (<["comm_code" := VStr code]>
    (<["geometry" := square x 51]> ∅)).

Definition property_row (code name address : string) (assessed residential : value)
    (x : Z) : gmap string value :=
  <["comm_code" := VStr code]> (<["comm_name" := VStr name]>
    (<["address" := VStr address]>
      (<["assessment_class_description" := VStr "Residential"]>
        (<["assessed_value" := assessed]> (<["re_assessed_value" := residential]>
          (<["geometry" := square x 51]> ∅)))))).

Definition sample_communities : GeoDataFrame :=
  {| columns := ["name"; "comm_code"; "geometry"];
     rows := [boundary_row "HILLHURST" "HIL" (-114);
              boundary_row "01B" "01B" (-115);
              boundary_row "BOWNESS PARK" "BWP" (-116)];
     crs := Some "EPSG:4326" |}.

Definition sample_properties : GeoDataFrame :=
  {| columns := ["comm_code"; "comm_name"; "address";
                 "assessment_class_description"; "assessed_value";
                 "re_assessed_value"; "geometry"];
     rows := [property_row "HIL" "HILLHURST" "1 KENSINGTON RD NW"
                (VStr "500000") VNone (-114);
              property_row "BOW" "BOWNESS" "2 BOWNESS RD NW"
                (VStr "1234567.5") (VStr "0") (-117);
              property_row "HIL" "HILLHURST" "3 KENSINGTON RD NW"
                (VStr "n/a") (VStr "0") (-114);
              property_row "01B" "RESIDUAL WARD 1 - SUB AREA 1B" "4 RANGE RD"
                VNone VNone (-115);
              property_row "BOW" "BOWNESS" "5 BOWNESS RD NW"
                (VStr "750000") (VStr "750000") (-117);
              property_row "HIL" "HILLHURST" "6 KENSINGTON RD NW"
                (VStr "0") VNone (-114)];
     crs := Some "EPSG:4326" |}.

Definition sample_sectors : GeoDataFrame :=
  {| columns := ["sector"; "geometry"];
     rows := [<["sector" := VStr "CENTRE"]> (<["geometry" := square (-114) 51]> ∅)];
     crs := Some "EPSG:4326" |}.

(** A data portal that serves the sample tables, and stand-ins for the
    library calls: text is numeric when it is one of the four numerals of
    the sample, the centroid is the first vertex, the mean the first
    element. *)
Definition sample_libs : Libs :=
  {| read_file url :=
       if String.eqb url properties_url then Ok sample_properties
       else if String.eqb url communities_url then Ok sample_communities
       else if String.eqb url sector_url then Ok sample_sectors
       else Raise (IOError url);
     parse_numeric s :=
       if String.eqb s "500000" then Some (S754_finite false 500000 0)
       else if String.eqb s "750000" then Some (S754_finite false 750000 0)
       else if String.eqb s "1234567.5" then Some (S754_finite false 2469135 (-1))
       else if String.eqb s "0" then Some (S754_zero false)
       else None;
     transform src dst g := g;
     centroid g := hd (nan, nan) g;
     mean l := hd nan l;
     str_float x := format_comma_0f x;
     str_geom g := "POLYGON" |}.

(** The same portal with the community boundaries out of reach. *)
Definition failing_libs : Libs :=
  {| read_file url :=
       if String.eqb url properties_url then Ok sample_properties
       else Raise (IOError url);
     parse_numeric := @parse_numeric sample_libs;
     transform := @transform sample_libs;
     centroid := @centroid sample_libs;
     mean := @mean sample_libs;
     str_float := @str_float sample_libs;
     str_geom := @str_geom sample_libs |}.

Definition select (community : string) : gmap string string :=
  <["community_name" := community]> ∅.

(** A namespace that holds the sample tables as they were read. *)
Definition sample_namespace : namespace :=
  {| properties_gdf := Bound (Some sample_properties);
     communities_gdf := Bound (Some sample_communities);
     sector_gdf := Bound (Some sample_sectors);
     calgary_center := Bound default_center |}.

(** The rows of the sample that the detail route selects for ["01B"] and
    for ["BOWNESS PARK"]. *)
Definition boundary_01B : gmap string value := boundary_row "01B" "01B" (-115).

Definition property_01B : gmap string value :=
  property_row "01B" "RESIDUAL WARD 1 - SUB AREA 1B" "4 RANGE RD" VNone VNone (-115).

Definition boundary_BWP : gmap string value :=
  boundary_row "BOWNESS PARK" "BWP" (-116).

Definition only (df : GeoDataFrame) (row : gmap string value) : GeoDataFrame :=
  {| columns := columns df; rows := [row]; crs := crs df |}.

(** [sorted] refuses to compare text with anything else. *)
Definition sample_builtins : Builtins :=
  {| sorted_other l :=
       Raise (TypeError "'<' not supported between instances of 'float' and 'str'") |}.

(** The property table of the sample after the load. *)
Definition sample_loaded_properties : GeoDataFrame :=
  match properties_gdf (@loaded_namespace sample_libs) with
  | Bound (Some df) => df
  | _ => sample_properties
  end.

(** The record of 01B in the loaded property table. *)
Definition loaded_property_01B : gmap string value :=
  <["formatted_assessed_values" := VStr "No assessed value information"]>
    (<["assessed_value" := VNum nan]> (<["re_assessed_value" := VNum nan]>
      property_01B)).

(** A boundary table with a community that has no code. *)
Definition uncoded_row : gmap string value :=
  <["name" := VStr "NOSE HILL PARK"]> (<["comm_code" := VNone]>
    (<["geometry" := square (-114) 52]> ∅)).

Definition uncoded_communities : GeoDataFrame :=
  {| columns := ["name"; "comm_code"; "geometry"];
     rows := [boundary_row "HILLHURST" "HIL" (-114); uncoded_row];
     crs := Some "EPSG:4326" |}.

(** The sample property table without a declared reference system, and in
    the projected system of the city. *)
Definition naive_properties : GeoDataFrame :=
  {| columns := columns sample_properties; rows := rows sample_properties;
     crs := None |}.

Definition projected_properties : GeoDataFrame :=
  {| columns := columns sample_properties; rows := rows sample_properties;
     crs := Some "EPSG:3776" |}.

(** A property table that lacks the community code. *)
Definition uncoded_properties : GeoDataFrame :=
  {| columns := ["comm_name"; "address"; "geometry"];
     rows := rows sample_properties;
     crs := Some "EPSG:4326" |}.

Definition namespace_of (properties communities sectors : GeoDataFrame) : namespace :=
  {| properties_gdf := Bound (Some properties);
     communities_gdf := Bound (Some communities);
     sector_gdf := Bound (Some sectors);
     calgary_center := Bound default_center |}.

Definition boundary_HIL : gmap string value := boundary_row "HILLHURST" "HIL" (-114).

(** The portal of the sample with another property table in the place of
    the sample's. *)
Definition serving (properties : GeoDataFrame) : Libs :=
  {| read_file url :=
       if String.eqb url properties_url then Ok properties
       else @read_file sample_libs url;
     parse_numeric := @parse_numeric sample_libs;
     transform := @transform sample_libs;
     centroid := @centroid sample_libs;
     mean := @mean sample_libs;
     str_float := @str_float sample_libs;
     str_geom := @str_geom sample_libs |}.

(** A property table without the column "address". *)
Definition unaddressed_properties : GeoDataFrame :=
  {| columns := ["comm_code"; "comm_name"; "assessment_class_description";
                 "assessed_value"; "re_assessed_value"; "geometry"];
     rows := rows sample_properties;
     crs := Some "EPSG:4326" |}.

(** The map that the detail route draws for HILLHURST after a load of the
    projected property table. *)
Definition projected_hillhurst_map : Map :=
  match fst (@serve sample_libs (POST_map (select "HILLHURST"))
               (@loaded_namespace (serving projected_properties)))
  with
  | Template _ map_html _ => map_html
  | _ => {| location := default_center; zoom_start := 0; children := [] |}
  end.

(** * Properties *)

Example format_500000 :
  format_assessed_value
    (<["assessed_value" := VNum (float_of_N 500000)]> ∅)
  = Ok "Assessed Value: $500,000".
Proof. reflexivity. Qed.

Example load_sample_ok :
  fst (@load_data sample_libs fresh_namespace) = Ok tt.
Proof. vm_compute. reflexivity. Qed.

Example sample_hillhurst :
  exists m, @serve sample_libs (POST_map (select "HILLHURST"))
              (@loaded_namespace sample_libs)
            = (Template "map.html" m (VStr "HILLHURST"), @loaded_namespace sample_libs).
Proof. eexists. vm_compute. reflexivity. Qed.

(** ** The assessed-value summary *)

Lemma append_if_present_spec label v acc :
  numeric_or_none v ->
  append_if_present label v acc
  = Ok (acc ++ match present v with
               | Some x => [label +:+ ": $" +:+ format_comma_0f x]
               | None => []
               end)%list.
Proof.
  unfold append_if_present.
  destruct v as [| s | x | g]; simpl; try contradiction; intros _.
  - by rewrite app_nil_r.
  - destruct x; simpl; by rewrite ?app_nil_r.
Qed.

Lemma value_columns_numeric row :
  (forall col, col ∈ value_columns -> numeric_or_none (row_get row col)) ->
  numeric_or_none (row_get row "assessed_value")
  /\ numeric_or_none (row_get row "re_assessed_value")
  /\ numeric_or_none (row_get row "nr_assessed_value")
  /\ numeric_or_none (row_get row "fl_assessed_value").
Proof.
  intros H. repeat split; apply H; unfold value_columns; set_solver.
Qed.

Lemma format_assessed_value_ok (row : gmap string value) :
  (forall col, col ∈ value_columns -> numeric_or_none (row_get row col)) ->
  format_assessed_value row = Ok (summary_spec row).
Proof.
  intros H. destruct (value_columns_numeric row H) as (H1 & H2 & H3 & H4).
  unfold format_assessed_value.
  rewrite (append_if_present_spec _ _ _ H1). cbn [mbind result_bind].
  rewrite (append_if_present_spec _ _ _ H2). cbn [mbind result_bind].
  rewrite (append_if_present_spec _ _ _ H3). cbn [mbind result_bind].
  rewrite (append_if_present_spec _ _ _ H4). cbn [mbind result_bind].
  unfold summary_spec, summary_lines, summary_line, value_labels.
  destruct (present (row_get row "assessed_value")) eqn:E1;
    destruct (present (row_get row "re_assessed_value")) eqn:E2;
    destruct (present (row_get row "nr_assessed_value")) eqn:E3;
    destruct (present (row_get row "fl_assessed_value")) eqn:E4;
    cbn; rewrite ?E1, ?E2, ?E3, ?E4; reflexivity.
Qed.

(** C2: on a property record whose four value components are numbers or
    are missing, the summary lists the present components only, in the
    order overall, residential, non-residential, farm land, each as
    "<Label>: $<value with thousands separators and no decimals>", joined
    by "<br>"; when none is present it is the text
    "No assessed value information". *)
Theorem format_assessed_value_summary (row : gmap string value) :
  (forall col, col ∈ value_columns -> numeric_or_none (row_get row col)) ->
  format_assessed_value row = Ok (summary_spec row)
  /\ summary_lines row
     = omap (fun cl : string * string =>
               match present (row_get row cl.1) with
               | Some x => Some (cl.2 +:+ ": $" +:+ format_comma_0f x)
               | None => None
               end)
            [("assessed_value", "Assessed Value");
             ("re_assessed_value", "Residential Assessed Value");
             ("nr_assessed_value", "Non-Residential Assessed Value");
             ("fl_assessed_value", "Farm Land Assessed Value")]
  /\ ((forall col, col ∈ value_columns -> present (row_get row col) = None) ->
      format_assessed_value row = Ok "No assessed value information").
Proof.
  intros H. pose proof (format_assessed_value_ok row H) as E.
  split; [exact E|]. split; [reflexivity|].
  intros Habs. rewrite E. unfold summary_spec, summary_lines, summary_line, value_labels.
  cbn. rewrite !Habs by (unfold value_columns; set_solver). reflexivity.
Qed.

(** ** Selection of rows by the value of a column *)

Lemma boolean_index_mask (p : gmap string value -> bool) rws :
  boolean_index rws (map p rws) = List.filter p rws.
Proof.
  induction rws as [| r rws IH]; simpl; [reflexivity|].
  rewrite IH. reflexivity.
Qed.

Lemma select_eq_rows df col v :
  has_column df col = true ->
  select_eq df col v
  = Ok {| columns := columns df;
          rows := List.filter (fun row => value_eqb (cell row col) v) (rows df);
          crs := crs df |}.
Proof.
  intros Hcol. unfold select_eq, get_column. rewrite Hcol. cbn.
  rewrite map_map, boolean_index_mask. reflexivity.
Qed.

Lemma select_eq_missing df col v :
  has_column df col = false -> select_eq df col v = Raise (KeyError col).
Proof. intros Hcol. unfold select_eq, get_column. rewrite Hcol. reflexivity. Qed.

(** A cell equals a text scalar exactly when the row carries that very
    text under the label. *)
Lemma value_eqb_text (row : gmap string value) col s :
  value_eqb (cell row col) (VStr s) = true <-> row !! col = Some (VStr s).
Proof.
  unfold cell. destruct (row !! col) as [[| t | x | g] |]; simpl;
    try (split; [discriminate | intros [=]]).
  rewrite String.eqb_eq. split; [intros -> | intros [=]]; congruence.
Qed.

Lemma has_column_nonempty df col :
  has_column df col = true -> columns df <> [].
Proof.
  unfold has_column. intros H%bool_decide_eq_true Hnil.
  rewrite Hnil in H. by apply not_elem_of_nil in H.
Qed.

Lemma frame_empty_rows df col :
  has_column df col = true ->
  frame_empty df = match rows df with [] => true | _ :: _ => false end.
Proof.
  intros H%has_column_nonempty. unfold frame_empty.
  destruct (rows df), (columns df); congruence.
Qed.


(** ** Running the interpreter monad *)

Section Running.
Context `{L : Libs}.

Lemma run_ret {A} (a : A) ns : (mret a : M A) ns = (Ok a, ns).
Proof. reflexivity. Qed.

Lemma run_read {A B} name (field : namespace -> binding A) (k : A -> M B) a ns :
  field ns = Bound a -> (read name field ≫= k) ns = k a ns.
Proof. intros H. unfold mbind, M_bind, read. rewrite H. reflexivity. Qed.

Lemma run_lift_ok {A B} (r : result A) (k : A -> M B) a ns :
  r = Ok a -> (lift r ≫= k) ns = k a ns.
Proof. intros ->. reflexivity. Qed.

Lemma run_lift_raise {A B} (r : result A) (k : A -> M B) e ns :
  r = Raise e -> (lift r ≫= k) ns = (Raise e, ns).
Proof. intros ->. reflexivity. Qed.

Lemma run_lift_cases {A B} (r : result A) (k : A -> M B) ns :
  (lift r ≫= k) ns = match r with Ok a => k a ns | Raise e => (Raise e, ns) end.
Proof. destruct r; reflexivity. Qed.

Lemma run_read_cases {A B} name (field : namespace -> binding A) (k : A -> M B) ns :
  (read name field ≫= k) ns
  = match field ns with
    | Bound a => k a ns
    | Unbound => (Raise (NameError name), ns)
    end.
Proof. unfold mbind, M_bind, read. destruct (field ns); reflexivity. Qed.

Lemma readonly_ret {A} (a : A) : readonly (mret a : M A).
Proof. intros ns. reflexivity. Qed.

Lemma readonly_lift {A} (r : result A) : readonly (lift r).
Proof. intros ns. reflexivity. Qed.

Lemma readonly_read {A} name (field : namespace -> binding A) :
  readonly (read name field).
Proof. intros ns. unfold read. destruct (field ns); reflexivity. Qed.

Lemma readonly_bind {A B} (m : M A) (k : A -> M B) :
  readonly m -> (forall a, readonly (k a)) -> readonly (m ≫= k).
Proof.
  intros Hm Hk ns. unfold mbind, M_bind.
  specialize (Hm ns). destruct (m ns) as [[a | e] ns']; simpl in Hm; subst ns'.
  - apply Hk.
  - reflexivity.
Qed.

End Running.

Create HintDb readonly.
#[export] Hint Resolve readonly_ret readonly_lift readonly_read : readonly.

(** Splits a computation along its binds, branches and matches. *)
Ltac readonly_step :=
  match goal with
  | |- readonly (mbind _ _) => apply readonly_bind; [| intros ?]
  | |- readonly (match ?x with _ => _ end) => destruct x
  | |- readonly (let _ := _ in _) => cbv zeta
  | |- readonly _ => solve [auto with readonly]
  end.

(** Runs the guard of the detail route under a [ready] hypothesis. *)
Ltac pass_guard H :=
  let Hform := fresh "Hform" in
  let Hsel := fresh "Hsel" in
  let Hp := fresh "Hp" in
  let Hc := fresh "Hc" in
  let Hs := fresh "Hs" in
  let sectors := fresh "sectors" in
  destruct H as (Hform & Hsel & Hp & Hc & sectors & Hs);
  unfold serve, view, show_map; rewrite Hform;
  apply String.eqb_neq in Hsel; rewrite Hsel;
  rewrite (run_read _ _ _ _ _ Hp); cbv beta iota;
  rewrite (run_read _ _ _ _ _ Hc); cbv beta iota;
  rewrite (run_read _ _ _ _ _ Hs); cbv beta iota.

(** One successful library call or table access. *)
Ltac step_ok E := rewrite (run_lift_ok _ _ _ _ E); cbv beta iota zeta.

(** Follows a view function along every path: each read, each call that may
    raise and each test is split into its outcomes. *)
Ltac walk :=
  repeat first
    [ rewrite run_read_cases
    | rewrite run_lift_cases
    | rewrite run_ret
    | progress cbv beta iota zeta
    | match goal with
      | |- context [match ?x with _ => _ end] =>
          lazymatch type of x with
          | prod _ _ => fail
          | _ => destruct x eqn:?
          end
      end ].

Section Routes.
Context `{L : Libs}.

Lemma calgary_overview_readonly : readonly calgary_overview.
Proof. unfold calgary_overview. repeat readonly_step. Qed.

Lemma show_map_readonly form : readonly (show_map form).
Proof. unfold show_map. repeat readonly_step. Qed.

Lemma view_readonly r : readonly (view r).
Proof.
  destruct r; [apply calgary_overview_readonly | apply show_map_readonly].
Qed.

(** C10: serving a request, overview or detail, leaves the namespace, and
    with it the three shared tables, exactly as it was. *)
Theorem serve_preserves_datasets (r : request) (ns : namespace) :
  snd (serve r ns) = ns
  /\ properties_gdf (snd (serve r ns)) = properties_gdf ns
  /\ communities_gdf (snd (serve r ns)) = communities_gdf ns
  /\ sector_gdf (snd (serve r ns)) = sector_gdf ns.
Proof.
  assert (E : snd (serve r ns) = ns).
  { unfold serve. pose proof (view_readonly r ns) as H.
    destruct (view r ns) as [[resp | e] ns']; exact H. }
  rewrite E. auto.
Qed.

Lemma frame_empty_select df col rws c :
  has_column df col = true ->
  frame_empty {| columns := columns df; rows := rws; crs := c |}
  = match rws with [] => true | _ :: _ => false end.
Proof.
  intros H%has_column_nonempty. unfold frame_empty. cbn.
  destruct rws, (columns df); congruence.
Qed.

Lemma filter_none {A} (p : A -> bool) l :
  (forall x, x ∈ l -> p x = false) -> List.filter p l = [].
Proof.
  induction l as [| x l IH]; intros H; cbn; [reflexivity|].
  rewrite (H x) by left. apply IH. intros y Hy. apply H. by right.
Qed.

(** C4: the boundary rows taken for a selection are exactly those whose
    display name is the selected text, character for character; and when
    there is none the client gets the 404 answer
    "No boundary data found for community: ..." and no map. *)
Theorem community_not_found ns form selected properties communities :
  ready ns form selected properties communities ->
  has_column communities "name" = true ->
  (exists community_boundary,
      select_eq communities "name" (VStr selected) = Ok community_boundary
      /\ forall row,
           row ∈ rows community_boundary
           <-> row ∈ rows communities /\ row !! "name" = Some (VStr selected))
  /\ ((forall row, row ∈ rows communities -> row !! "name" <> Some (VStr selected)) ->
      serve (POST_map form) ns
      = (Text ("No boundary data found for community: " +:+ selected) 404, ns)).
Proof.
  intros Hready Hname. split.
  - eexists. split; [apply select_eq_rows, Hname|]. cbn. intros row.
    rewrite !list_elem_of_In, filter_In, value_eqb_text. reflexivity.
  - intros Hnone. pass_guard Hready.
    step_ok (select_eq_rows communities "name" (VStr selected) Hname).
    rewrite (frame_empty_select _ _ _ _ Hname), filter_none; [reflexivity|].
    intros row Hrow. apply not_true_is_false. rewrite value_eqb_text.
    by apply Hnone.
Qed.

Lemma value_eqb_text_inv v s : value_eqb v (VStr s) = true -> v = VStr s.
Proof.
  destruct v; cbn; try discriminate. intros H%String.eqb_eq. congruence.
Qed.

Lemma select_eq_inv df col v sub :
  has_column df col = true ->
  select_eq df col v = Ok sub ->
  columns sub = columns df /\ crs sub = crs df
  /\ rows sub = List.filter (fun row => value_eqb (cell row col) v) (rows df).
Proof.
  intros Hcol. rewrite (select_eq_rows _ _ _ Hcol). intros [= <-]. auto.
Qed.

Lemma has_column_columns df df' col :
  columns df' = columns df -> has_column df' col = has_column df col.
Proof. unfold has_column. intros ->. reflexivity. Qed.

Lemma frame_empty_cons df col row rws :
  has_column df col = true -> rows df = row :: rws -> frame_empty df = false.
Proof.
  intros Hcol Hrows. rewrite (frame_empty_rows _ _ Hcol), Hrows. reflexivity.
Qed.

Lemma first_cell df col row rws :
  has_column df col = true -> rows df = row :: rws ->
  (column ← get_column df col; iloc0 column) = Ok (cell row col).
Proof.
  intros Hcol Hrows. unfold get_column. rewrite Hcol, Hrows. reflexivity.
Qed.

Lemma not_found_differs a b :
  "No property data found for community: " +:+ a
  <> "No boundary data found for community: " +:+ b.
Proof. cbv [String.append]. congruence. Qed.

(** C5: when a boundary row carries the selected name but no property row
    carries its community code, the client gets the 404 answer
    "No property data found for community: ... (Filter Code: ...)." which
    is not the answer given for a community that is not found. *)
Theorem no_properties_for_community ns form selected properties communities
    community_boundary boundary rest :
  ready ns form selected properties communities ->
  detail_schema properties communities ->
  select_eq communities "name" (VStr selected) = Ok community_boundary ->
  rows community_boundary = boundary :: rest ->
  (forall row, row ∈ rows properties ->
     value_eqb (cell row "comm_code") (cell boundary "comm_code") = false) ->
  let answer :=
    Text ("No property data found for community: " +:+ selected
          +:+ " (Filter Code: " +:+ py_str (cell boundary "comm_code") +:+ ").")
         404 in
  serve (POST_map form) ns = (answer, ns)
  /\ (forall other,
        answer <> Text ("No boundary data found for community: " +:+ other) 404)
  /\ answer <> not_selected_or_not_loaded.
Proof.
  intros Hready (Hname & Hcode & _ & Hpcode & _) Hsel Hrows Hnone answer.
  destruct (select_eq_inv _ _ _ _ Hname Hsel) as (Hcols & _ & Hfilter).
  assert (Hbname : cell boundary "name" = VStr selected).
  { apply value_eqb_text_inv.
    assert (Hin : In boundary (rows community_boundary)) by (rewrite Hrows; left; reflexivity).
    rewrite Hfilter in Hin. apply filter_In in Hin. apply Hin. }
  split; [| split].
  - pass_guard Hready. step_ok Hsel.
    rewrite (frame_empty_cons community_boundary "name" boundary rest)
      by (rewrite ?(has_column_columns _ _ _ Hcols); assumption).
    step_ok (first_cell community_boundary "comm_code" boundary rest
               ltac:(rewrite (has_column_columns _ _ _ Hcols); assumption) Hrows).
    step_ok (select_eq_rows properties "comm_code" (cell boundary "comm_code") Hpcode).
    rewrite (frame_empty_select _ _ _ _ Hpcode), filter_none by exact Hnone.
    rewrite Hrows. unfold getitem.
    rewrite (has_column_columns _ _ _ Hcols), Hname. cbn.
    by rewrite Hbname.
  - intros other H.
    apply (not_found_differs
             (selected +:+ " (Filter Code: "
              +:+ py_str (cell boundary "comm_code") +:+ ").") other).
    unfold answer in H. congruence.
  - unfold answer, not_selected_or_not_loaded. congruence.
Qed.

(** ** Reprojection *)

Lemma zip_with_insert_map col (f : gmap string value -> value) rws :
  zip_with (fun (row : gmap string value) v => <[col := v]> row) rws (map f rws)
  = map (fun row => <[col := f row]> row) rws.
Proof.
  induction rws as [| row rws IH]; cbn; [reflexivity|]. by rewrite IH.
Qed.

Lemma target_4326 : "EPSG:" +:+ NilZero.string_of_int (Z.to_int 4326) = EPSG_4326.
Proof. reflexivity. Qed.

(** On a frame with a geometry column and a declared reference system the
    reprojection succeeds; it keeps the labels and the number of rows and
    declares EPSG:4326. *)
Lemma to_crs_ok df src :
  has_column df "geometry" = true ->
  crs df = Some src ->
  exists df', to_crs df 4326 = Ok df'
    /\ columns df' = columns df
    /\ length (rows df') = length (rows df)
    /\ crs df' = Some EPSG_4326.
Proof.
  intros Hgeom Hcrs. unfold to_crs, geometry_column. rewrite Hgeom, target_4326.
  cbn. rewrite Hcrs. destruct (String.eqb src EPSG_4326) eqn:E.
  - apply String.eqb_eq in E. subst src. eauto.
  - eexists. split; [reflexivity|]. cbn. repeat split.
    rewrite map_map, zip_with_insert_map, length_map. reflexivity.
Qed.

(** A table that has been reprojected once is returned as it is by any
    further reprojection. *)
Lemma to_crs_idempotent df df' :
  to_crs df 4326 = Ok df' ->
  to_crs df' 4326 = Ok df' /\ ensure_epsg_4326 df' = Ok df'.
Proof.
  intros Hto.
  assert (Hgeom : has_column df "geometry" = true).
  { unfold to_crs, geometry_column in Hto.
    destruct (has_column df "geometry"); [reflexivity | discriminate]. }
  destruct (crs df) as [src|] eqn:Hcrs.
  - destruct (to_crs_ok df src Hgeom Hcrs) as (d & Hd & Hcols & _ & Hcrs').
    rewrite Hd in Hto. injection Hto as <-. split.
    + unfold to_crs, geometry_column.
      rewrite (has_column_columns _ _ _ Hcols), Hgeom, target_4326. cbn.
      rewrite Hcrs'. reflexivity.
    + unfold ensure_epsg_4326. rewrite Hcrs'. reflexivity.
  - unfold to_crs, geometry_column in Hto. rewrite Hgeom in Hto. cbn in Hto.
    rewrite Hcrs in Hto. discriminate.
Qed.

(** C9: on a geometry table that is in EPSG:4326 already, the reprojection
    step returns the table as it is, coordinates included, in both of its
    forms: the direct call of the detail route and the guarded call of the
    load and of the property layer. *)
Theorem reprojection_noop (df : GeoDataFrame) :
  crs df = Some EPSG_4326 ->
  has_column df "geometry" = true ->
  to_crs df 4326 = Ok df
  /\ ensure_epsg_4326 df = Ok df
  /\ (df' ← to_crs df 4326; ensure_epsg_4326 df') = Ok df.
Proof.
  intros Hcrs Hgeom.
  assert (Hto : to_crs df 4326 = Ok df).
  { unfold to_crs, geometry_column. rewrite Hgeom, target_4326. cbn.
    rewrite Hcrs. reflexivity. }
  assert (He : ensure_epsg_4326 df = Ok df).
  { unfold ensure_epsg_4326. rewrite Hcrs. reflexivity. }
  rewrite Hto. cbn. auto.
Qed.

Lemma centroids_first df row rws :
  has_column df "geometry" = true -> rows df = row :: rws ->
  exists cs, centroids df = Ok (centroid_of (cell row "geometry") :: cs).
Proof.
  intros Hgeom Hrows. unfold centroids, geometry_column. rewrite Hgeom, Hrows.
  eexists. reflexivity.
Qed.

(** ** The checks of folium *)

Lemma folium_Map_located centre zoom :
  located centre ->
  folium_Map centre zoom
  = Ok {| location := centre; zoom_start := zoom; children := [] |}.
Proof. intros [Hx Hy]. unfold folium_Map. rewrite Hx, Hy. reflexivity. Qed.

Lemma located_swap (centre : point) : located centre -> located (snd centre, fst centre).
Proof. intros [Hx Hy]. split; assumption. Qed.

Lemma folium_Map_inv centre zoom m :
  folium_Map centre zoom = Ok m ->
  m = {| location := centre; zoom_start := zoom; children := [] |}
  /\ is_nan centre.1 = false /\ is_nan centre.2 = false.
Proof.
  unfold folium_Map.
  destruct (is_nan centre.1) eqn:E1; [discriminate|].
  destruct (is_nan centre.2) eqn:E2; [discriminate|].
  intros [= <-]. auto.
Qed.

Lemma folium_Map_raise centre zoom e :
  folium_Map centre zoom = Raise e -> e = nan_location.
Proof.
  unfold folium_Map. destruct (is_nan centre.1 || is_nan centre.2); [| discriminate].
  intros [= <-]. reflexivity.
Qed.

(** A field other than the three that are set aside is a key exactly when
    it is a column. *)
Lemma feature_keys_column df field :
  field ∉ ["geometry"; "style"; "highlight"] ->
  bool_decide (field ∈ feature_keys df) = has_column df field.
Proof.
  intros Hfield. unfold has_column, feature_keys. apply bool_decide_ext.
  rewrite !list_elem_of_In, filter_In. split; [tauto|].
  intros Hin. split; [exact Hin|].
  rewrite !not_elem_of_cons in Hfield. destruct Hfield as (H1 & H2 & H3 & _).
  apply String.eqb_neq in H1, H2, H3. by rewrite H1, H2, H3.
Qed.

Lemma render_detail_field df field alias :
  field ∉ ["geometry"; "style"; "highlight"] ->
  has_column df field = true -> rows df <> [] ->
  render_detail df [(field, alias)] = Ok tt.
Proof.
  intros Hfree Hcol Hrows. unfold render_detail.
  destruct (rows df); [congruence|]. cbn [map fst assert_fields].
  by rewrite (feature_keys_column _ _ Hfree), Hcol.
Qed.

Lemma render_detail_fields df :
  popup_schema df -> rows df <> [] -> render_detail df detail_fields = Ok tt.
Proof.
  intros (Ha & Hc & Hf) Hrows. unfold render_detail, detail_fields.
  destruct (rows df); [congruence|]. cbn [map fst assert_fields].
  assert (Hfree : forall field,
            field ∈ ["address"; "assessment_class_description";
                     "formatted_assessed_values"] ->
            field ∉ ["geometry"; "style"; "highlight"]).
  { intros field Hin Hres. rewrite !elem_of_cons, elem_of_nil in Hin, Hres.
    destruct Hin as [-> | [-> | [-> | []]]];
      destruct Hres as [H | [H | [H | []]]]; discriminate H. }
  rewrite !feature_keys_column, Ha, Hc, Hf by (apply Hfree; set_solver).
  reflexivity.
Qed.

(** The rendering of the map of the detail route: only the property layer
    has a tooltip and a popup. *)
Lemma repr_html_detail m boundary_layer property_layer :
  children m = [] ->
  tooltip boundary_layer = [] -> popup boundary_layer = [] ->
  render_detail (data property_layer) (tooltip property_layer) = Ok tt ->
  render_detail (data property_layer) (popup property_layer) = Ok tt ->
  repr_html (add_to LayerControl (add_to (Layer property_layer)
                                   (add_to (Layer boundary_layer) m)))
  = Ok (add_to LayerControl (add_to (Layer property_layer)
                               (add_to (Layer boundary_layer) m))).
Proof.
  intros Hm Htb Hpb Ht Hp. unfold repr_html, add_to. cbn [children].
  rewrite Hm. cbn [app rmap render_child mbind result_bind].
  rewrite Htb, Hpb, Ht, Hp. reflexivity.
Qed.

Lemma assert_fields_raise fields keys e :
  assert_fields fields keys = Raise e ->
  exists field, e = AssertionError field keys /\ field ∈ fields.
Proof.
  induction fields as [| f fields IH]; cbn; [discriminate|].
  destruct (bool_decide (f ∈ keys)).
  - intros (field & He & Hin)%IH. exists field. split; [exact He | by right].
  - intros [= <-]. exists f. split; [reflexivity | by left].
Qed.

Lemma render_detail_raise df fields e :
  rows df <> [] -> render_detail df fields = Raise e ->
  exists field, e = AssertionError field (feature_keys df) /\ field ∈ map fst fields.
Proof.
  intros Hrows. unfold render_detail. destruct fields; [discriminate|].
  destruct (rows df); [congruence|]. apply assert_fields_raise.
Qed.

(** When the map of the detail route cannot be rendered, a field of the
    tooltip or popup of the property layer is not among the keys. *)
Lemma repr_html_detail_raise m boundary_layer property_layer e :
  children m = [] ->
  tooltip boundary_layer = [] -> popup boundary_layer = [] ->
  rows (data property_layer) <> [] ->
  repr_html (add_to LayerControl (add_to (Layer property_layer)
                                   (add_to (Layer boundary_layer) m)))
  = Raise e ->
  exists field,
    e = AssertionError field (feature_keys (data property_layer))
    /\ (field ∈ map fst (tooltip property_layer)
        \/ field ∈ map fst (popup property_layer)).
Proof.
  intros Hm Htb Hpb Hrows. unfold repr_html, add_to. cbn [children].
  rewrite Hm. cbn [app rmap render_child mbind result_bind].
  rewrite Htb, Hpb. cbn [render_detail mbind result_bind].
  destruct (render_detail (data property_layer) (tooltip property_layer))
    as [[] | e1] eqn:E1; cbn [mbind result_bind].
  - destruct (render_detail (data property_layer) (popup property_layer))
      as [[] | e2] eqn:E2; cbn [mbind result_bind]; [discriminate|].
    intros [= <-]. destruct (render_detail_raise _ _ _ Hrows E2) as (f & -> & Hf).
    eauto.
  - intros [= <-]. destruct (render_detail_raise _ _ _ Hrows E1) as (f & -> & Hf).
    eauto.
Qed.

Lemma repr_html_inv m m' : repr_html m = Ok m' -> m' = m.
Proof.
  unfold repr_html. destruct (rmap render_child (children m)); [| discriminate].
  cbn. congruence.
Qed.

Lemma popup_schema_columns df df' :
  columns df' = columns df -> popup_schema df -> popup_schema df'.
Proof.
  intros Hcols (Ha & Hc & Hf). unfold popup_schema.
  by rewrite !(has_column_columns _ _ _ Hcols).
Qed.

(** C3: whenever the detail route renders a page for a selection that
    takes boundary records and property records, the display name handed to
    the template is the community name of the first record of the property
    subset; the page is rendered when the property table has the columns of
    the tooltip and the centroid of the first boundary record is a point;
    and when that community name differs from the display name of the
    boundary record, which is the selected text, it is the former that is
    passed and never the latter. *)
Theorem detail_display_name ns form selected properties communities
    community_boundary boundary rest community_properties_gdf first others :
  ready ns form selected properties communities ->
  detail_schema properties communities ->
  select_eq communities "name" (VStr selected) = Ok community_boundary ->
  rows community_boundary = boundary :: rest ->
  select_eq properties "comm_code" (cell boundary "comm_code")
  = Ok community_properties_gdf ->
  rows community_properties_gdf = first :: others ->
  (forall template map_html community_name,
     fst (serve (POST_map form) ns) = Template template map_html community_name ->
     community_name = cell first "comm_name")
  /\ (popup_schema properties ->
      (forall projected_boundary centre cs,
         to_crs community_boundary 4326 = Ok projected_boundary ->
         centroids projected_boundary = Ok (centre :: cs) ->
         located centre) ->
      exists map_html,
        serve (POST_map form) ns
        = (Template "map.html" map_html (cell first "comm_name"), ns))
  /\ cell boundary "name" = VStr selected
  /\ (cell first "comm_name" <> cell boundary "name" ->
      forall template map_html,
        fst (serve (POST_map form) ns)
        <> Template template map_html (VStr selected)).
Proof.
  intros Hready (Hname & Hcode & Hgeom & Hpcode & Hpname & Hpgeom & [sb Hcrs] & [sp Hpcrs])
    Hsel Hrows Hsub Hsubrows.
  destruct (select_eq_inv _ _ _ _ Hname Hsel) as (Hcols & Hbcrs & Hfilter).
  destruct (select_eq_inv _ _ _ _ Hpcode Hsub) as (Hpcols & Hscrs & _).
  assert (Hbname : cell boundary "name" = VStr selected).
  { apply value_eqb_text_inv.
    assert (Hin : In boundary (rows community_boundary))
      by (rewrite Hrows; left; reflexivity).
    rewrite Hfilter in Hin. apply filter_In in Hin. apply Hin. }
  assert (Hname_passed : forall template map_html community_name,
             fst (serve (POST_map form) ns)
             = Template template map_html community_name ->
             community_name = cell first "comm_name").
  { intros template map_html community_name.
    destruct Hready as (Hform & Hne & Hp & Hc & sectors & Hs).
    unfold serve, view, show_map. rewrite Hform.
    apply String.eqb_neq in Hne. rewrite Hne.
    rewrite (run_read _ _ _ _ _ Hp); cbv beta iota.
    rewrite (run_read _ _ _ _ _ Hc); cbv beta iota.
    rewrite (run_read _ _ _ _ _ Hs); cbv beta iota.
    step_ok Hsel.
    rewrite (frame_empty_cons community_boundary "name" boundary rest)
      by (rewrite ?(has_column_columns _ _ _ Hcols); assumption).
    step_ok (first_cell community_boundary "comm_code" boundary rest
               ltac:(rewrite (has_column_columns _ _ _ Hcols); assumption) Hrows).
    step_ok Hsub.
    rewrite (frame_empty_cons community_properties_gdf "comm_code" first others)
      by (rewrite ?(has_column_columns _ _ _ Hpcols); assumption).
    step_ok (first_cell community_properties_gdf "comm_name" first others
               ltac:(rewrite (has_column_columns _ _ _ Hpcols); assumption) Hsubrows).
    walk; cbn [fst]; intros H; inversion H; reflexivity. }
  split; [exact Hname_passed|]. split; [| split; [exact Hbname|]].
  - intros Hpopup Hlocated.
    destruct (to_crs_ok community_properties_gdf sp) as (d1 & Hd1 & Hd1cols & Hd1len & Hd1crs);
      [by rewrite (has_column_columns _ _ _ Hpcols) | congruence |].
    destruct (to_crs_ok community_boundary sb) as (d2 & Hd2 & Hd2cols & Hd2len & _);
      [by rewrite (has_column_columns _ _ _ Hcols) | congruence |].
    destruct (rows d2) as [| row2 rows2] eqn:Hd2rows;
      [rewrite Hrows in Hd2len; discriminate |].
    destruct (centroids_first d2 row2 rows2) as (cs & Hcs);
      [by rewrite (has_column_columns _ _ _ Hd2cols), (has_column_columns _ _ _ Hcols)
      | exact Hd2rows |].
    pose proof (Hlocated _ _ _ Hd2 Hcs) as Hcentre.
    pass_guard Hready. step_ok Hsel.
    rewrite (frame_empty_cons community_boundary "name" boundary rest)
      by (rewrite ?(has_column_columns _ _ _ Hcols); assumption).
    step_ok (first_cell community_boundary "comm_code" boundary rest
               ltac:(rewrite (has_column_columns _ _ _ Hcols); assumption) Hrows).
    step_ok Hsub.
    rewrite (frame_empty_cons community_properties_gdf "comm_code" first others)
      by (rewrite ?(has_column_columns _ _ _ Hpcols); assumption).
    step_ok (first_cell community_properties_gdf "comm_name" first others
               ltac:(rewrite (has_column_columns _ _ _ Hpcols); assumption) Hsubrows).
    step_ok Hd1. step_ok Hd2. step_ok Hcs.
    cbn [map fst snd iloc0].
    rewrite (run_lift_ok _ _ _ _ eq_refl); cbv beta iota zeta.
    rewrite (run_lift_ok _ _ _ _ eq_refl); cbv beta iota zeta.
    step_ok (folium_Map_located _ 14 (located_swap _ Hcentre)).
    assert (He : ensure_epsg_4326 d1 = Ok d1)
      by (unfold ensure_epsg_4326; rewrite Hd1crs; reflexivity).
    step_ok He.
    assert (Hrender : render_detail d1 detail_fields = Ok tt).
    { apply render_detail_fields.
      - apply (popup_schema_columns properties); [congruence | exact Hpopup].
      - intros Hnil. rewrite Hnil, Hsubrows in Hd1len. discriminate. }
    rewrite run_lift_cases.
    rewrite repr_html_detail by first [reflexivity | exact Hrender].
    eexists. reflexivity.
  - intros Hdiff template map_html Heq.
    apply Hname_passed in Heq. congruence.
Qed.

(** ** The start-up load *)

Lemma load_failed_run e ns : load_failed e ns = (Ok tt, unavailable_namespace).
Proof. reflexivity. Qed.

Lemma load_data_raise ns0 e ns1 :
  load_body ns0 = (Raise e, ns1) -> load_data ns0 = (Ok tt, unavailable_namespace).
Proof.
  intros H. unfold load_data, try_except. rewrite H. apply load_failed_run.
Qed.

(** The body of the [try] block either raises or leaves all three names
    holding tables. *)
Lemma load_body_outcome ns0 :
  (exists e ns1, load_body ns0 = (Raise e, ns1))
  \/ (exists ns1, load_body ns0 = (Ok tt, ns1) /\ all_available ns1).
Proof.
  unfold load_body, mbind, M_bind, lift, read,
    assign_properties_gdf, assign_communities_gdf, assign_sector_gdf,
    assign_calgary_center.
  cbn.
  repeat match goal with
         | |- context [match ?r with Ok _ => _ | Raise _ => _ end] =>
             destruct r eqn:?; cbn; [| left; eauto]
         end.
  right. eexists. split; [reflexivity|]. unfold all_available. cbn.
  do 3 eexists. repeat split; reflexivity.
Qed.

(** A download that fails makes the body of the [try] block raise. *)
Lemma fetch_failure_raises ns0 url e :
  url ∈ [properties_url; communities_url; sector_url] ->
  read_file url = Raise e ->
  exists e' ns1, load_body ns0 = (Raise e', ns1).
Proof.
  intros Hurl Hfail.
  destruct (load_body_outcome ns0) as [Hraise | (ns1 & Hok & _)]; [exact Hraise|].
  exfalso. revert Hok.
  unfold load_body, mbind, M_bind, lift, assign_properties_gdf,
    assign_communities_gdf, assign_sector_gdf.
  rewrite !elem_of_cons, elem_of_nil in Hurl.
  destruct (read_file properties_url) eqn:E1;
    [| intros; discriminate].
  destruct (read_file communities_url) eqn:E2;
    [| intros; discriminate].
  destruct (read_file sector_url) eqn:E3;
    [| intros; discriminate].
  destruct Hurl as [-> | [-> | [-> | []]]]; congruence.
Qed.

(** Whatever happens, the load never leaves some tables available and
    others not. *)
Lemma load_all_or_nothing (ns0 : namespace) :
  snd (load_data ns0) = unavailable_namespace
  \/ all_available (snd (load_data ns0)).
Proof.
  destruct (load_body_outcome ns0) as [(e & ns1 & H) | (ns1 & H & Hall)].
  - left. by rewrite (load_data_raise _ _ _ H).
  - right. unfold load_data, try_except. rewrite H. exact Hall.
Qed.

(** C7: when a download or any later step of the start-up load fails,
    the load ends with all three dataset names set to [None] and the
    centre set to the default [[51.0447, -114.0719]]. *)
Theorem load_failure_unavailable (ns0 : namespace) :
  (exists url e,
      url ∈ [properties_url; communities_url; sector_url]
      /\ read_file url = Raise e)
  \/ (exists e ns1, load_body ns0 = (Raise e, ns1)) ->
  load_data ns0 = (Ok tt, unavailable_namespace)
  /\ properties_gdf (snd (load_data ns0)) = Bound None
  /\ communities_gdf (snd (load_data ns0)) = Bound None
  /\ sector_gdf (snd (load_data ns0)) = Bound None
  /\ calgary_center (snd (load_data ns0)) = Bound default_center.
Proof.
  intros H.
  assert (Hraise : exists e ns1, load_body ns0 = (Raise e, ns1)).
  { destruct H as [(url & e & Hurl & Hfail) | H]; [| exact H].
    eapply fetch_failure_raises; eauto. }
  destruct Hraise as (e & ns1 & Hraise).
  rewrite (load_data_raise _ _ _ Hraise). repeat split.
Qed.

(** ** The answers of the detail route to a request it cannot serve *)

Lemma show_map_unavailable form :
  serve (POST_map form) unavailable_namespace
  = (not_selected_or_not_loaded, unavailable_namespace).
Proof.
  unfold serve, view, show_map.
  destruct (form !! "community_name") as [selected|]; [| reflexivity].
  destruct (String.eqb selected ""); reflexivity.
Qed.

(** C8, as the code has it: a detail request without a community name
    (none, or the empty text) gets the client error 400
    "Error: Community not selected or data not loaded."; this answer
    differs from the answer for a community that is not found and from the
    overview's answer for data that is not loaded, but it is the very
    answer that the detail route gives to every request when the data is
    unavailable. *)
Theorem missing_selection_response ns form :
  form !! "community_name" = None \/ form !! "community_name" = Some "" ->
  serve (POST_map form) ns
  = (Text "Error: Community not selected or data not loaded." 400, ns)
  /\ (forall other,
        Text "Error: Community not selected or data not loaded." 400
        <> Text ("No boundary data found for community: " +:+ other) 404)
  /\ Text "Error: Community not selected or data not loaded." 400
     <> Text "Error: Data not loaded." 500
  /\ (forall form',
        fst (serve (POST_map form') unavailable_namespace)
        = fst (serve (POST_map form) ns)).
Proof.
  intros H.
  assert (E : serve (POST_map form) ns = (not_selected_or_not_loaded, ns)).
  { unfold serve, view, show_map. destruct H as [-> | ->]; reflexivity. }
  split; [exact E|]. split; [| split].
  - intros other. congruence.
  - congruence.
  - intros form'. rewrite show_map_unavailable, E. reflexivity.
Qed.

End Routes.

(** ** The field normaliser *)

(** Membership of a row or label in an explicit list, case by case. *)
Ltac each_member H :=
  repeat (apply elem_of_cons in H as [-> | H]);
  [.. | by apply elem_of_nil in H].

Section Normaliser.
Context `{L : Libs}.

Lemma to_numeric_coerce_numeric v : exists x, to_numeric_coerce v = VNum x.
Proof.
  destruct v as [| s | x | g]; cbn; eauto.
  destruct (parse_numeric s); eauto.
Qed.

Lemma cell_insert (row : gmap string value) col v : cell (<[col := v]> row) col = v.
Proof. unfold cell. by rewrite lookup_insert_eq. Qed.

Lemma cell_insert_ne (row : gmap string value) c col v :
  c <> col -> cell (<[c := v]> row) col = cell row col.
Proof. intros H. unfold cell. by rewrite lookup_insert_ne. Qed.

Lemma coerce_cell_columns df df' :
  columns df' = columns df -> coerce_cell df' = coerce_cell df.
Proof. intros H. unfold coerce_cell, has_column. rewrite H. reflexivity. Qed.

Lemma coerce_column_spec df col :
  coerce_column df col
  = Ok {| columns := columns df;
          rows := map (fun row => coerce_cell df row col) (rows df);
          crs := crs df |}.
Proof.
  unfold coerce_column, coerce_cell, get_column, set_column.
  destruct (has_column df col) eqn:Hcol; cbn.
  - rewrite map_map, zip_with_insert_map. reflexivity.
  - rewrite map_id. by destruct df.
Qed.

Lemma coerce_columns_spec cols df :
  coerce_columns cols df
  = Ok {| columns := columns df;
          rows := map (coerce_row df cols) (rows df);
          crs := crs df |}.
Proof.
  revert df. induction cols as [| col cols IH]; intros df; cbn.
  - unfold coerce_row. cbn. rewrite map_id. by destruct df.
  - rewrite coerce_column_spec. cbn. rewrite IH. cbn.
    rewrite map_map. unfold coerce_row.
    rewrite (coerce_cell_columns df
               {| columns := columns df; rows := _; crs := crs df |} eq_refl).
    reflexivity.
Qed.

(** A coerced cell stays a number through the rest of the loop. *)
Lemma coerce_row_keeps_number df cols row col x :
  cell row col = VNum x -> exists y, cell (coerce_row df cols row) col = VNum y.
Proof.
  revert row x. induction cols as [| c cols IH]; intros row x Hx; cbn.
  - eauto.
  - unfold coerce_row in *. cbn. unfold coerce_cell at 2.
    destruct (has_column df c); [| eauto].
    destruct (decide (c = col)) as [-> | Hne].
    + destruct (to_numeric_coerce_numeric (cell row col)) as [y Hy].
      eapply IH. rewrite cell_insert. exact Hy.
    + eapply IH. rewrite cell_insert_ne by exact Hne. exact Hx.
Qed.

Lemma coerce_row_numeric df cols row col :
  col ∈ cols -> has_column df col = true ->
  exists x, cell (coerce_row df cols row) col = VNum x.
Proof.
  revert row. induction cols as [| c cols IH]; intros row Hin Hcol.
  - by apply not_elem_of_nil in Hin.
  - destruct (decide (c = col)) as [-> | Hne].
    + unfold coerce_row. cbn. unfold coerce_cell at 2. rewrite Hcol.
      destruct (to_numeric_coerce_numeric (cell row col)) as [y Hy].
      eapply coerce_row_keeps_number. rewrite cell_insert. exact Hy.
    + apply elem_of_cons in Hin as [-> | Hin]; [congruence|].
      unfold coerce_row. cbn. apply IH; assumption.
Qed.

(** Two rows that differ only under [col], by cells with the same coerced
    value, are the same row after the loop has passed [col]. *)
Lemma coerce_row_agree df cols (row : gmap string value) col v w :
  col ∈ cols -> has_column df col = true ->
  to_numeric_coerce v = to_numeric_coerce w ->
  coerce_row df cols (<[col := v]> row) = coerce_row df cols (<[col := w]> row).
Proof.
  intros Hin Hcol Hvw.
  assert (Hgen : forall rv rw : gmap string value,
            (forall k, k <> col -> rv !! k = rw !! k) ->
            to_numeric_coerce (cell rv col) = to_numeric_coerce (cell rw col) ->
            coerce_row df cols rv = coerce_row df cols rw).
  { clear row v w Hvw. induction cols as [| c cols IH]; intros rv rw Hk Hc.
    - by apply not_elem_of_nil in Hin.
    - unfold coerce_row. cbn.
      destruct (decide (c = col)) as [-> | Hne].
      + f_equal. unfold coerce_cell. rewrite Hcol, Hc.
        apply map_eq. intros k. destruct (decide (col = k)) as [-> | Hk'].
        * by rewrite !lookup_insert_eq.
        * rewrite !lookup_insert_ne by exact Hk'. apply Hk. congruence.
      + apply elem_of_cons in Hin as [-> | Hin]; [congruence|].
        apply (IH Hin).
        * intros k Hkc. unfold coerce_cell. destruct (has_column df c); [| by apply Hk].
          assert (E : cell rv c = cell rw c) by (unfold cell; rewrite (Hk c Hne); reflexivity).
          rewrite E. destruct (decide (c = k)) as [-> | Hck].
          -- by rewrite !lookup_insert_eq.
          -- rewrite !lookup_insert_ne by exact Hck. by apply Hk.
        * unfold coerce_cell. destruct (has_column df c); [| exact Hc].
          rewrite !cell_insert_ne by exact Hne. exact Hc. }
  apply Hgen.
  - intros k Hk. rewrite !lookup_insert_ne by congruence. reflexivity.
  - rewrite !cell_insert. exact Hvw.
Qed.

Lemma row_series_get df row col :
  row_get (row_series df row) col
  = if has_column df col then cell row col else VNone.
Proof.
  unfold row_get, row_series, has_column.
  induction (columns df) as [| c cs IH]; cbn.
  - rewrite lookup_empty. reflexivity.
  - destruct (decide (c = col)) as [-> | Hne].
    + rewrite lookup_insert_eq. cbn.
      rewrite bool_decide_eq_true_2 by left. reflexivity.
    + rewrite lookup_insert_ne by exact Hne. rewrite IH.
      destruct (bool_decide (col ∈ cs)) eqn:E.
      * apply bool_decide_eq_true in E.
        rewrite bool_decide_eq_true_2 by (by right). reflexivity.
      * apply bool_decide_eq_false in E.
        rewrite bool_decide_eq_false_2; [reflexivity|].
        intros [-> | H]%elem_of_cons; [congruence | contradiction].
Qed.

Lemma rmap_ok {A B} (f : A -> result B) (g : A -> B) l :
  (forall x, x ∈ l -> f x = Ok (g x)) -> rmap f l = Ok (map g l).
Proof.
  induction l as [| x l IH]; intros H; cbn; [reflexivity|].
  rewrite (H x) by left. cbn. rewrite IH; [reflexivity|].
  intros y Hy. apply H. by right.
Qed.

Lemma stringify_column_total df col : exists df', stringify_column df col = Ok df'.
Proof.
  unfold stringify_column, get_column.
  destruct (has_column df col); cbn; eauto.
Qed.

(** After the loop over the value columns every row meets the condition
    under which the summary is computed. *)
Lemma coerced_rows_numeric df row col :
  col ∈ value_columns ->
  numeric_or_none
    (row_get
       (row_series
          {| columns := columns df;
             rows := map (coerce_row df value_columns) (rows df);
             crs := crs df |}
          (coerce_row df value_columns row))
       col).
Proof.
  intros Hin. rewrite row_series_get.
  change (has_column _ col) with (has_column df col).
  destruct (has_column df col) eqn:Hcol; [| exact I].
  destruct (coerce_row_numeric df value_columns row col Hin Hcol) as [x ->].
  exact I.
Qed.

(** The first two steps of the pre-processing of the property table always
    succeed: the loop over the value columns and the summary of every
    row. *)
Lemma summaries_total df :
  exists df1 summaries,
    coerce_columns value_columns df = Ok df1
    /\ rmap (fun row => format_assessed_value (row_series df1 row)) (rows df1)
       = Ok summaries.
Proof.
  rewrite coerce_columns_spec.
  set (df1 := {| columns := columns df;
                 rows := map (coerce_row df value_columns) (rows df);
                 crs := crs df |}).
  exists df1, (map (fun row => summary_spec (row_series df1 row)) (rows df1)).
  split; [reflexivity|]. apply rmap_ok.
  cbn. intros row Hrow. apply list_elem_of_In, in_map_iff in Hrow.
  destruct Hrow as (row0 & <- & _).
  apply format_assessed_value_ok. intros col Hcol.
  by apply coerced_rows_numeric.
Qed.

Lemma preprocess_properties_total df :
  exists df', preprocess_properties df = Ok df'.
Proof.
  unfold preprocess_properties.
  destruct (summaries_total df) as (df1 & summaries & -> & Hs). cbn.
  rewrite Hs. cbn. apply stringify_column_total.
Qed.

Lemma map_alter_agree {A B} (f : A -> B) (g h : A -> A) i l :
  (forall x, f (g x) = f (h x)) -> map f (alter g i l) = map f (alter h i l).
Proof.
  intros H. revert i. induction l as [| x l IH]; intros [| i]; cbn; try reflexivity.
  - by rewrite H.
  - f_equal. apply IH.
Qed.

Lemma coerce_columns_with_cell df i col v w :
  col ∈ value_columns -> has_column df col = true ->
  to_numeric_coerce v = to_numeric_coerce w ->
  coerce_columns value_columns (with_cell df i col v)
  = coerce_columns value_columns (with_cell df i col w).
Proof.
  intros Hin Hcol Hvw. rewrite !coerce_columns_spec. cbn. f_equal. f_equal.
  unfold coerce_row.
  rewrite (coerce_cell_columns df (with_cell df i col v) eq_refl).
  rewrite (coerce_cell_columns df (with_cell df i col w) eq_refl).
  apply (map_alter_agree (coerce_row df value_columns)).
  intros row. by apply coerce_row_agree.
Qed.

(** The row of the pre-processed property table that comes from [row]. *)
Lemma preprocess_properties_rows df :
  exists df',
    preprocess_properties df = Ok df'
    /\ crs df' = crs df
    /\ columns df'
       = (if has_column df "formatted_assessed_values" then columns df
          else columns df ++ ["formatted_assessed_values"])%list
    /\ rows df'
       = map (fun row =>
                let row1 := coerce_row df value_columns row in
                let row2 :=
                  <["formatted_assessed_values"
                    := VStr (summary_spec (row_series df row1))]> row1 in
                if has_column df "mod_date"
                then <["mod_date" := VStr (py_str (cell row2 "mod_date"))]> row2
                else row2)
           (rows df).
Proof.
  unfold preprocess_properties. rewrite coerce_columns_spec.
  set (df1 := {| columns := columns df;
                 rows := map (coerce_row df value_columns) (rows df);
                 crs := crs df |}).
  cbn [mbind result_bind].
  rewrite (rmap_ok _ (fun row => summary_spec (row_series df1 row))).
  2:{ cbn. intros row Hrow. apply list_elem_of_In, in_map_iff in Hrow.
      destruct Hrow as (row0 & <- & _).
      apply format_assessed_value_ok. intros col Hcol.
      by apply coerced_rows_numeric. }
  cbn [mbind result_bind].
  set (df2 := set_column df1 _ _).
  assert (Hrows2 : rows df2
                   = map (fun row =>
                            <["formatted_assessed_values"
                              := VStr (summary_spec
                                         (row_series df
                                            (coerce_row df value_columns row)))]>
                              (coerce_row df value_columns row))
                       (rows df)).
  { subst df2 df1. unfold set_column. cbn [rows].
    rewrite (map_map _ VStr), zip_with_insert_map, map_map. reflexivity. }
  assert (Hcols2 : columns df2
                   = (if has_column df "formatted_assessed_values" then columns df
                      else columns df ++ ["formatted_assessed_values"])%list)
    by reflexivity.
  assert (Hmod2 : has_column df2 "mod_date" = has_column df "mod_date").
  { unfold has_column at 1. rewrite Hcols2.
    destruct (has_column df "formatted_assessed_values"); [reflexivity|].
    unfold has_column. apply bool_decide_ext.
    rewrite elem_of_app, list_elem_of_singleton.
    split; [intros [H | H]; [exact H | discriminate H] | auto]. }
  unfold stringify_column, get_column. rewrite Hmod2.
  destruct (has_column df "mod_date") eqn:Hmod; cbn [mbind result_bind].
  - eexists. split; [reflexivity|]. unfold set_column at 1 2 3.
    cbn [crs columns rows]. rewrite Hmod2. split; [reflexivity|].
    split; [exact Hcols2|].
    rewrite map_map, zip_with_insert_map, Hrows2, map_map. reflexivity.
  - eexists. split; [reflexivity|]. split; [reflexivity|]. split; [exact Hcols2|].
    exact Hrows2.
Qed.

Lemma coerce_row_other df cols (row : gmap string value) col :
  col ∉ cols -> coerce_row df cols row !! col = row !! col.
Proof.
  revert row. induction cols as [| c cols IH]; intros row Hnotin; [reflexivity|].
  apply not_elem_of_cons in Hnotin as [Hne Hnotin].
  unfold coerce_row in *. cbn. rewrite IH by exact Hnotin.
  unfold coerce_cell. destruct (has_column df c); [| reflexivity].
  by rewrite lookup_insert_ne.
Qed.

Lemma label_not_value_column col :
  col ∈ value_columns -> col <> "formatted_assessed_values" /\ col <> "mod_date".
Proof. unfold value_columns. intros H. each_member H; split; discriminate. Qed.

Lemma summary_spec_ext (a b : gmap string value) :
  (forall col, col ∈ value_columns -> row_get a col = row_get b col) ->
  summary_spec a = summary_spec b.
Proof.
  intros H. unfold summary_spec, summary_lines, summary_line, value_labels. cbn.
  rewrite !H by (unfold value_columns; set_solver). reflexivity.
Qed.

(** The rows of the pre-processed property table: numbers under the value
    columns and the summary of those very numbers. *)
Lemma preprocessed_rows df df' row :
  preprocess_properties df = Ok df' -> row ∈ rows df' ->
  (forall col, col ∈ value_columns -> has_column df' col = true ->
     exists x, cell row col = VNum x)
  /\ cell row "formatted_assessed_values"
     = VStr (summary_spec (row_series df' row)).
Proof.
  intros Hok Hrow.
  destruct (preprocess_properties_rows df) as (d & Hd & _ & Hcols & Hrows).
  rewrite Hok in Hd. injection Hd as <-.
  assert (Hhas : forall col, col ∈ value_columns ->
                   has_column df' col = has_column df col).
  { intros col [Hfav _]%label_not_value_column. unfold has_column at 1.
    rewrite Hcols.
    destruct (has_column df "formatted_assessed_values"); [reflexivity|].
    apply bool_decide_ext. rewrite elem_of_app, list_elem_of_singleton.
    split; [intros [H | H]; [exact H | congruence] | auto]. }
  rewrite Hrows in Hrow. apply list_elem_of_In, in_map_iff in Hrow.
  destruct Hrow as (row0 & <- & _). cbv zeta.
  set (row1 := coerce_row df value_columns row0).
  set (row2 := <["formatted_assessed_values" := _]> row1).
  set (row3 := if has_column df "mod_date" then _ else row2).
  assert (Hcell : forall col, col <> "mod_date" -> cell row3 col = cell row2 col).
  { intros col Hne. subst row3. destruct (has_column df "mod_date"); [| reflexivity].
    by rewrite cell_insert_ne. }
  assert (Hval : forall col, col ∈ value_columns -> cell row3 col = cell row1 col).
  { intros col [Hfav Hmod]%label_not_value_column.
    rewrite Hcell by exact Hmod. subst row2. by rewrite cell_insert_ne. }
  split.
  - intros col Hin Hcol. rewrite (Hval col Hin). rewrite (Hhas col Hin) in Hcol.
    by apply coerce_row_numeric.
  - rewrite Hcell by discriminate. subst row2. rewrite cell_insert. f_equal.
    apply summary_spec_ext. intros col Hin.
    rewrite !row_series_get, (Hhas col Hin), (Hval col Hin). reflexivity.
Qed.

Lemma coerce_row_cell df cols (row : gmap string value) col :
  col ∈ cols -> has_column df col = true ->
  cell (coerce_row df cols row) col = to_numeric_coerce (cell row col).
Proof.
  intros Hin Hcol.
  assert (Hnum : forall cs (r : gmap string value) x,
            cell r col = VNum x -> cell (coerce_row df cs r) col = VNum x).
  { induction cs as [| c cs IH]; intros r x Hx; [exact Hx|].
    unfold coerce_row in *. cbn. apply IH. unfold coerce_cell.
    destruct (has_column df c); [| exact Hx].
    destruct (decide (c = col)) as [-> | Hne].
    - rewrite cell_insert, Hx. reflexivity.
    - by rewrite cell_insert_ne. }
  revert row. induction cols as [| c cols IH]; intros row.
  - by apply not_elem_of_nil in Hin.
  - destruct (decide (c = col)) as [-> | Hne].
    + unfold coerce_row. cbn. unfold coerce_cell at 2. rewrite Hcol.
      destruct (to_numeric_coerce_numeric (cell row col)) as [y Hy].
      rewrite Hy. apply Hnum. by rewrite cell_insert.
    + apply elem_of_cons in Hin as [-> | Hin]; [congruence|].
      unfold coerce_row in *. cbn. rewrite (IH Hin). unfold coerce_cell.
      destruct (has_column df c); [| reflexivity].
      by rewrite cell_insert_ne.
Qed.

(** Membership of an attribute in the fixed list, case by case. *)
Ltac each_label H :=
  unfold value_labels in H; apply list_elem_of_In in H; cbn in H;
  destruct H as [H | [H | [H | [H | []]]]]; inversion H; subst; clear H.

Lemma summary_spec_text row : summary_spec row = summary_text (summary_lines row).
Proof. unfold summary_spec, summary_text. by destruct (summary_lines row). Qed.

(** The lines of a summary, around the place of one attribute. *)
Lemma summary_lines_split row col label :
  (col, label) ∈ value_labels ->
  summary_lines row
  = (omap (summary_line row) (labels_before col value_labels)
     ++ option_list (summary_line row (col, label))
     ++ omap (summary_line row) (labels_after col value_labels))%list.
Proof.
  intros Hin. unfold summary_lines. generalize (summary_line row). intros f.
  each_label Hin; cbn;
    repeat match goal with |- context [f ?cl] => destruct (f cl) end;
    reflexivity.
Qed.

Lemma value_label_column col label :
  (col, label) ∈ value_labels -> col ∈ value_columns.
Proof.
  unfold value_columns. intros H. each_label H; set_solver.
Qed.

Lemma value_column_label col :
  col ∈ value_columns -> exists label, (col, label) ∈ value_labels.
Proof.
  unfold value_columns. intros H.
  each_member H;
    [exists "Assessed Value" | exists "Residential Assessed Value"
     | exists "Non-Residential Assessed Value" | exists "Farm Land Assessed Value"];
    unfold value_labels; set_solver.
Qed.

(** No line around the place of an attribute carries its label. *)
Lemma other_lines_unlabelled row col label rendered :
  (col, label) ∈ value_labels ->
  label +:+ ": $" +:+ rendered
  ∉ (omap (summary_line row) (labels_before col value_labels)
     ++ omap (summary_line row) (labels_after col value_labels))%list.
Proof.
  intros Hin Hline. rewrite <- omap_app in Hline.
  apply list_elem_of_omap in Hline as (cl & Hcl & Hsome).
  unfold summary_line in Hsome.
  destruct (present (row_get row cl.1)) as [x|]; [| discriminate].
  cbn in Hsome. injection Hsome as Hsome.
  each_label Hin; cbn in Hcl; each_member Hcl; discriminate Hsome.
Qed.

(** The record of the pre-processed table that comes from a record with
    [v] under the value column [col]. *)
Lemma preprocessed_cell df i col v row :
  col ∈ value_columns -> has_column df col = true ->
  rows df !! i = Some row ->
  exists df' row',
    preprocess_properties (with_cell df i col v) = Ok df'
    /\ length (rows df') = length (rows df)
    /\ rows df' !! i = Some row'
    /\ cell row' col = to_numeric_coerce v
    /\ row_get (row_series df' row') col = to_numeric_coerce v
    /\ cell row' "formatted_assessed_values"
       = VStr (summary_spec (row_series df' row'))
    /\ format_assessed_value (row_series df' row')
       = Ok (summary_spec (row_series df' row')).
Proof.
  intros Hin Hcol Hrow.
  destruct (preprocess_properties_rows (with_cell df i col v))
    as (df' & Hok & _ & Hcols & Hrows).
  set (row0 := <[col := v]> row).
  assert (Hrow0 : rows (with_cell df i col v) !! i = Some row0).
  { cbn. rewrite list_lookup_alter_eq, Hrow. reflexivity. }
  assert (Hi : exists row', rows df' !! i = Some row').
  { rewrite Hrows, list_lookup_fmap, Hrow0. cbn. eauto. }
  destruct Hi as [row' Hi]. exists df', row'.
  assert (Hmem : row' ∈ rows df') by (eapply list_elem_of_lookup_2; exact Hi).
  destruct (preprocessed_rows _ _ _ Hok Hmem) as [Hnum Hsum].
  assert (Hhas : has_column df' col = true).
  { unfold has_column. apply bool_decide_eq_true. rewrite Hcols.
    change (columns (with_cell df i col v)) with (columns df).
    apply bool_decide_eq_true in Hcol.
    destruct (has_column _ "formatted_assessed_values"); [exact Hcol|].
    apply elem_of_app. by left. }
  assert (Hcell : cell row' col = to_numeric_coerce v).
  { rewrite Hrows, list_lookup_fmap, Hrow0 in Hi.
    cbv beta iota zeta delta [fmap option_fmap option_map] in Hi.
    injection Hi as <-.
    destruct (label_not_value_column col Hin) as [Hfav Hmod].
    destruct (has_column (with_cell df i col v) "mod_date");
      rewrite ?(cell_insert_ne _ "mod_date") by congruence;
      rewrite cell_insert_ne by congruence;
      (etransitivity;
       [exact (coerce_row_cell (with_cell df i col v) value_columns row0 col
                 Hin Hcol)
       | subst row0; by rewrite cell_insert]). }
  split; [exact Hok|]. split.
  { rewrite Hrows, length_map. cbn. by rewrite length_alter. }
  split; [exact Hi|]. split; [exact Hcell|]. split.
  { rewrite row_series_get, Hhas. exact Hcell. }
  split; [exact Hsum|].
  apply format_assessed_value_ok. intros c Hc. rewrite row_series_get.
  destruct (has_column df' c) eqn:E; [| exact I].
  destruct (Hnum c Hc E) as [x ->]. exact I.
Qed.

(** C6: text under one of the four value columns that pandas does not
    recognise as a number is coerced to NaN, the marker of a missing value,
    which is not zero; the pre-processing does not raise, and the
    pre-processed property table is the one obtained when that cell holds
    nothing at all; in it the record holds NaN under that column, and its
    stored summary, which is what the summary function returns on the
    stored record, is made of the lines of the other value columns only:
    no line carries the label of that column, whatever its rendering.  Text
    that parses to zero stays the number zero in the pre-processed record,
    and its line "<Label>: $0" stands in the stored summary at the place of
    that column. *)
Theorem unparseable_value_is_absent df i col s :
  col ∈ value_columns ->
  has_column df col = true ->
  parse_numeric s = None ->
  to_numeric_coerce (VStr s) = VNum S754_nan
  /\ (forall z, to_numeric_coerce (VStr s) <> VNum (S754_zero z))
  /\ notna (to_numeric_coerce (VStr s)) = false
  /\ preprocess_properties (with_cell df i col (VStr s))
     = preprocess_properties (with_cell df i col VNone)
  /\ (exists df',
        preprocess_properties (with_cell df i col (VStr s)) = Ok df'
        /\ length (rows df') = length (rows df)
        /\ forall row,
             rows df !! i = Some row ->
             exists row' lines,
               rows df' !! i = Some row'
               /\ cell row' col = VNum S754_nan
               /\ lines
                  = (omap (summary_line (row_series df' row'))
                       (labels_before col value_labels)
                     ++ omap (summary_line (row_series df' row'))
                          (labels_after col value_labels))%list
               /\ cell row' "formatted_assessed_values" = VStr (summary_text lines)
               /\ format_assessed_value (row_series df' row')
                  = Ok (summary_text lines)
               /\ forall label rendered,
                    (col, label) ∈ value_labels ->
                    label +:+ ": $" +:+ rendered ∉ lines)
  /\ (forall s0 z,
        parse_numeric s0 = Some (S754_zero z) ->
        to_numeric_coerce (VStr s0) = VNum (S754_zero z)
        /\ notna (to_numeric_coerce (VStr s0)) = true
        /\ exists df',
             preprocess_properties (with_cell df i col (VStr s0)) = Ok df'
             /\ forall row,
                  rows df !! i = Some row ->
                  exists row' label lines,
                    rows df' !! i = Some row'
                    /\ (col, label) ∈ value_labels
                    /\ cell row' col = VNum (S754_zero z)
                    /\ lines
                       = (omap (summary_line (row_series df' row'))
                            (labels_before col value_labels)
                          ++ [label +:+ ": $" +:+ sign_prefix z +:+ "0"]
                          ++ omap (summary_line (row_series df' row'))
                               (labels_after col value_labels))%list
                    /\ cell row' "formatted_assessed_values"
                       = VStr (summary_text lines)
                    /\ format_assessed_value (row_series df' row')
                       = Ok (summary_text lines)).
Proof.
  intros Hin Hcol Hparse.
  assert (Hnan : to_numeric_coerce (VStr s) = VNum S754_nan)
    by (cbn; rewrite Hparse; reflexivity).
  destruct (value_column_label col Hin) as [label Hlabel].
  split; [exact Hnan|]. split; [rewrite Hnan; discriminate|].
  split; [rewrite Hnan; reflexivity|]. split.
  { unfold preprocess_properties.
    rewrite (coerce_columns_with_cell df i col (VStr s) VNone Hin Hcol); [reflexivity|].
    rewrite Hnan. reflexivity. }
  split.
  - destruct (preprocess_properties_rows (with_cell df i col (VStr s)))
      as (df' & Hok & _ & _ & Hrows).
    exists df'. split; [exact Hok|]. split.
    { rewrite Hrows, length_map. cbn. by rewrite length_alter. }
    intros row Hrow.
    destruct (preprocessed_cell df i col (VStr s) row Hin Hcol Hrow)
      as (d & row' & Hd & _ & Hi & Hcell & Hget & Hsum & Hfmt).
    rewrite Hok in Hd. injection Hd as <-.
    exists row'. eexists. split; [exact Hi|].
    split; [by rewrite Hcell, Hnan|]. split; [reflexivity|].
    assert (Hspec : summary_spec (row_series df' row')
                    = summary_text
                        (omap (summary_line (row_series df' row'))
                           (labels_before col value_labels)
                         ++ omap (summary_line (row_series df' row'))
                              (labels_after col value_labels))).
    { rewrite summary_spec_text, (summary_lines_split _ col label Hlabel).
      unfold summary_line at 2. cbn [fst snd]. rewrite Hget, Hnan. reflexivity. }
    rewrite <- Hspec. split; [exact Hsum|]. split; [exact Hfmt|].
    intros label' rendered Hlabel'. by apply other_lines_unlabelled.
  - intros s0 z Hzero.
    assert (Hz : to_numeric_coerce (VStr s0) = VNum (S754_zero z))
      by (cbn; rewrite Hzero; reflexivity).
    split; [exact Hz|]. split; [rewrite Hz; reflexivity|].
    destruct (preprocess_properties_rows (with_cell df i col (VStr s0)))
      as (df' & Hok & _ & _ & _).
    exists df'. split; [exact Hok|]. intros row Hrow.
    destruct (preprocessed_cell df i col (VStr s0) row Hin Hcol Hrow)
      as (d & row' & Hd & _ & Hi & Hcell & Hget & Hsum & Hfmt).
    rewrite Hok in Hd. injection Hd as <-.
    exists row', label. eexists. split; [exact Hi|]. split; [exact Hlabel|].
    split; [by rewrite Hcell, Hz|]. split; [reflexivity|].
    assert (Hspec : summary_spec (row_series df' row')
                    = summary_text
                        (omap (summary_line (row_series df' row'))
                           (labels_before col value_labels)
                         ++ [label +:+ ": $" +:+ sign_prefix z +:+ "0"]
                         ++ omap (summary_line (row_series df' row'))
                              (labels_after col value_labels))).
    { rewrite summary_spec_text, (summary_lines_split _ col label Hlabel).
      unfold summary_line at 2. cbn [fst snd]. rewrite Hget, Hz. reflexivity. }
    rewrite <- Hspec. split; [exact Hsum | exact Hfmt].
Qed.

End Normaliser.

(** ** Rounding and grouping *)

(** With a non-negative exponent the number is an integer and is printed
    exactly; otherwise the integer printed is a nearest one, and on a tie
    the even one. *)
Lemma round_half_even_exact m e :
  (0 <= e)%Z -> round_half_even m e = (N.pos m * 2 ^ Z.to_N e)%N.
Proof. intros H. unfold round_half_even. by rewrite (Zle_imp_le_bool _ _ H). Qed.

Lemma round_half_even_nearest m e :
  (e < 0)%Z ->
  let d := (2 ^ Z.to_N (- e))%N in
  let n := round_half_even m e in
  (2 * N.pos m <= 2 * (n * d) + d)%N
  /\ (2 * (n * d) <= 2 * N.pos m + d)%N
  /\ ((2 * N.pos m + d = 2 * (n * d) \/ 2 * N.pos m = 2 * (n * d) + d)%N ->
      N.even n = true).
Proof.
  intros He d n. subst n. unfold round_half_even.
  destruct (0 <=? e)%Z eqn:E; [apply Z.leb_le in E; lia|]. fold d.
  assert (Hd : d <> 0%N) by (apply N.pow_nonzero; discriminate).
  pose proof (N.div_mod' (N.pos m) d) as Hdiv.
  pose proof (N.mod_lt (N.pos m) d Hd) as Hlt.
  set (q := (N.pos m / d)%N) in *. set (r := (N.pos m mod d)%N) in *.
  assert (Hq1 : ((q + 1) * d = q * d + d)%N) by lia.
  assert (Hqd : (d * q = q * d)%N) by lia.
  destruct (N.compare_spec (2 * r) d) as [Heq | Hl | Hg].
  - destruct (N.even q) eqn:Hev.
    + repeat split; try lia. intros _. exact Hev.
    + repeat split; try lia. intros _.
      rewrite N.add_1_r, N.even_succ, <- N.negb_even, Hev. reflexivity.
  - repeat split; lia.
  - repeat split; lia.
Qed.

(** Induction over the digits, three at a time. *)
Lemma by_threes (P : list ascii -> Prop) :
  P [] -> (forall a, P [a]) -> (forall a b, P [a; b]) ->
  (forall a b c, P [a; b; c]) ->
  (forall a b c d rest, P (d :: rest) -> P (a :: b :: c :: d :: rest)) ->
  forall ds, P ds.
Proof.
  intros H0 H1 H2 H3 H4 ds.
  assert (H : forall n ds, length ds <= n -> P ds).
  { clear ds. induction n as [| n IH]; intros ds Hlen.
    - destruct ds; [exact H0 | cbn in Hlen; lia].
    - destruct ds as [| a [| b [| c [| d rest]]]]; auto.
      apply H4, IH. cbn in *. lia. }
  apply (H (length ds)). lia.
Qed.

Lemma group_rev_step a b c d rest :
  group_rev (a :: b :: c :: d :: rest)
  = a :: b :: c :: ","%char :: group_rev (d :: rest).
Proof. reflexivity. Qed.

(** Taking the separators out again gives the digits back. *)
Lemma group_rev_ungroup ds :
  forallb not_comma ds = true -> List.filter not_comma (group_rev ds) = ds.
Proof.
  induction ds as [| a | a b | a b c | a b c d rest IH] using by_threes;
    intros H.
  1-4: cbn [group_rev forallb] in *;
       repeat (let Hx := fresh "Hx" in apply andb_prop in H as [Hx H]);
       cbn [List.filter];
       repeat match goal with
              | Hx : not_comma _ = true |- _ => rewrite Hx; clear Hx
              end;
       reflexivity.
  change (forallb not_comma (a :: b :: c :: d :: rest))
    with (not_comma a && (not_comma b && (not_comma c
            && forallb not_comma (d :: rest)))) in H.
  apply andb_prop in H as [Ha H]. apply andb_prop in H as [Hb H].
  apply andb_prop in H as [Hc H].
  rewrite group_rev_step. cbn [List.filter]. rewrite Ha, Hb, Hc.
  change (not_comma ","%char) with false. cbv iota.
  rewrite (IH H). reflexivity.
Qed.

(** One separator for every complete group of three digits that has a
    digit before it. *)
Lemma group_rev_length ds :
  length (group_rev ds) = length ds + (length ds - 1) / 3.
Proof.
  induction ds as [| a | a b | a b c | a b c d rest IH] using by_threes;
    try reflexivity.
  rewrite group_rev_step. cbn [length]. rewrite IH. cbn [length].
  replace (S (S (S (S (length rest)))) - 1) with (1 * 3 + (S (length rest) - 1)) by lia.
  rewrite Nat.div_add_l by lia. lia.
Qed.

Lemma digits_of_uint d : forallb is_digit (list_ascii_of_string (NilEmpty.string_of_uint d)) = true.
Proof. induction d; cbn; auto. Qed.

Lemma digits_are_digits n : forallb is_digit (digits n) = true.
Proof.
  unfold digits, NilZero.string_of_uint.
  destruct (N.to_uint n) eqn:E; try reflexivity; rewrite <- E;
    apply digits_of_uint.
Qed.

Lemma digit_not_comma c : is_digit c = true -> not_comma c = true.
Proof.
  unfold is_digit, not_comma. intros H.
  destruct (Ascii.eqb c ","%char) eqn:E; [| reflexivity].
  apply Ascii.eqb_eq in E. subst c. discriminate H.
Qed.

(** The grouped text of an integer is its decimal digits with separators
    put in, and nothing else. *)
Lemma group_thousands_digits n :
  List.filter not_comma (list_ascii_of_string (group_thousands n)) = digits n.
Proof.
  unfold group_thousands.
  rewrite list_ascii_of_string_of_list_ascii, filter_rev, group_rev_ungroup.
  - apply rev_involutive.
  - rewrite forallb_forall. intros c Hc. apply in_rev in Hc.
    apply digit_not_comma.
    pose proof (digits_are_digits n) as H. rewrite forallb_forall in H.
    by apply H.
Qed.

Example format_half_to_even :
  format_comma_0f (S754_finite false 1 (-1)) = "0"
  /\ format_comma_0f (S754_finite false 3 (-1)) = "2"
  /\ format_comma_0f (S754_finite false 5 (-1)) = "2"
  /\ format_comma_0f (S754_finite true 2469135 (-1)) = "-1,234,568"
  /\ format_comma_0f (S754_finite false 999 0) = "999"
  /\ format_comma_0f (S754_finite false 1000 0) = "1,000"
  /\ format_comma_0f (S754_finite false 125 3) = "1,000"
  /\ format_comma_0f (S754_zero false) = "0".
Proof. repeat split; reflexivity. Qed.

(** ** The theorems at the sample data *)


Lemma format_assessed_value_summary_witness :
  format_assessed_value
    (<["assessed_value" := VNum (S754_finite false 500000 0)]> ∅)
  = Ok "Assessed Value: $500,000".
Proof.
  refine (proj1 (format_assessed_value_summary
                   (<["assessed_value" := VNum (S754_finite false 500000 0)]> ∅) _)).
  intros col Hcol. unfold value_columns in Hcol. each_member Hcol; exact I.
Defined.

Lemma sample_ready selected :
  selected <> "" ->
  ready sample_namespace (select selected) selected
    sample_properties sample_communities.
Proof.
  intros Hsel. unfold ready, select. rewrite lookup_insert_eq.
  repeat split; [exact Hsel | eexists; reflexivity].
Qed.

Lemma sample_schema : detail_schema sample_properties sample_communities.
Proof. unfold detail_schema. repeat split; try reflexivity; eexists; reflexivity. Qed.

Lemma loaded_ready selected :
  selected <> "" ->
  ready (@loaded_namespace sample_libs) (select selected) selected
    sample_loaded_properties sample_communities.
Proof.
  intros Hsel. unfold ready, select. rewrite lookup_insert_eq.
  repeat split; [exact Hsel | eexists; reflexivity].
Qed.

Lemma loaded_schema : detail_schema sample_loaded_properties sample_communities.
Proof. unfold detail_schema. repeat split; try reflexivity; eexists; reflexivity. Qed.

Lemma loaded_popup_schema : popup_schema sample_loaded_properties.
Proof. unfold popup_schema. repeat split; reflexivity. Qed.

Lemma detail_display_name_witness :
  (exists map_html,
     @serve sample_libs (POST_map (select "01B")) (@loaded_namespace sample_libs)
     = (Template "map.html" map_html (VStr "RESIDUAL WARD 1 - SUB AREA 1B"),
        @loaded_namespace sample_libs))
  /\ cell boundary_01B "name" = VStr "01B"
  /\ (forall template map_html community_name,
        fst (@serve sample_libs (POST_map (select "01B"))
               (@loaded_namespace sample_libs))
        = Template template map_html community_name ->
        community_name = VStr "RESIDUAL WARD 1 - SUB AREA 1B")
  /\ forall template map_html,
       fst (@serve sample_libs (POST_map (select "01B"))
              (@loaded_namespace sample_libs))
       <> Template template map_html (VStr "01B").
Proof.
  destruct (@detail_display_name sample_libs (@loaded_namespace sample_libs)
              (select "01B") "01B" sample_loaded_properties sample_communities
              (only sample_communities boundary_01B) boundary_01B []
              (only sample_loaded_properties loaded_property_01B)
              loaded_property_01B [])
    as (Hpassed & Hpage & Hname & Hdiff).
  - apply loaded_ready. discriminate.
  - apply loaded_schema.
  - reflexivity.
  - reflexivity.
  - vm_compute. reflexivity.
  - reflexivity.
  - split; [| split; [exact Hname | split; [exact Hpassed |]]].
    + apply Hpage; [apply loaded_popup_schema |].
      intros projected centre cs Hp Hc.
      vm_compute in Hp. injection Hp as <-.
      vm_compute in Hc. injection Hc as <- _.
      split; reflexivity.
    + apply Hdiff. discriminate.
Defined.

Lemma community_not_found_witness :
  (exists community_boundary,
      select_eq sample_communities "name" (VStr "hillhurst") = Ok community_boundary
      /\ forall row,
           row ∈ rows community_boundary
           <-> row ∈ rows sample_communities
               /\ row !! "name" = Some (VStr "hillhurst"))
  /\ @serve sample_libs (POST_map (select "hillhurst")) sample_namespace
     = (Text "No boundary data found for community: hillhurst" 404,
        sample_namespace).
Proof.
  destruct (@community_not_found sample_libs sample_namespace (select "hillhurst")
              "hillhurst" sample_properties sample_communities) as [Hexact Hnone].
  - apply sample_ready. discriminate.
  - reflexivity.
  - split; [exact Hexact|]. apply Hnone.
    intros row Hrow. cbn in Hrow. each_member Hrow; vm_compute; discriminate.
Defined.

Lemma no_properties_for_community_witness :
  @serve sample_libs (POST_map (select "BOWNESS PARK")) sample_namespace
  = (Text "No property data found for community: BOWNESS PARK (Filter Code: BWP)."
       404,
     sample_namespace).
Proof.
  refine (proj1 (@no_properties_for_community sample_libs sample_namespace
                   (select "BOWNESS PARK") "BOWNESS PARK"
                   sample_properties sample_communities
                   (only sample_communities boundary_BWP) boundary_BWP []
                   _ sample_schema eq_refl eq_refl _)).
  - apply sample_ready. discriminate.
  - intros row Hrow. cbn in Hrow. each_member Hrow; reflexivity.
Defined.

Lemma unparseable_value_is_absent_witness :
  @preprocess_properties sample_libs
    (@with_cell sample_properties 2 "assessed_value" (VStr "n/a"))
  = @preprocess_properties sample_libs
      (@with_cell sample_properties 2 "assessed_value" VNone).
Proof.
  refine (proj1 (proj2 (proj2 (proj2
            (@unparseable_value_is_absent sample_libs sample_properties 2
               "assessed_value" "n/a" _ eq_refl eq_refl))))).
  unfold value_columns. set_solver.
Defined.

Lemma load_failure_unavailable_witness :
  @load_data failing_libs fresh_namespace = (Ok tt, unavailable_namespace).
Proof.
  refine (proj1 (@load_failure_unavailable failing_libs fresh_namespace _)).
  left. exists communities_url, (IOError communities_url).
  split; [set_solver | reflexivity].
Defined.

Lemma missing_selection_response_witness :
  @serve sample_libs (POST_map ∅) sample_namespace
  = (Text "Error: Community not selected or data not loaded." 400,
     sample_namespace).
Proof.
  refine (proj1 (@missing_selection_response sample_libs sample_namespace ∅ _)).
  left. reflexivity.
Defined.

(** The claim of C8 fails where it sets the missing selection apart from
    unavailable data: a request without a selection against loaded data and
    a request with a selection against a failed load get the same answer. *)
Lemma missing_selection_same_as_unavailable :
  fst (@serve sample_libs (POST_map ∅) (@loaded_namespace sample_libs))
  = Text "Error: Community not selected or data not loaded." 400
  /\ fst (@serve failing_libs (POST_map (select "HILLHURST"))
            (@loaded_namespace failing_libs))
     = Text "Error: Community not selected or data not loaded." 400
  /\ ~ (fst (@serve sample_libs (POST_map ∅) (@loaded_namespace sample_libs))
        <> fst (@serve failing_libs (POST_map (select "HILLHURST"))
                  (@loaded_namespace failing_libs))).
Proof.
  assert (E1 : fst (@serve sample_libs (POST_map ∅) (@loaded_namespace sample_libs))
               = Text "Error: Community not selected or data not loaded." 400)
    by reflexivity.
  assert (E2 : fst (@serve failing_libs (POST_map (select "HILLHURST"))
                      (@loaded_namespace failing_libs))
               = Text "Error: Community not selected or data not loaded." 400)
    by (vm_compute; reflexivity).
  split; [exact E1|]. split; [exact E2|]. rewrite E1, E2. intros H. by apply H.
Qed.

Lemma reprojection_noop_witness :
  @to_crs sample_libs sample_properties 4326 = Ok sample_properties
  /\ @ensure_epsg_4326 sample_libs sample_properties = Ok sample_properties
  /\ (df' ← @to_crs sample_libs sample_properties 4326;
      @ensure_epsg_4326 sample_libs df') = Ok sample_properties.
Proof.
  apply (@reprojection_noop sample_libs sample_properties); reflexivity.
Defined.

(** Selecting HILLHURST takes the three records coded HIL and no other. *)
Example hillhurst_scenario :
  exists community_properties_gdf,
    select_eq sample_properties "comm_code" (VStr "HIL")
    = Ok community_properties_gdf
    /\ map (fun row => cell row "address") (rows community_properties_gdf)
       = [VStr "1 KENSINGTON RD NW"; VStr "3 KENSINGTON RD NW";
          VStr "6 KENSINGTON RD NW"]
    /\ Forall (fun row => cell row "comm_code" = VStr "HIL")
         (rows community_properties_gdf).
Proof.
  eexists. split; [reflexivity|]. split; [reflexivity|].
  repeat constructor.
Qed.

(** The summaries that the load computes for the sample. *)
Example sample_summaries :
  match properties_gdf (@loaded_namespace sample_libs) with
  | Bound (Some df) => get_column df "formatted_assessed_values"
  | _ => Raise IndexError
  end
  = Ok [VStr "Assessed Value: $500,000";
        VStr "Assessed Value: $1,234,568<br>Residential Assessed Value: $0";
        VStr "Residential Assessed Value: $0";
        VStr "No assessed value information";
        VStr "Assessed Value: $750,000<br>Residential Assessed Value: $750,000";
        VStr "Assessed Value: $0"].
Proof. vm_compute. reflexivity. Qed.

(** A load that cannot reach the community boundaries had already bound
    the property table when it failed; the handler unbinds nothing and
    sets all three names to [None]. *)
Example partial_load_is_discarded :
  (exists e ns1,
      @load_body failing_libs fresh_namespace = (Raise e, ns1)
      /\ properties_gdf ns1 = Bound (Some sample_properties)
      /\ communities_gdf ns1 = Unbound)
  /\ @loaded_namespace failing_libs = unavailable_namespace.
Proof.
  split; [| reflexivity]. eexists _, _. split; [reflexivity|].
  split; reflexivity.
Qed.

(** * The program beyond the claims *)

(** ** When the summary is computed, and the number format *)

Lemma append_if_present_ok label v acc l :
  append_if_present label v acc = Ok l -> numeric_or_none v.
Proof.
  destruct v as [| s | x | g]; cbn; solve [exact (fun _ => I) | discriminate].
Qed.

Lemma append_if_present_raise label v acc e :
  append_if_present label v acc = Raise e ->
  (exists s, v = VStr s /\ e = unknown_format_code)
  \/ (exists g, v = VGeom g /\ e = invalid_format_specifier).
Proof.
  destruct v as [| s | x | g]; cbn.
  - discriminate.
  - intros [= <-]. left. eauto.
  - destruct x; discriminate.
  - intros [= <-]. right. eauto.
Qed.

(** When the summary of a record is computed and what is raised
    otherwise, over the cells of the model. *)
Lemma format_assessed_value_cases (row : gmap string value) :
  ((exists summary, format_assessed_value row = Ok summary)
   <-> forall col, col ∈ value_columns -> numeric_or_none (row_get row col))
  /\ forall e,
       format_assessed_value row = Raise e ->
       exists col,
         col ∈ value_columns
         /\ ((exists s, row_get row col = VStr s /\ e = unknown_format_code)
             \/ (exists g, row_get row col = VGeom g
                           /\ e = invalid_format_specifier)).
Proof.
  split; [split|].
  - intros [summary H] col Hcol. revert H. unfold format_assessed_value.
    destruct (append_if_present _ (row_get row "assessed_value") _) as [l1|] eqn:E1;
      [| discriminate]; cbn [mbind result_bind].
    destruct (append_if_present _ (row_get row "re_assessed_value") _) as [l2|] eqn:E2;
      [| discriminate]; cbn [mbind result_bind].
    destruct (append_if_present _ (row_get row "nr_assessed_value") _) as [l3|] eqn:E3;
      [| discriminate]; cbn [mbind result_bind].
    destruct (append_if_present _ (row_get row "fl_assessed_value") _) as [l4|] eqn:E4;
      [| discriminate]; cbn [mbind result_bind].
    intros _. unfold value_columns in Hcol.
    each_member Hcol; eauto using append_if_present_ok.
  - intros H. rewrite (format_assessed_value_ok row H). eauto.
  - intros e. unfold format_assessed_value.
    destruct (append_if_present _ (row_get row "assessed_value") _) as [l1|] eqn:E1;
      cbn [mbind result_bind].
    2:{ intros [= <-]. exists "assessed_value".
        split; [unfold value_columns; set_solver
               | eauto using append_if_present_raise]. }
    destruct (append_if_present _ (row_get row "re_assessed_value") _) as [l2|] eqn:E2;
      cbn [mbind result_bind].
    2:{ intros [= <-]. exists "re_assessed_value".
        split; [unfold value_columns; set_solver
               | eauto using append_if_present_raise]. }
    destruct (append_if_present _ (row_get row "nr_assessed_value") _) as [l3|] eqn:E3;
      cbn [mbind result_bind].
    2:{ intros [= <-]. exists "nr_assessed_value".
        split; [unfold value_columns; set_solver
               | eauto using append_if_present_raise]. }
    destruct (append_if_present _ (row_get row "fl_assessed_value") _) as [l4|] eqn:E4;
      cbn [mbind result_bind].
    2:{ intros [= <-]. exists "fl_assessed_value".
        split; [unfold value_columns; set_solver
               | eauto using append_if_present_raise]. }
    discriminate.
Qed.

(** X1: a record in which one of the four value components is still text,
    or is a geometry, has no summary: the call raises [ValueError], with
    the message of the format code [f] on text or with the message of a
    geometry that refuses the specification.  This is why the value
    columns are coerced before the summaries are computed. *)
Theorem format_assessed_value_raises (row : gmap string value) col :
  col ∈ value_columns ->
  (exists s, row_get row col = VStr s) \/ (exists g, row_get row col = VGeom g) ->
  exists e,
    format_assessed_value row = Raise e
    /\ (e = unknown_format_code \/ e = invalid_format_specifier).
Proof.
  intros Hcol Hcell.
  destruct (format_assessed_value_cases row) as [[Hok _] Hraise].
  destruct (format_assessed_value row) as [summary | e] eqn:E.
  - exfalso. assert (Hnum : numeric_or_none (row_get row col))
      by (apply Hok; eauto).
    destruct Hcell as [[s Hs] | [g Hg]]; rewrite ?Hs, ?Hg in Hnum; exact Hnum.
  - exists e. split; [reflexivity|].
    destruct (Hraise e eq_refl) as (c & _ & [(s & _ & ->) | (g & _ & ->)]); auto.
Qed.

(** X2: the integer that [,.0f] prints for the finite number [m * 2^e]:
    with an exponent that is not negative it is the number itself; with a
    negative exponent it is an integer at distance at most one half from
    the number, and the even one when the number lies half-way between two
    integers. *)
Theorem printed_integer_is_nearest m e :
  let n := round_half_even m e in
  ((0 <= e)%Z -> n = (N.pos m * 2 ^ Z.to_N e)%N)
  /\ ((e < 0)%Z ->
      let d := (2 ^ Z.to_N (- e))%N in
      (2 * N.pos m <= 2 * (n * d) + d)%N
      /\ (2 * (n * d) <= 2 * N.pos m + d)%N
      /\ ((2 * N.pos m + d = 2 * (n * d) \/ 2 * N.pos m = 2 * (n * d) + d)%N ->
          N.even n = true)).
Proof.
  cbv zeta. split.
  - apply round_half_even_exact.
  - intros He. apply (round_half_even_nearest m e He).
Qed.

Lemma nth_group_rev ds :
  forallb not_comma ds = true ->
  forall i, i < length (group_rev ds) ->
    (nth i (group_rev ds) "0"%char = ","%char <-> i mod 4 = 3).
Proof.
  assert (Hnc : forall c, not_comma c = true -> c <> ","%char).
  { intros c H ->. discriminate H. }
  induction ds as [| a | a b | a b c | a b c d rest IH] using by_threes;
    intros H i Hi.
  1-4: cbn [group_rev forallb length] in *;
       repeat (let Hx := fresh "Hx" in apply andb_prop in H as [Hx H]);
       repeat match goal with Hx : not_comma _ = true |- _ => apply Hnc in Hx end;
       repeat (destruct i as [| i]; [cbn; split; [congruence | discriminate] |]);
       lia.
  change (forallb not_comma (a :: b :: c :: d :: rest))
    with (not_comma a && (not_comma b && (not_comma c
            && forallb not_comma (d :: rest)))) in H.
  apply andb_prop in H as [Ha%Hnc H]. apply andb_prop in H as [Hb%Hnc H].
  apply andb_prop in H as [Hc%Hnc H].
  rewrite group_rev_step in *. cbn [length] in Hi.
  do 3 (destruct i as [| i]; [cbn; split; [congruence | discriminate] |]).
  destruct i as [| i]; [cbn; split; reflexivity|].
  change (nth (S (S (S (S i)))) (a :: b :: c :: ","%char :: group_rev (d :: rest))
            "0"%char)
    with (nth i (group_rev (d :: rest)) "0"%char).
  rewrite (IH H i) by lia.
  replace (S (S (S (S i)))) with (i + 1 * 4) by lia.
  rewrite Nat.Div0.mod_add. reflexivity.
Qed.

Lemma last_group_rev ds : last (group_rev ds) = last ds.
Proof.
  induction ds as [| a | a b | a b c | a b c d rest IH] using by_threes;
    try reflexivity.
  rewrite group_rev_step.
  rewrite (last_cons a), (last_cons b), (last_cons c), (last_cons ","%char), IH.
  rewrite (last_cons a), (last_cons b), (last_cons c), (last_cons d).
  destruct (last rest); reflexivity.
Qed.

Lemma head_rev {A} (l : list A) : head (rev l) = last l.
Proof.
  induction l as [| x l IH]; [reflexivity|].
  cbn [rev]. rewrite last_cons, <- IH. by destruct (rev l).
Qed.

(** X3: in the grouped text of an integer the characters other than the
    separator are its decimal digits, in order; the text begins with the
    first digit; counted from the right, from zero, the separators stand
    at the positions 3, 7, 11, ... and nowhere else; and there is one
    separator for every three digits that have a digit before them. *)
Theorem thousands_separators n :
  let text := list_ascii_of_string (group_thousands n) in
  List.filter not_comma text = digits n
  /\ head text = head (digits n)
  /\ length text = length (digits n) + (length (digits n) - 1) / 3
  /\ forall i, i < length text ->
       (nth i (rev text) "0"%char = ","%char <-> i mod 4 = 3).
Proof.
  cbv zeta. split; [apply group_thousands_digits|].
  unfold group_thousands. rewrite list_ascii_of_string_of_list_ascii.
  assert (Hd : forallb not_comma (rev (digits n)) = true).
  { rewrite forallb_forall. intros c Hc. apply in_rev in Hc.
    apply digit_not_comma.
    pose proof (digits_are_digits n) as H. rewrite forallb_forall in H.
    by apply H. }
  split; [| split].
  - rewrite head_rev, last_group_rev, <- head_rev, rev_involutive. reflexivity.
  - rewrite length_rev, group_rev_length, length_rev. reflexivity.
  - intros i Hi. rewrite rev_involutive. rewrite length_rev in Hi.
    by apply nth_group_rev.
Qed.

(** ** The paths of a view function *)

Section Paths.
Context `{L : Libs}.

Lemma serve_readonly r ns : snd (serve r ns) = ns.
Proof.
  unfold serve. pose proof (view_readonly r ns) as H.
  destruct (view r ns) as [[resp | e] ns']; exact H.
Qed.

End Paths.

(** ** What the table operations return and raise *)

Section Tables.
Context `{L : Libs}.

Lemma geometry_column_raise df e :
  geometry_column df = Raise e ->
  e = AttributeError "geometry" /\ has_column df "geometry" = false.
Proof.
  unfold geometry_column. destruct (has_column df "geometry"); [discriminate|].
  intros [= <-]. auto.
Qed.

Lemma get_column_raise df col e :
  get_column df col = Raise e -> e = KeyError col /\ has_column df col = false.
Proof.
  unfold get_column. destruct (has_column df col); [discriminate|].
  intros [= <-]. auto.
Qed.

Lemma select_eq_raise df col v e :
  select_eq df col v = Raise e -> e = KeyError col /\ has_column df col = false.
Proof.
  unfold select_eq. destruct (get_column df col) eqn:E; [discriminate|].
  cbn. intros [= <-]. by apply get_column_raise.
Qed.

Lemma frame_empty_false df :
  frame_empty df = false -> exists row rws, rows df = row :: rws.
Proof. unfold frame_empty. destruct (rows df); [discriminate | eauto]. Qed.

Lemma frame_empty_nonempty df : frame_empty df = false -> rows df <> [].
Proof. intros (row & rws & ->)%frame_empty_false. discriminate. Qed.

Lemma first_cell_raise df col e :
  frame_empty df = false ->
  (column ← get_column df col; iloc0 column) = Raise e -> e = KeyError col.
Proof.
  intros (row & rws & Hrows)%frame_empty_false. unfold get_column.
  rewrite Hrows. destruct (has_column df col); cbn; [discriminate | congruence].
Qed.

Lemma first_name_raise df col e :
  frame_empty df = false ->
  (row ← iloc0 (rows df); getitem df row col) = Raise e -> e = KeyError col.
Proof.
  intros (row & rws & Hrows)%frame_empty_false. rewrite Hrows. cbn.
  unfold getitem. destruct (has_column df col); congruence.
Qed.

Lemma to_crs_raise df e :
  to_crs df 4326 = Raise e ->
  (e = AttributeError "geometry" /\ has_column df "geometry" = false)
  \/ (e = naive_geometries /\ crs df = None).
Proof.
  unfold to_crs. destruct (geometry_column df) eqn:E; cbn.
  - destruct (crs df) as [src|]; [destruct (String.eqb src _); discriminate|].
    intros [= <-]. right. auto.
  - intros [= <-]. left. by apply geometry_column_raise.
Qed.

Lemma to_crs_inv df df' :
  to_crs df 4326 = Ok df' ->
  has_column df "geometry" = true
  /\ is_Some (crs df)
  /\ columns df' = columns df
  /\ length (rows df') = length (rows df)
  /\ crs df' = Some EPSG_4326.
Proof.
  intros H. destruct (has_column df "geometry") eqn:Hgeom.
  - destruct (crs df) as [src|] eqn:Hcrs.
    + destruct (to_crs_ok df src Hgeom Hcrs) as (d & Hd & ?).
      rewrite Hd in H. injection H as <-.
      split; [reflexivity|]. split; [eauto|]. assumption.
    + unfold to_crs, geometry_column in H. rewrite Hgeom in H. cbn in H.
      rewrite Hcrs in H. discriminate.
  - unfold to_crs, geometry_column in H. rewrite Hgeom in H. discriminate.
Qed.

Lemma to_crs_same df :
  crs df = Some EPSG_4326 -> has_column df "geometry" = true ->
  to_crs df 4326 = Ok df.
Proof.
  intros Hcrs Hgeom. unfold to_crs, geometry_column. rewrite Hgeom, target_4326. cbn.
  rewrite Hcrs. reflexivity.
Qed.

Lemma ensure_epsg_4326_same df :
  crs df = Some EPSG_4326 -> ensure_epsg_4326 df = Ok df.
Proof. intros H. unfold ensure_epsg_4326. rewrite H. reflexivity. Qed.

Lemma ensure_epsg_4326_raise df e :
  ensure_epsg_4326 df = Raise e -> e = AttributeError "geometry".
Proof.
  unfold ensure_epsg_4326. destruct (crs df) as [c|] eqn:Hcrs; [| discriminate].
  destruct (negb (String.eqb c EPSG_4326)); [| discriminate].
  intros [(-> & _) | (_ & Hnone)]%to_crs_raise; congruence.
Qed.

Lemma ensure_epsg_4326_inv df df' :
  ensure_epsg_4326 df = Ok df' ->
  (crs df = None /\ df' = df) \/ crs df' = Some EPSG_4326.
Proof.
  unfold ensure_epsg_4326. destruct (crs df) as [c|] eqn:Hcrs.
  - destruct (String.eqb c EPSG_4326) eqn:E; cbn.
    + apply String.eqb_eq in E. subst c. intros [= <-]. right. exact Hcrs.
    + intros H%to_crs_inv. right. apply H.
  - intros [= <-]. left. auto.
Qed.

Lemma ensure_epsg_4326_total df :
  has_column df "geometry" = true -> exists df', ensure_epsg_4326 df = Ok df'.
Proof.
  intros Hgeom. unfold ensure_epsg_4326.
  destruct (crs df) as [c|] eqn:Hcrs; [| eauto].
  destruct (negb (String.eqb c EPSG_4326)); [| eauto].
  destruct (to_crs_ok df c Hgeom Hcrs) as (d & Hd & _). eauto.
Qed.

Lemma centroids_raise df e :
  centroids df = Raise e ->
  e = AttributeError "geometry" /\ has_column df "geometry" = false.
Proof.
  unfold centroids. destruct (geometry_column df) eqn:E; [discriminate|].
  cbn. intros [= <-]. by apply geometry_column_raise.
Qed.

Lemma centroids_length df cs :
  centroids df = Ok cs -> length cs = length (rows df).
Proof.
  unfold centroids, geometry_column. destruct (has_column df "geometry"); [| discriminate].
  cbn. intros [= <-]. by rewrite !length_map.
Qed.

Lemma centroids_nonempty df df' cs :
  frame_empty df = false -> to_crs df 4326 = Ok df' -> centroids df' = Ok cs ->
  exists c cs', cs = c :: cs'.
Proof.
  intros (row & rws & Hrows)%frame_empty_false (_ & _ & _ & Hlen & _)%to_crs_inv
    Hcs%centroids_length.
  rewrite Hlen, Hrows in Hcs. destruct cs; [discriminate | eauto].
Qed.

Lemma nonempty_length {A} (l l' : list A) :
  length l' = length l -> l <> [] -> l' <> [].
Proof. destruct l, l'; cbn; congruence. Qed.

Lemma filter_head_true {A} (p : A -> bool) l x l' :
  List.filter p l = x :: l' -> p x = true.
Proof.
  intros H. assert (Hin : In x (List.filter p l)) by (rewrite H; by left).
  apply filter_In in Hin. apply Hin.
Qed.

Lemma select_head_text df col s sub row rws :
  has_column df col = true -> select_eq df col (VStr s) = Ok sub ->
  rows sub = row :: rws -> cell row col = VStr s.
Proof.
  intros Hcol Hsel Hrows.
  destruct (select_eq_inv _ _ _ _ Hcol Hsel) as (_ & _ & Hfilter).
  rewrite Hrows in Hfilter. symmetry in Hfilter.
  apply value_eqb_text_inv. exact (filter_head_true _ _ _ _ Hfilter).
Qed.

(** A missing scalar, [None] or NaN, equals no cell. *)
Lemma value_eqb_missing v w : notna w = false -> value_eqb v w = false.
Proof.
  destruct w as [| s | [] | g]; try discriminate; intros _.
  - by destruct v.
  - destruct v as [| s | x | g]; try reflexivity. cbn. by destruct x.
Qed.

End Tables.

(** ** The start-up load, step by step *)

Section Loading.
Context `{L : Libs}.

Lemma load_body_ok ns0 ns1 :
  load_body ns0 = (Ok tt, ns1) ->
  exists p c s p' c' s' cs,
    read_file properties_url = Ok p
    /\ read_file communities_url = Ok c
    /\ read_file sector_url = Ok s
    /\ preprocess_properties p = Ok p'
    /\ preprocess_communities c = Ok c'
    /\ ensure_epsg_4326 s = Ok s'
    /\ centroids c' = Ok cs
    /\ ns1 = {| properties_gdf := Bound (Some p');
                communities_gdf := Bound (Some c');
                sector_gdf := Bound (Some s');
                calgary_center := Bound (mean (map snd cs), mean (map fst cs)) |}.
Proof.
  unfold load_body, mbind, M_bind, lift, read,
    assign_properties_gdf, assign_communities_gdf, assign_sector_gdf,
    assign_calgary_center.
  cbn -[preprocess_properties preprocess_communities ensure_epsg_4326 centroids].
  repeat match goal with
         | |- context [match ?r with Ok _ => _ | Raise _ => _ end] =>
             destruct r eqn:?;
               cbn -[preprocess_properties preprocess_communities
                     ensure_epsg_4326 centroids];
               [| discriminate]
         end.
  intros [= <-]. eexists _, _, _, _, _, _, _.
  repeat split; first [reflexivity | eassumption].
Qed.

Lemma load_body_run ns0 p c s p' c' s' cs :
  read_file properties_url = Ok p ->
  read_file communities_url = Ok c ->
  read_file sector_url = Ok s ->
  preprocess_properties p = Ok p' ->
  preprocess_communities c = Ok c' ->
  ensure_epsg_4326 s = Ok s' ->
  centroids c' = Ok cs ->
  load_body ns0
  = (Ok tt, {| properties_gdf := Bound (Some p');
               communities_gdf := Bound (Some c');
               sector_gdf := Bound (Some s');
               calgary_center := Bound (mean (map snd cs), mean (map fst cs)) |}).
Proof.
  intros H1 H2 H3 H4 H5 H6 H7.
  unfold load_body, mbind, M_bind, lift, read,
    assign_properties_gdf, assign_communities_gdf, assign_sector_gdf,
    assign_calgary_center.
  repeat first [ rewrite H1 | rewrite H2 | rewrite H3 | rewrite H4 | rewrite H5
               | rewrite H6 | rewrite H7
               | progress cbn -[preprocess_properties preprocess_communities
                                ensure_epsg_4326 centroids] ].
  reflexivity.
Qed.

Lemma load_data_ok ns0 ns1 :
  load_body ns0 = (Ok tt, ns1) -> load_data ns0 = (Ok tt, ns1).
Proof. intros H. unfold load_data, try_except. rewrite H. reflexivity. Qed.

Lemma load_body_cases ns0 :
  (exists e ns1, load_body ns0 = (Raise e, ns1))
  \/ (exists ns1, load_body ns0 = (Ok tt, ns1)).
Proof. destruct (load_body ns0) as [[[] | e] ns1]; eauto. Qed.

(** X4: the load always completes, whatever the downloads and the
    pre-processing do, and leaves every one of the four module-level names
    bound: either the three tables are all [None] and the centre is the
    default, or the three names all hold a table.  No request handler can
    meet an unbound name afterwards. *)
Theorem load_binds_every_name ns0 :
  fst (load_data ns0) = Ok tt
  /\ exists p c s center,
       snd (load_data ns0)
       = {| properties_gdf := Bound p; communities_gdf := Bound c;
            sector_gdf := Bound s; calgary_center := Bound center |}
       /\ (p = None /\ c = None /\ s = None /\ center = default_center
           \/ is_Some p /\ is_Some c /\ is_Some s).
Proof.
  destruct (load_body_cases ns0) as [(e & ns1 & H) | (ns1 & H)].
  - rewrite (load_data_raise _ _ _ H). split; [reflexivity|].
    eexists _, _, _, _. split; [reflexivity|]. left. auto.
  - rewrite (load_data_ok _ _ H). split; [reflexivity|].
    destruct (load_body_ok _ _ H)
      as (p & c & s & p' & c' & s' & cs & _ & _ & _ & _ & _ & _ & _ & ->).
    eexists _, _, _, _. split; [reflexivity|]. right. eauto.
Qed.

Lemma stringify_column_columns df col df' :
  stringify_column df col = Ok df' ->
  columns df' = columns df /\ crs df' = crs df
  /\ length (rows df') = length (rows df).
Proof.
  unfold stringify_column, get_column, set_column.
  destruct (has_column df col) eqn:E; cbn; intros [= <-]; cbn; [| auto].
  repeat split. rewrite map_map, zip_with_insert_map, length_map. reflexivity.
Qed.

Lemma preprocess_communities_ok c :
  exists c', preprocess_communities c = Ok c'
    /\ columns c' = columns c /\ crs c' = crs c
    /\ length (rows c') = length (rows c).
Proof.
  unfold preprocess_communities.
  destruct (stringify_column_total c "created_dt") as (c1 & H1). rewrite H1. cbn.
  destruct (stringify_column_total c1 "modified_dt") as (c2 & H2). rewrite H2.
  apply stringify_column_columns in H1 as (? & ? & ?).
  apply stringify_column_columns in H2 as (? & ? & ?).
  eexists. split; [reflexivity|]. repeat split; congruence.
Qed.

(** X5: when the three downloads succeed and the boundary table and the
    sector table each have a geometry column, the load succeeds: the names
    hold the pre-processed property table, the boundary table with its two
    date columns as text, and the sector table in EPSG:4326 or, when it
    declares no reference system, as it was read.  The pre-processing of
    the property table cannot make the load fail. *)
Theorem load_succeeds ns0 p c s :
  read_file properties_url = Ok p ->
  read_file communities_url = Ok c ->
  read_file sector_url = Ok s ->
  has_column c "geometry" = true ->
  has_column s "geometry" = true ->
  exists p' c' s' center,
    load_data ns0
    = (Ok tt, {| properties_gdf := Bound (Some p');
                 communities_gdf := Bound (Some c');
                 sector_gdf := Bound (Some s');
                 calgary_center := Bound center |})
    /\ preprocess_properties p = Ok p'
    /\ preprocess_communities c = Ok c'
    /\ ensure_epsg_4326 s = Ok s'
    /\ (crs s' = Some EPSG_4326 \/ crs s = None /\ s' = s).
Proof.
  intros Hp Hc Hs Hcgeom Hsgeom.
  destruct (preprocess_properties_total p) as (p' & Hp').
  destruct (preprocess_communities_ok c) as (c' & Hc' & Hcols & _).
  destruct (ensure_epsg_4326_total s Hsgeom) as (s' & Hs').
  assert (Hcs : exists cs, centroids c' = Ok cs).
  { unfold centroids, geometry_column.
    rewrite (has_column_columns _ _ _ Hcols), Hcgeom. cbn. eauto. }
  destruct Hcs as (cs & Hcs).
  eexists p', c', s', _. split; [| split; [| split; [| split]]]; try assumption.
  - apply load_data_ok. by apply load_body_run with (p := p) (c := c) (s := s).
  - destruct (ensure_epsg_4326_inv _ _ Hs') as [[Hnone ->] | Hcrs]; auto.
Qed.

(** X8: after the load, a sector table that is there either declares no
    reference system or is in EPSG:4326. *)
Theorem sector_table_reference_system ns0 sectors :
  sector_gdf (snd (load_data ns0)) = Bound (Some sectors) ->
  crs sectors = None \/ crs sectors = Some EPSG_4326.
Proof.
  destruct (load_body_cases ns0) as [(e & ns1 & H) | (ns1 & H)].
  - rewrite (load_data_raise _ _ _ H). discriminate.
  - rewrite (load_data_ok _ _ H).
    destruct (load_body_ok _ _ H)
      as (p & c & s & p' & c' & s' & cs & _ & _ & _ & _ & _ & Hs & _ & ->).
    cbn. intros [= <-].
    destruct (ensure_epsg_4326_inv _ _ Hs) as [[Hnone ->] | Hcrs]; auto.
Qed.

(** X10: the overview after the load.  When the body of the load raised,
    the answer is the text "Error: Data not loaded." with status 500.
    Otherwise the three names hold tables and a centre, the route never
    answers with a text, and: when the centre is a point, both tables have
    a record, the boundary table has the column "name" and the sector table
    the column "sector", it renders the map page named "Calgary Overview",
    centred on the computed centre at zoom 10, with the whole boundary
    table, then the whole sector table, then the layer control; when the
    centre has a NaN, as the mean over an empty boundary table has, the
    request ends in the [ValueError] of folium, the 500 page. *)
Theorem overview_after_load ns0 :
  match fst (load_body ns0) with
  | Raise _ =>
      fst (serve GET_calgary_overview (snd (load_data ns0)))
      = Text "Error: Data not loaded." 500
  | Ok _ =>
      exists communities sectors center,
        communities_gdf (snd (load_data ns0)) = Bound (Some communities)
        /\ sector_gdf (snd (load_data ns0)) = Bound (Some sectors)
        /\ calgary_center (snd (load_data ns0)) = Bound center
        /\ (forall body status,
              fst (serve GET_calgary_overview (snd (load_data ns0)))
              <> Text body status)
        /\ (located center ->
            rows communities <> [] -> rows sectors <> [] ->
            has_column communities "name" = true ->
            has_column sectors "sector" = true ->
            fst (serve GET_calgary_overview (snd (load_data ns0)))
            = Template "map.html"
                {| location := center; zoom_start := 10;
                   children :=
                     [Layer {| data := communities; name := "Community Boundaries";
                               tooltip := [("name", "name")]; popup := [];
                               style := []; highlight := [] |};
                      Layer {| data := sectors; name := "Community Sectors";
                               tooltip := [("sector", "sector")]; popup := [];
                               style := [("fillColor", "none"); ("color", "red");
                                         ("weight", "2")];
                               highlight := [] |};
                      LayerControl] |}
                (VStr "Calgary Overview"))
        /\ (is_nan center.1 || is_nan center.2 = true ->
            fst (serve GET_calgary_overview (snd (load_data ns0)))
            = InternalServerError nan_location)
  end.
Proof.
  destruct (load_body_cases ns0) as [(e & ns1 & H) | (ns1 & H)].
  - rewrite (load_data_raise _ _ _ H), H. reflexivity.
  - rewrite (load_data_ok _ _ H), H. cbn [fst snd].
    destruct (load_body_ok _ _ H)
      as (p & c & s & p' & c' & s' & cs & _ & _ & _ & _ & _ & _ & _ & ->).
    eexists _, _, _. split; [reflexivity|]. split; [reflexivity|].
    split; [reflexivity|].
    set (ns := {| properties_gdf := _; communities_gdf := _; sector_gdf := _;
                  calgary_center := _ |}).
    assert (Hcb : communities_gdf ns = Bound (Some c')) by reflexivity.
    assert (Hsb : sector_gdf ns = Bound (Some s')) by reflexivity.
    assert (Hcc : calgary_center ns
                  = Bound (mean (map snd cs), mean (map fst cs))) by reflexivity.
    unfold serve, view, calgary_overview.
    rewrite (run_read _ _ _ _ _ Hcb); cbv beta iota.
    rewrite (run_read _ _ _ _ _ Hsb); cbv beta iota.
    rewrite (run_read _ _ _ _ _ Hcc); cbv beta iota.
    split; [| split].
    + intros body status. walk; cbn [fst]; discriminate.
    + intros Hcentre Hc Hs Hname Hsector.
      step_ok (folium_Map_located _ 10 Hcentre).
      rewrite run_lift_cases. unfold repr_html, add_to.
      cbn [children app rmap render_child mbind result_bind data tooltip popup].
      rewrite (render_detail_field c' "name" "name"), (render_detail_field s' "sector" "sector");
        try assumption;
        try (rewrite !not_elem_of_cons; repeat split;
             first [discriminate | apply not_elem_of_nil]).
      reflexivity.
    + intros Hnan. rewrite run_lift_cases. unfold folium_Map. rewrite Hnan.
      reflexivity.
Qed.

End Loading.

(** ** The pre-processed property table *)

Section Preprocessed.
Context `{L : Libs}.

(** X6: the pre-processing of the property table always succeeds; it
    keeps the declared reference system, the number and the order of the
    records and every column label, adds the label
    "formatted_assessed_values", and leaves every cell as it was except
    under the four value labels, "formatted_assessed_values" and
    "mod_date": community codes, names, addresses and geometries are not
    touched. *)
Theorem preprocess_properties_frame df :
  exists df',
    preprocess_properties df = Ok df'
    /\ crs df' = crs df
    /\ length (rows df') = length (rows df)
    /\ (forall col,
          col ∈ columns df'
          <-> col ∈ columns df \/ col = "formatted_assessed_values")
    /\ forall i row',
         rows df' !! i = Some row' ->
         exists row,
           rows df !! i = Some row
           /\ forall col,
                col ∉ value_columns ->
                col <> "formatted_assessed_values" -> col <> "mod_date" ->
                row' !! col = row !! col.
Proof.
  destruct (preprocess_properties_rows df) as (df' & Hok & Hcrs & Hcols & Hrows).
  exists df'. split; [exact Hok|]. split; [exact Hcrs|].
  split; [by rewrite Hrows, length_map|]. split.
  - intros col. rewrite Hcols.
    destruct (has_column df "formatted_assessed_values") eqn:E.
    + split; [auto|]. intros [H | ->]; [exact H|].
      by apply bool_decide_eq_true in E.
    + rewrite elem_of_app, list_elem_of_singleton. reflexivity.
  - intros i row' Hi. rewrite Hrows, list_lookup_fmap in Hi.
    destruct (rows df !! i) as [row|]; [| discriminate].
    injection Hi as <-. exists row. split; [reflexivity|].
    intros col Hval Hfav Hmod. cbv zeta.
    destruct (has_column df "mod_date");
      rewrite ?(lookup_insert_ne _ "mod_date") by congruence;
      rewrite lookup_insert_ne by congruence;
      exact (coerce_row_other df value_columns row col Hval).
Qed.

(** X7: after the load, the property table that is there has the column
    "formatted_assessed_values"; in every one of its records each value
    column that the table has holds a number (NaN for a missing value), and
    the stored summary is the summary of those numbers: computing it again
    from the stored record gives the stored text. *)
Theorem loaded_summaries_agree ns0 properties :
  properties_gdf (snd (load_data ns0)) = Bound (Some properties) ->
  has_column properties "formatted_assessed_values" = true
  /\ forall row,
       row ∈ rows properties ->
       (forall col, col ∈ value_columns -> has_column properties col = true ->
          exists x, cell row col = VNum x)
       /\ cell row "formatted_assessed_values"
          = VStr (summary_spec (row_series properties row))
       /\ format_assessed_value (row_series properties row)
          = Ok (summary_spec (row_series properties row)).
Proof.
  destruct (load_body_cases ns0) as [(e & ns1 & H) | (ns1 & H)].
  - rewrite (load_data_raise _ _ _ H). discriminate.
  - rewrite (load_data_ok _ _ H).
    destruct (load_body_ok _ _ H)
      as (p & c & s & p' & c' & s' & cs & _ & _ & _ & Hp & _ & _ & _ & ->).
    cbn. intros [= <-]. split.
    + destruct (preprocess_properties_rows p) as (d & Hd & _ & Hcols & _).
      rewrite Hp in Hd. injection Hd as <-.
      unfold has_column. apply bool_decide_eq_true. rewrite Hcols.
      destruct (has_column p "formatted_assessed_values") eqn:E.
      * by apply bool_decide_eq_true in E.
      * rewrite elem_of_app, list_elem_of_singleton. by right.
    + intros row Hrow.
      destruct (preprocessed_rows _ _ _ Hp Hrow) as [Hnum Hsum].
      split; [exact Hnum|]. split; [exact Hsum|].
      apply format_assessed_value_ok. intros col Hin. rewrite row_series_get.
      destruct (has_column p' col) eqn:Hcol; [| exact I].
      destruct (Hnum col Hin Hcol) as [x ->]. exact I.
Qed.

Lemma coerce_row_lookup_keeps df cols (row : gmap string value) col x :
  row !! col = Some (VNum x) ->
  exists y, coerce_row df cols row !! col = Some (VNum y).
Proof.
  revert row x. induction cols as [| c cols IH]; intros row x Hx; cbn.
  - eauto.
  - unfold coerce_row in *. cbn. unfold coerce_cell at 2.
    destruct (has_column df c); [| eauto].
    destruct (decide (c = col)) as [-> | Hne].
    + destruct (to_numeric_coerce_numeric (cell row col)) as [y Hy].
      eapply IH. rewrite lookup_insert_eq, Hy. reflexivity.
    + eapply IH. rewrite lookup_insert_ne by exact Hne. exact Hx.
Qed.

Lemma coerce_row_lookup df cols (row : gmap string value) col :
  col ∈ cols -> has_column df col = true ->
  exists x, coerce_row df cols row !! col = Some (VNum x).
Proof.
  revert row. induction cols as [| c cols IH]; intros row Hin Hcol.
  - by apply not_elem_of_nil in Hin.
  - destruct (decide (c = col)) as [-> | Hne].
    + unfold coerce_row. cbn. unfold coerce_cell at 2. rewrite Hcol.
      destruct (to_numeric_coerce_numeric (cell row col)) as [y Hy].
      eapply coerce_row_lookup_keeps. rewrite lookup_insert_eq, Hy. reflexivity.
    + apply elem_of_cons in Hin as [-> | Hin]; [congruence|].
      unfold coerce_row. cbn. apply IH; assumption.
Qed.

(** A row whose value cells are numbers already is left as it is. *)
Lemma coerce_row_fixed df cols (row : gmap string value) :
  (forall col, col ∈ cols -> has_column df col = true ->
     exists x, row !! col = Some (VNum x)) ->
  coerce_row df cols row = row.
Proof.
  induction cols as [| c cols IH]; intros H; [reflexivity|].
  unfold coerce_row in *. cbn.
  assert (E : coerce_cell df row c = row).
  { unfold coerce_cell. destruct (has_column df c) eqn:Hc; [| reflexivity].
    destruct (H c) as [x Hx]; [by left | exact Hc |].
    unfold cell. rewrite Hx. cbn. by apply insert_id. }
  rewrite E. apply IH. intros col Hin. apply H. by right.
Qed.

(** X22: pre-processing a property table that has been pre-processed
    already returns it as it is: the numbers, the summaries and the dates
    as text are all kept. *)
Theorem preprocess_properties_idempotent df df' :
  preprocess_properties df = Ok df' -> preprocess_properties df' = Ok df'.
Proof.
  intros Hok.
  destruct (preprocess_properties_rows df) as (d & Hd & Hcrs & Hcols & Hrows).
  rewrite Hok in Hd. injection Hd as <-.
  destruct (preprocess_properties_rows df') as (d2 & Hd2 & Hcrs2 & Hcols2 & Hrows2).
  rewrite Hd2. f_equal.
  assert (Hfav : has_column df' "formatted_assessed_values" = true).
  { unfold has_column. apply bool_decide_eq_true. rewrite Hcols.
    destruct (has_column df "formatted_assessed_values") eqn:E.
    - by apply bool_decide_eq_true in E.
    - rewrite elem_of_app, list_elem_of_singleton. by right. }
  rewrite Hfav in Hcols2.
  assert (Hhas : forall col, col <> "formatted_assessed_values" ->
                   has_column df' col = has_column df col).
  { intros col Hne. unfold has_column at 1. rewrite Hcols.
    destruct (has_column df "formatted_assessed_values"); [reflexivity|].
    apply bool_decide_ext. rewrite elem_of_app, list_elem_of_singleton.
    split; [intros [H | H]; [exact H | congruence] | auto]. }
  assert (Hfix : forall row, row ∈ rows df' ->
            (let row1 := coerce_row df' value_columns row in
             let row2 := <["formatted_assessed_values"
                           := VStr (summary_spec (row_series df' row1))]> row1 in
             if has_column df' "mod_date"
             then <["mod_date" := VStr (py_str (cell row2 "mod_date"))]> row2
             else row2) = row).
  { intros row Hrow.
    destruct (preprocessed_rows _ _ _ Hok Hrow) as [_ Hsum].
    rewrite Hrows in Hrow. apply list_elem_of_In, in_map_iff in Hrow.
    destruct Hrow as (row0 & Hrow0 & _). cbv zeta in Hrow0.
    assert (Hnum : forall col, col ∈ value_columns -> has_column df' col = true ->
                     exists x, row !! col = Some (VNum x)).
    { intros col Hin Hcol. pose proof (label_not_value_column col Hin) as [Hf Hm].
      rewrite (Hhas col Hf) in Hcol.
      destruct (coerce_row_lookup df value_columns row0 col Hin Hcol) as [x Hx].
      exists x. rewrite <- Hrow0.
      destruct (has_column df "mod_date");
        rewrite ?(lookup_insert_ne _ "mod_date") by congruence;
        rewrite lookup_insert_ne by congruence; exact Hx. }
    assert (Hlook : exists t, row !! "formatted_assessed_values" = Some (VStr t)).
    { rewrite <- Hrow0.
      destruct (has_column df "mod_date");
        rewrite ?(lookup_insert_ne _ "mod_date") by discriminate;
        rewrite lookup_insert_eq; eauto. }
    assert (Hmod : has_column df' "mod_date" = true ->
                   exists t, row !! "mod_date" = Some (VStr t)).
    { rewrite (Hhas "mod_date") by discriminate. intros Hm. rewrite <- Hrow0, Hm.
      rewrite lookup_insert_eq. eauto. }
    cbv zeta. rewrite (coerce_row_fixed df' value_columns row Hnum).
    destruct Hlook as [t Ht].
    assert (E2 : <["formatted_assessed_values"
                   := VStr (summary_spec (row_series df' row))]> row = row).
    { apply insert_id. rewrite Ht. f_equal. unfold cell in Hsum.
      rewrite Ht in Hsum. cbn in Hsum. congruence. }
    rewrite E2. destruct (has_column df' "mod_date") eqn:Hm; [| reflexivity].
    destruct (Hmod eq_refl) as [u Hu]. apply insert_id.
    unfold cell. rewrite Hu. reflexivity. }
  destruct d2 as [cols2 rows2 crs2], df' as [cols' rows' crs']. cbn in *.
  subst cols2 crs2. f_equal.
  rewrite Hrows2. rewrite <- (map_id rows') at 2.
  apply map_ext_in. intros row Hrow. apply Hfix. by apply list_elem_of_In.
Qed.

End Preprocessed.

(** ** Route [/map], path by path *)

(** Runs the detail route up to the filter of the property table, given the
    boundary rows that the selection takes. *)
Ltac to_property_filter Hready Hname Hcode Hsel Hrows :=
  let Hcols := fresh "Hcols" in
  destruct (select_eq_inv _ _ _ _ Hname Hsel) as (Hcols & _ & _);
  pass_guard Hready; step_ok Hsel;
  rewrite (frame_empty_cons _ "name" _ _
             ltac:(rewrite (has_column_columns _ _ _ Hcols); exact Hname) Hrows);
  step_ok (first_cell _ "comm_code" _ _
             ltac:(rewrite (has_column_columns _ _ _ Hcols); exact Hcode) Hrows).

Section Detail.
Context `{L : Libs}.

(** X13: whenever the detail route answers with a text, the status is 400
    with the text "Error: Community not selected or data not loaded.", or
    the status is 404 and a community was selected, with either the text
    "No boundary data found for community: <selection>" or a text of the
    form "No property data found for community: ... (Filter Code: ...).".
    The route gives no other text and no other status of its own. *)
Theorem detail_text_answers ns form body status :
  fst (serve (POST_map form) ns) = Text body status ->
  (status = 400%Z /\ body = "Error: Community not selected or data not loaded.")
  \/ (status = 404%Z
      /\ exists selected,
           form !! "community_name" = Some selected
           /\ (body = "No boundary data found for community: " +:+ selected
               \/ exists name code,
                    body = "No property data found for community: " +:+ name
                           +:+ " (Filter Code: " +:+ code +:+ ").")).
Proof.
  unfold serve, view, show_map, not_selected_or_not_loaded.
  walk; cbn [fst]; intros H; inversion H; subst; eauto 10.
Qed.

(** X14: an exception that escapes the detail route is an unbound dataset
    name, the [KeyError] of a missing column among "name", "comm_code" and
    "comm_name", the [AttributeError] of a table without geometry, the
    refusal to reproject a table that declares no reference system, the
    refusal of folium to centre a map on a NaN, or the failed assertion of
    folium that a field of the tooltip or popup, "address",
    "assessment_class_description" or "formatted_assessed_values", is among
    the properties.  In particular taking the first record of a selection
    never raises [IndexError]. *)
Theorem detail_internal_errors ns form e :
  fst (serve (POST_map form) ns) = InternalServerError e ->
  e ∈ [NameError "properties_gdf"; NameError "communities_gdf";
       NameError "sector_gdf"; KeyError "name"; KeyError "comm_code";
       KeyError "comm_name"; AttributeError "geometry"; naive_geometries;
       nan_location]
  \/ exists field keys,
       e = AssertionError field keys
       /\ field ∈ ["address"; "assessment_class_description";
                   "formatted_assessed_values"].
Proof.
  unfold serve, view, show_map, not_selected_or_not_loaded.
  walk; cbn [fst]; intros H; inversion H; subst; clear H;
    repeat match goal with
    | H : select_eq _ _ _ = Raise _ |- _ => apply select_eq_raise in H as [-> _]
    | H : (get_column ?df ?col ≫= _) = Raise _, H' : frame_empty ?df = false |- _ =>
        apply (first_cell_raise _ _ _ H') in H; subst
    | H : (iloc0 (rows ?df) ≫= _) = Raise _, H' : frame_empty ?df = false |- _ =>
        apply (first_name_raise _ _ _ H') in H; subst
    | H : to_crs _ _ = Raise _ |- _ => apply to_crs_raise in H as [[-> _] | [-> _]]
    | H : centroids _ = Raise _ |- _ => apply centroids_raise in H as [-> _]
    | H : ensure_epsg_4326 _ = Raise _ |- _ => apply ensure_epsg_4326_raise in H as ->
    | H : folium_Map _ _ = Raise _ |- _ => apply folium_Map_raise in H as ->
    end;
    try (left; set_solver).
  all: try (match goal with
            | He : frame_empty ?cb = false, Ht : to_crs ?cb _ = Ok ?d,
              Hc : centroids ?d = Ok ?cs, Hi : iloc0 (map _ ?cs) = Raise _ |- _ =>
                destruct (centroids_nonempty _ _ _ He Ht Hc) as (c & cs' & ->)
            end;
            discriminate).
  right.
  match goal with
  | Hm : folium_Map _ _ = Ok ?m, He : frame_empty ?sub = false,
    Ht : to_crs ?sub _ = Ok ?d1, Hen : ensure_epsg_4326 ?d1 = Ok ?d3,
    Hr : repr_html _ = Raise _ |- _ =>
      apply folium_Map_inv in Hm as (-> & _);
      apply frame_empty_nonempty in He;
      apply to_crs_inv in Ht as (_ & _ & _ & Hlen & Hcrs);
      rewrite (ensure_epsg_4326_same _ Hcrs) in Hen; injection Hen as <-;
      apply repr_html_detail_raise in Hr as (field & -> & Hfield);
        [| reflexivity | reflexivity | reflexivity
         | exact (nonempty_length _ _ Hlen He)]
  end.
  exists field. eexists. split; [reflexivity|].
  cbn in Hfield. tauto.
Qed.

(** X16: every page that the detail route renders is the template
    "map.html" with a map at zoom 14 that holds, in this order, the
    boundary layer named "Boundary: <display name>", the property layer
    named "<selection> Properties" with the tooltip and popup fields
    address, class and assessed values, and the layer control; both layers
    are in EPSG:4326 and neither is empty. *)
Theorem detail_page_layers ns form template map_html community_name :
  fst (serve (POST_map form) ns) = Template template map_html community_name ->
  exists selected boundary properties,
    form !! "community_name" = Some selected
    /\ template = "map.html"
    /\ zoom_start map_html = 14%Z
    /\ children map_html = [Layer boundary; Layer properties; LayerControl]
    /\ name boundary = "Boundary: " +:+ py_str community_name
    /\ name properties = selected +:+ " Properties"
    /\ tooltip properties = detail_fields /\ popup properties = detail_fields
    /\ crs (data boundary) = Some EPSG_4326
    /\ crs (data properties) = Some EPSG_4326
    /\ rows (data boundary) <> []
    /\ rows (data properties) <> [].
Proof.
  unfold serve, view, show_map, not_selected_or_not_loaded.
  walk; cbn [fst]; intros H; inversion H; subst; clear H.
  repeat match goal with
         | H : to_crs ?df _ = Ok _, He : frame_empty ?df = false |- _ =>
             apply frame_empty_nonempty in He;
             apply to_crs_inv in H as (_ & _ & _ & ? & ?)
         end.
  match goal with
  | H : ensure_epsg_4326 ?d = Ok ?d', Hc : crs ?d = Some _ |- _ =>
      rewrite (ensure_epsg_4326_same _ Hc) in H; injection H as <-
  end.
  match goal with
  | Hm : folium_Map _ _ = Ok _ |- _ => apply folium_Map_inv in Hm as (-> & _)
  end.
  match goal with
  | Hr : repr_html _ = Ok _ |- _ => apply repr_html_inv in Hr as ->
  end.
  do 3 eexists. repeat split; cbn; eauto using nonempty_length.
Qed.

Lemma no_properties_run ns form selected properties communities
    community_boundary boundary rest :
  ready ns form selected properties communities ->
  has_column communities "name" = true ->
  has_column communities "comm_code" = true ->
  has_column properties "comm_code" = true ->
  select_eq communities "name" (VStr selected) = Ok community_boundary ->
  rows community_boundary = boundary :: rest ->
  List.filter (fun row => value_eqb (cell row "comm_code") (cell boundary "comm_code"))
    (rows properties) = [] ->
  serve (POST_map form) ns
  = (Text ("No property data found for community: " +:+ selected
           +:+ " (Filter Code: " +:+ py_str (cell boundary "comm_code") +:+ ").")
       404, ns).
Proof.
  intros Hready Hname Hcode Hpcode Hsel Hrows Hnone.
  pose proof (select_head_text _ _ _ _ _ _ Hname Hsel Hrows) as Hbname.
  to_property_filter Hready Hname Hcode Hsel Hrows.
  step_ok (select_eq_rows properties "comm_code" (cell boundary "comm_code") Hpcode).
  rewrite (frame_empty_select _ _ _ _ Hpcode), Hnone.
  rewrite Hrows. unfold getitem.
  rewrite (has_column_columns _ _ _ Hcols), Hname. cbn.
  by rewrite Hbname.
Qed.

Lemma page_run ns form selected properties communities
    community_boundary boundary rest community_properties_gdf first others
    projected_properties projected_boundary centre cs :
  ready ns form selected properties communities ->
  has_column communities "name" = true ->
  has_column communities "comm_code" = true ->
  has_column properties "comm_code" = true ->
  has_column properties "comm_name" = true ->
  select_eq communities "name" (VStr selected) = Ok community_boundary ->
  rows community_boundary = boundary :: rest ->
  select_eq properties "comm_code" (cell boundary "comm_code")
  = Ok community_properties_gdf ->
  rows community_properties_gdf = first :: others ->
  to_crs community_properties_gdf 4326 = Ok projected_properties ->
  to_crs community_boundary 4326 = Ok projected_boundary ->
  centroids projected_boundary = Ok (centre :: cs) ->
  serve (POST_map form) ns
  = (if is_nan (snd centre) || is_nan (fst centre)
     then InternalServerError nan_location
     else
       let community_map :=
         {| location := (snd centre, fst centre);
            zoom_start := 14;
            children :=
              [Layer {| data := projected_boundary;
                        name := "Boundary: " +:+ py_str (cell first "comm_name");
                        tooltip := []; popup := [];
                        style := [("fillColor", "#007bff"); ("color", "black");
                                  ("weight", "2"); ("fillOpacity", "0.1")];
                        highlight := [] |};
               Layer {| data := projected_properties;
                        name := selected +:+ " Properties";
                        tooltip := detail_fields; popup := detail_fields;
                        style := [("color", "blue"); ("weight", "1");
                                  ("fillColor", "none")];
                        highlight := [("fillColor", "#ffff00");
                                      ("color", "#000000");
                                      ("fillOpacity", "0.50");
                                      ("weight", "0.1")] |};
               LayerControl] |} in
       match assert_fields (map fst detail_fields) (feature_keys properties) with
       | Ok _ => Template "map.html" community_map (cell first "comm_name")
       | Raise e => InternalServerError e
       end, ns).
Proof.
  intros Hready Hname Hcode Hpcode Hpname Hsel Hrows Hsub Hsubrows Hd1 Hd2 Hcs.
  destruct (select_eq_inv _ _ _ _ Hpcode Hsub) as (Hpcols & _ & _).
  to_property_filter Hready Hname Hcode Hsel Hrows.
  step_ok Hsub.
  rewrite (frame_empty_cons community_properties_gdf "comm_code" first others)
    by (rewrite ?(has_column_columns _ _ _ Hpcols); assumption).
  step_ok (first_cell community_properties_gdf "comm_name" first others
             ltac:(rewrite (has_column_columns _ _ _ Hpcols); assumption) Hsubrows).
  step_ok Hd1. step_ok Hd2. step_ok Hcs.
  cbn [map fst snd iloc0].
  rewrite (run_lift_ok _ _ _ _ eq_refl); cbv beta iota zeta.
  rewrite (run_lift_ok _ _ _ _ eq_refl); cbv beta iota zeta.
  rewrite run_lift_cases. unfold folium_Map. cbn [fst snd].
  destruct (is_nan (snd centre) || is_nan (fst centre)); [reflexivity|].
  apply to_crs_inv in Hd1 as (_ & _ & Hd1cols & Hd1len & Hd1crs).
  step_ok (ensure_epsg_4326_same _ Hd1crs).
  rewrite run_lift_cases. unfold repr_html, add_to.
  cbn [children app rmap render_child mbind result_bind data tooltip popup
       render_detail].
  assert (Hkeys : feature_keys projected_properties = feature_keys properties)
    by (unfold feature_keys; congruence).
  unfold render_detail, detail_fields.
  destruct (rows projected_properties) as [| row1 rows1] eqn:Hrows1;
    [rewrite Hsubrows in Hd1len; discriminate|].
  rewrite Hkeys. fold detail_fields.
  destruct (assert_fields (map fst detail_fields) (feature_keys properties))
    as [[] | e]; reflexivity.
Qed.

Lemma assert_fields_schema properties :
  popup_schema properties ->
  assert_fields (map fst detail_fields) (feature_keys properties) = Ok tt.
Proof.
  intros (Ha & Hc & Hf). unfold detail_fields. cbn [map fst assert_fields].
  assert (Hfree : forall field,
            field ∈ ["address"; "assessment_class_description";
                     "formatted_assessed_values"] ->
            field ∉ ["geometry"; "style"; "highlight"]).
  { intros field Hin Hres. rewrite !elem_of_cons, elem_of_nil in Hin, Hres.
    destruct Hin as [-> | [-> | [-> | []]]];
      destruct Hres as [H | [H | [H | []]]]; discriminate H. }
  rewrite !feature_keys_column, Ha, Hc, Hf by (apply Hfree; set_solver).
  reflexivity.
Qed.

(** X15: when a community is selected, the three tables are there, the two
    tables have the columns that the route reads and declare a reference
    system, and the property table has the columns of the tooltip, the
    detail route answers that the boundary was not found, or that the
    community has no property, or it renders the map page; the one failure
    that is left is the [ValueError] of folium for a first boundary record
    whose centroid is not a point.  In every case the namespace is as it
    was. *)
Theorem detail_route_total ns form selected properties communities :
  ready ns form selected properties communities ->
  detail_schema properties communities ->
  popup_schema properties ->
  serve (POST_map form) ns
  = (Text ("No boundary data found for community: " +:+ selected) 404, ns)
  \/ (exists code,
        serve (POST_map form) ns
        = (Text ("No property data found for community: " +:+ selected
                 +:+ " (Filter Code: " +:+ code +:+ ").") 404, ns))
  \/ (exists map_html community_name,
        serve (POST_map form) ns
        = (Template "map.html" map_html community_name, ns))
  \/ serve (POST_map form) ns = (InternalServerError nan_location, ns).
Proof.
  intros Hready
    (Hname & Hcode & Hgeom & Hpcode & Hpname & Hpgeom & [sb Hcrs] & [sp Hpcrs])
    Hpopup.
  pose proof (select_eq_rows communities "name" (VStr selected) Hname) as Hsel.
  set (cb := {| columns := columns communities; rows := _; crs := _ |}) in Hsel.
  destruct (rows cb) as [| boundary rest] eqn:Hrows.
  - left. pass_guard Hready. step_ok Hsel.
    rewrite (frame_empty_rows cb "name" Hname), Hrows. reflexivity.
  - right.
    pose proof (select_eq_rows properties "comm_code" (cell boundary "comm_code")
                  Hpcode) as Hsub.
    set (sub := {| columns := columns properties; rows := _; crs := _ |}) in Hsub.
    destruct (rows sub) as [| first others] eqn:Hsubrows.
    + left. eexists.
      apply (no_properties_run _ _ _ _ _ _ _ _ Hready Hname Hcode Hpcode Hsel Hrows).
      exact Hsubrows.
    + right.
      destruct (to_crs_ok sub sp Hpgeom Hpcrs) as (d1 & Hd1 & _).
      destruct (to_crs_ok cb sb Hgeom Hcrs) as (d2 & Hd2 & Hd2cols & Hd2len & _).
      destruct (rows d2) as [| row2 rows2] eqn:Hd2rows;
        [rewrite Hrows in Hd2len; discriminate |].
      destruct (centroids_first d2 row2 rows2) as (cs & Hcs);
        [by rewrite (has_column_columns _ _ _ Hd2cols) | exact Hd2rows |].
      rewrite (page_run _ _ _ _ _ _ _ _ _ _ _ _ _ _ _ Hready Hname Hcode Hpcode
                 Hpname Hsel Hrows Hsub Hsubrows Hd1 Hd2 Hcs).
      rewrite (assert_fields_schema _ Hpopup).
      destruct (is_nan _ || is_nan _); [right; reflexivity | left; eauto].
Qed.

(** X17: with both tables in EPSG:4326, a property table that has the
    columns of the tooltip, and a selection that takes boundary records and
    property records, the first boundary record with a centroid that is a
    point, the rendered map is centred on that centroid, latitude first;
    its boundary layer holds all the boundary records of that name and its
    property layer holds exactly the property records whose code equals the
    code of the first boundary record, unchanged; the display name is the
    community name of the first of them. *)
Theorem detail_map_contents ns form selected properties communities
    community_boundary boundary rest community_properties_gdf first others :
  ready ns form selected properties communities ->
  detail_schema properties communities ->
  popup_schema properties ->
  crs communities = Some EPSG_4326 ->
  crs properties = Some EPSG_4326 ->
  select_eq communities "name" (VStr selected) = Ok community_boundary ->
  rows community_boundary = boundary :: rest ->
  located (centroid_of (cell boundary "geometry")) ->
  select_eq properties "comm_code" (cell boundary "comm_code")
  = Ok community_properties_gdf ->
  rows community_properties_gdf = first :: others ->
  exists boundary_layer property_layer,
    serve (POST_map form) ns
    = (Template "map.html"
         {| location := (snd (centroid_of (cell boundary "geometry")),
                         fst (centroid_of (cell boundary "geometry")));
            zoom_start := 14;
            children := [Layer boundary_layer; Layer property_layer; LayerControl] |}
         (cell first "comm_name"), ns)
    /\ data boundary_layer = community_boundary
    /\ data property_layer = community_properties_gdf
    /\ rows community_properties_gdf
       = List.filter
           (fun row => value_eqb (cell row "comm_code") (cell boundary "comm_code"))
           (rows properties).
Proof.
  intros Hready (Hname & Hcode & Hgeom & Hpcode & Hpname & Hpgeom & _ & _)
    Hpopup Hcrs Hpcrs Hsel Hrows [Hx Hy] Hsub Hsubrows.
  destruct (select_eq_inv _ _ _ _ Hname Hsel) as (Hcols & Hbcrs & _).
  destruct (select_eq_inv _ _ _ _ Hpcode Hsub) as (Hpcols & Hscrs & Hfilter).
  assert (Hd1 : to_crs community_properties_gdf 4326 = Ok community_properties_gdf).
  { apply to_crs_same; [congruence |].
    by rewrite (has_column_columns _ _ _ Hpcols). }
  assert (Hbgeom : has_column community_boundary "geometry" = true)
    by (by rewrite (has_column_columns _ _ _ Hcols)).
  assert (Hd2 : to_crs community_boundary 4326 = Ok community_boundary)
    by (apply to_crs_same; [congruence | exact Hbgeom]).
  destruct (centroids_first _ _ _ Hbgeom Hrows) as (cs & Hcs).
  eexists _, _. split; [| split; [| split]].
  - rewrite (page_run _ _ _ _ _ _ _ _ _ _ _ _ _ _ _ Hready Hname Hcode Hpcode Hpname
               Hsel Hrows Hsub Hsubrows Hd1 Hd2 Hcs).
    rewrite (assert_fields_schema _ Hpopup), Hx, Hy. reflexivity.
  - reflexivity.
  - reflexivity.
  - exact Hfilter.
Qed.

(** X18: when the first boundary record of the selection has no community
    code ([None] or NaN), no property record is taken, not even one whose
    own code is missing, and the answer is the 404 text
    "No property data found for community: ... (Filter Code: ...)." *)
Theorem missing_code_matches_nothing ns form selected properties communities
    community_boundary boundary rest :
  ready ns form selected properties communities ->
  has_column communities "name" = true ->
  has_column communities "comm_code" = true ->
  has_column properties "comm_code" = true ->
  select_eq communities "name" (VStr selected) = Ok community_boundary ->
  rows community_boundary = boundary :: rest ->
  notna (cell boundary "comm_code") = false ->
  select_eq properties "comm_code" (cell boundary "comm_code")
  = Ok {| columns := columns properties; rows := []; crs := crs properties |}
  /\ serve (POST_map form) ns
     = (Text ("No property data found for community: " +:+ selected
              +:+ " (Filter Code: " +:+ py_str (cell boundary "comm_code") +:+ ").")
          404, ns).
Proof.
  intros Hready Hname Hcode Hpcode Hsel Hrows Hna.
  assert (Hnone : List.filter
                    (fun row => value_eqb (cell row "comm_code")
                                  (cell boundary "comm_code"))
                    (rows properties) = []).
  { apply filter_none. intros row _. by apply value_eqb_missing. }
  split.
  - rewrite (select_eq_rows _ _ _ Hpcode), Hnone. reflexivity.
  - by apply (no_properties_run _ _ _ _ _ _ _ _ Hready Hname Hcode Hpcode Hsel Hrows).
Qed.

(** X19: a join column that is missing is reported as the [KeyError] of
    its label, which the client sees as the 500 page, and the namespace is
    as it was: "name" when the boundary table has no such column, and
    "comm_code" when the selection takes a boundary record and either the
    boundary table or the property table has no such column. *)
Theorem missing_join_column ns form selected properties communities :
  ready ns form selected properties communities ->
  (has_column communities "name" = false ->
   serve (POST_map form) ns = (InternalServerError (KeyError "name"), ns))
  /\ (forall community_boundary boundary rest,
        has_column communities "name" = true ->
        select_eq communities "name" (VStr selected) = Ok community_boundary ->
        rows community_boundary = boundary :: rest ->
        has_column communities "comm_code" = false
        \/ has_column properties "comm_code" = false ->
        serve (POST_map form) ns
        = (InternalServerError (KeyError "comm_code"), ns)).
Proof.
  intros Hready. split.
  - intros Hname. pass_guard Hready.
    rewrite (run_lift_raise _ _ _ _ (select_eq_missing _ _ _ Hname)). reflexivity.
  - intros community_boundary boundary rest Hname Hsel Hrows Hmissing.
    destruct (has_column communities "comm_code") eqn:Hcode.
    + destruct Hmissing as [Hmissing | Hpcode]; [discriminate|].
      to_property_filter Hready Hname Hcode Hsel Hrows.
      rewrite (run_lift_raise _ _ _ _ (select_eq_missing _ _ _ Hpcode)).
      reflexivity.
    + destruct (select_eq_inv _ _ _ _ Hname Hsel) as (Hcols & _ & _).
      pass_guard Hready. step_ok Hsel.
      rewrite (frame_empty_cons _ "name" _ _
                 ltac:(rewrite (has_column_columns _ _ _ Hcols); exact Hname) Hrows).
      assert (Hraise : (column ← get_column community_boundary "comm_code";
                        iloc0 column) = Raise (KeyError "comm_code")).
      { unfold get_column. rewrite (has_column_columns _ _ _ Hcols), Hcode.
        reflexivity. }
      rewrite (run_lift_raise _ _ _ _ Hraise). reflexivity.
Qed.

(** X20: when the property table declares no reference system and the
    selection takes property records, the detail route ends in the
    [ValueError] of the unconditional reprojection, which the client sees
    as the 500 page, although the guarded reprojection before the property
    layer would have accepted the same records as they are. *)
Theorem undeclared_crs_fails ns form selected properties communities
    community_boundary boundary rest community_properties_gdf first others :
  ready ns form selected properties communities ->
  has_column communities "name" = true ->
  has_column communities "comm_code" = true ->
  has_column properties "comm_code" = true ->
  has_column properties "comm_name" = true ->
  has_column properties "geometry" = true ->
  crs properties = None ->
  select_eq communities "name" (VStr selected) = Ok community_boundary ->
  rows community_boundary = boundary :: rest ->
  select_eq properties "comm_code" (cell boundary "comm_code")
  = Ok community_properties_gdf ->
  rows community_properties_gdf = first :: others ->
  serve (POST_map form) ns = (InternalServerError naive_geometries, ns)
  /\ ensure_epsg_4326 community_properties_gdf = Ok community_properties_gdf.
Proof.
  intros Hready Hname Hcode Hpcode Hpname Hpgeom Hpcrs Hsel Hrows Hsub Hsubrows.
  destruct (select_eq_inv _ _ _ _ Hpcode Hsub) as (Hpcols & Hscrs & _).
  split.
  - to_property_filter Hready Hname Hcode Hsel Hrows.
    step_ok Hsub.
    rewrite (frame_empty_cons community_properties_gdf "comm_code" first others)
      by (rewrite ?(has_column_columns _ _ _ Hpcols); assumption).
    step_ok (first_cell community_properties_gdf "comm_name" first others
               ltac:(rewrite (has_column_columns _ _ _ Hpcols); assumption) Hsubrows).
    assert (Hd1 : to_crs community_properties_gdf 4326 = Raise naive_geometries).
    { unfold to_crs, geometry_column.
      rewrite (has_column_columns _ _ _ Hpcols), Hpgeom. cbn.
      rewrite Hscrs, Hpcrs. reflexivity. }
    rewrite (run_lift_raise _ _ _ _ Hd1). reflexivity.
  - unfold ensure_epsg_4326. rewrite Hscrs, Hpcrs. reflexivity.
Qed.

(** What a request that finds its boundary is answered, when the answer is
    a text. *)
Lemma found_text_answer ns form selected properties communities row body status :
  ready ns form selected properties communities ->
  has_column communities "name" = true ->
  row ∈ rows communities -> cell row "name" = VStr selected ->
  fst (serve (POST_map form) ns) = Text body status ->
  exists text, body = "No property data found for community: " +:+ text.
Proof.
  intros Hready Hname Hrow Hcell.
  pose proof (select_eq_rows communities "name" (VStr selected) Hname) as Hsel.
  assert (Hne : frame_empty
                  {| columns := columns communities;
                     rows := List.filter
                               (fun row => value_eqb (cell row "name") (VStr selected))
                               (rows communities);
                     crs := crs communities |} = false).
  { rewrite (frame_empty_select _ _ _ _ Hname).
    destruct (List.filter _ _) eqn:E; [| reflexivity].
    assert (Hin : In row []); [| destruct Hin].
    rewrite <- E. apply filter_In. split; [by apply list_elem_of_In|].
    rewrite Hcell. cbn. apply String.eqb_refl. }
  pass_guard Hready. step_ok Hsel. rewrite Hne.
  walk; cbn [fst]; intros H; inversion H; subst; eauto.
Qed.

(** X21: the answer of the detail route does not depend on what the sector
    table holds, nor on the centre of the overview: two namespaces with the
    same property and boundary tables, each with some sector table, get
    the same answer to the same request. *)
Theorem detail_ignores_sectors ns ns' form p c s s' :
  properties_gdf ns = Bound p -> properties_gdf ns' = Bound p ->
  communities_gdf ns = Bound c -> communities_gdf ns' = Bound c ->
  sector_gdf ns = Bound (Some s) -> sector_gdf ns' = Bound (Some s') ->
  fst (serve (POST_map form) ns) = fst (serve (POST_map form) ns').
Proof.
  intros Hp Hp' Hc Hc' Hs Hs'.
  unfold serve, view, show_map.
  destruct (form !! "community_name") as [selected|]; [| reflexivity].
  destruct (String.eqb selected ""); [reflexivity|].
  rewrite !run_read_cases, Hp, Hp'. destruct p as [properties|]; [| reflexivity].
  rewrite !run_read_cases, Hc, Hc'. destruct c as [communities|]; [| reflexivity].
  rewrite !run_read_cases, Hs, Hs'.
  walk; reflexivity.
Qed.

End Detail.

(** ** Route [/]: the names on the selection page *)

Lemma ascii_compare_lt_trans a b c o :
  (a ?= b)%char = Lt -> (b ?= c)%char = o -> o <> Gt -> (a ?= c)%char = Lt.
Proof.
  unfold Ascii.compare. intros H1 H2 H3.
  rewrite N.compare_lt_iff in H1. rewrite N.compare_lt_iff.
  destruct o; try congruence.
  - apply N.compare_eq_iff in H2. lia.
  - rewrite N.compare_lt_iff in H2. lia.
Qed.

Lemma str_le_trans : Transitive str_le.
Proof.
  unfold str_le, String.leb. intros a. induction a as [| x a IH]; intros b c.
  - destruct c; reflexivity.
  - destruct b as [| y b]; [discriminate|]. destruct c as [| z c].
    + intros _ H. discriminate H.
    + cbn. destruct (x ?= y)%char eqn:Exy.
      * apply Ascii.compare_eq_iff in Exy. subst y.
        destruct (x ?= z)%char; auto. intros H1 H2. apply (IH b c); auto.
      * destruct (y ?= z)%char eqn:Eyz.
        -- apply Ascii.compare_eq_iff in Eyz. subst z. rewrite Exy. auto.
        -- rewrite (ascii_compare_lt_trans x y z Lt Exy Eyz) by discriminate. auto.
        -- discriminate.
      * discriminate.
Qed.

Lemma str_le_total : Total str_le.
Proof. intros a b. apply String.leb_total. Qed.

Lemma str_le_antisym : AntiSymm eq str_le.
Proof. intros a b. apply String.leb_antisym. Qed.

Section Index.
Context `{B : Builtins}.

Lemma texts_map ss : texts (map VStr ss) = Some ss.
Proof. induction ss as [| s ss IH]; cbn; [reflexivity|]. by rewrite IH. Qed.

Lemma seen_text s seen :
  existsb (same_key (VStr s)) (map VStr seen) = true <-> s ∈ seen.
Proof.
  rewrite existsb_exists. split.
  - intros (v & Hin & Hkey). apply in_map_iff in Hin as (t & <- & Hin).
    cbn in Hkey. apply String.eqb_eq in Hkey. subst t. by apply list_elem_of_In.
  - intros Hin. exists (VStr s). split.
    + apply in_map, list_elem_of_In, Hin.
    + cbn. apply String.eqb_refl.
Qed.

(** On texts, [unique] keeps every text once. *)
Lemma unique_from_texts ss : forall seen,
  exists us,
    unique_from (map VStr seen) (map VStr ss) = map VStr us
    /\ NoDup us
    /\ forall s, s ∈ us <-> s ∈ ss /\ s ∉ seen.
Proof.
  induction ss as [| s ss IH]; intros seen; cbn [map unique_from].
  - exists []. split; [reflexivity|]. split; [constructor|].
    intros s. rewrite elem_of_nil. tauto.
  - destruct (existsb (same_key (VStr s)) (map VStr seen)) eqn:E.
    + apply seen_text in E. destruct (IH seen) as (us & Hus & Hnd & Hin).
      exists us. split; [exact Hus|]. split; [exact Hnd|].
      intros t. rewrite Hin, elem_of_cons. split; [tauto|].
      intros [[-> | H] Hnot]; [contradiction | auto].
    + assert (Hnot : s ∉ seen).
      { intros H%seen_text. congruence. }
      destruct (IH (s :: seen)) as (us & Hus & Hnd & Hin).
      exists (s :: us). split; [cbn; by rewrite <- Hus|]. split.
      * constructor; [| exact Hnd]. rewrite Hin, elem_of_cons. tauto.
      * intros t. rewrite !elem_of_cons, Hin, elem_of_cons.
        destruct (decide (t = s)) as [-> | Hne]; tauto.
Qed.

Lemma column_texts (rws : list (gmap string value)) col :
  (forall row, row ∈ rws -> exists s, cell row col = VStr s) ->
  exists ss,
    map (fun row => cell row col) rws = map VStr ss
    /\ forall s, s ∈ ss <-> exists row, row ∈ rws /\ cell row col = VStr s.
Proof.
  induction rws as [| row rws IH]; intros H.
  - exists []. split; [reflexivity|]. intros s. rewrite elem_of_nil.
    split; [tauto|]. intros (row & Hrow & _). by apply elem_of_nil in Hrow.
  - destruct (H row) as [s Hs]; [by left|].
    destruct IH as (ss & Hss & Hin); [intros r Hr; apply H; by right|].
    exists (s :: ss). split; [cbn; by rewrite Hs, Hss|].
    intros t. rewrite elem_of_cons, Hin. split.
    + intros [-> | (r & Hr & Ht)]; [exists row | exists r];
        (split; [rewrite elem_of_cons; auto | assumption]).
    + intros (r & [-> | Hr]%elem_of_cons & Ht); [left; congruence | right; eauto].
Qed.

(** The run of the index view on a boundary table whose names are all
    text. *)
Lemma index_run ns communities :
  communities_gdf ns = Bound (Some communities) ->
  has_column communities "name" = true ->
  (forall row, row ∈ rows communities -> exists s, cell row "name" = VStr s) ->
  exists us,
    index ns
    = (Ok {| template_name := "index.html";
             community_names := map VStr (merge_sort str_le us) |}, ns)
    /\ NoDup us
    /\ forall s,
         s ∈ us <-> exists row, row ∈ rows communities /\ cell row "name" = VStr s.
Proof.
  intros Hc Hname Htext.
  destruct (column_texts _ _ Htext) as (ss & Hss & Hin).
  destruct (unique_from_texts ss []) as (us & Hus & Hnd & Hus_in).
  exists us. split; [| split].
  - unfold index. rewrite (run_read _ _ _ _ _ Hc). cbv beta iota.
    unfold get_column. rewrite Hname, Hss.
    rewrite (run_lift_ok _ _ _ _ eq_refl). cbv beta.
    unfold unique, sorted. change (@nil value) with (map VStr []).
    rewrite Hus, texts_map. reflexivity.
  - exact Hnd.
  - intros s. rewrite Hus_in, Hin, elem_of_nil. tauto.
Qed.

(** X11: on a boundary table whose names are all text, the selection page
    gets the template "index.html" with the names of the table in
    ascending order, each name once, and no other name; that list is the
    only one with these three properties; and the namespace is as it
    was. *)
Theorem index_names ns communities :
  communities_gdf ns = Bound (Some communities) ->
  has_column communities "name" = true ->
  (forall row, row ∈ rows communities -> exists s, cell row "name" = VStr s) ->
  exists names,
    index ns
    = (Ok {| template_name := "index.html"; community_names := map VStr names |}, ns)
    /\ StronglySorted str_le names
    /\ NoDup names
    /\ (forall s,
          s ∈ names
          <-> exists row, row ∈ rows communities /\ cell row "name" = VStr s)
    /\ forall names',
         StronglySorted str_le names' -> NoDup names' ->
         (forall s, s ∈ names' <-> s ∈ names) ->
         names' = names.
Proof.
  intros Hc Hname Htext.
  destruct (index_run ns communities Hc Hname Htext) as (us & Hrun & Hnd & Hin).
  assert (Hsorted : StronglySorted str_le (merge_sort str_le us))
    by (apply StronglySorted_merge_sort; [apply str_le_trans | apply str_le_total]).
  assert (Hnd' : NoDup (merge_sort str_le us)) by (by rewrite merge_sort_Permutation).
  exists (merge_sort str_le us). split; [exact Hrun|]. split; [exact Hsorted|].
  split; [exact Hnd'|]. split.
  - intros s. rewrite merge_sort_Permutation. apply Hin.
  - intros names' Hs' Hn' Hsame.
    apply (@StronglySorted_unique _ str_le str_le_antisym); [assumption..|].
    by apply NoDup_Permutation.
Qed.

End Index.

Section AcrossRoutes.
Context `{L : Libs} `{B : Builtins}.

(** X12: on a boundary table whose names are all text, a name that the
    selection page offers, other than the empty text, is the name of a
    boundary record, and a detail request for it is never answered with
    "No boundary data found for community: ...". *)
Theorem offered_name_is_found ns form selected properties communities page :
  ready ns form selected properties communities ->
  (forall row, row ∈ rows communities -> exists s, cell row "name" = VStr s) ->
  fst (index ns) = Ok page ->
  VStr selected ∈ community_names page ->
  (exists row, row ∈ rows communities /\ row !! "name" = Some (VStr selected))
  /\ forall other status,
       fst (serve (POST_map form) ns)
       <> Text ("No boundary data found for community: " +:+ other) status.
Proof.
  intros Hready Htext Hindex Hoffered.
  assert (Hc : communities_gdf ns = Bound (Some communities)) by apply Hready.
  assert (Hname : has_column communities "name" = true).
  { destruct (has_column communities "name") eqn:E; [reflexivity|].
    unfold index in Hindex. rewrite (run_read _ _ _ _ _ Hc) in Hindex.
    cbv beta iota in Hindex. unfold get_column in Hindex. rewrite E in Hindex.
    discriminate. }
  destruct (index_run ns communities Hc Hname Htext) as (us & Hrun & _ & Hin).
  rewrite Hrun in Hindex. injection Hindex as <-. cbn in Hoffered.
  apply list_elem_of_In, in_map_iff in Hoffered as (s & [= ->] & Hs).
  apply list_elem_of_In in Hs. rewrite merge_sort_Permutation in Hs.
  apply Hin in Hs as (row & Hrow & Hcell).
  split.
  - exists row. split; [exact Hrow|]. apply value_eqb_text.
    rewrite Hcell. cbn. apply String.eqb_refl.
  - intros other status Heq.
    destruct (found_text_answer _ _ _ _ _ _ _ _ Hready Hname Hrow Hcell Heq)
      as (text & Ht).
    symmetry in Ht. by apply not_found_differs in Ht.
Qed.

(** X9: after a load whose body raised, every request is answered from the
    state of the failure and leaves it as it is: the overview with
    "Error: Data not loaded." and status 500, the detail route, whatever
    the form, with "Error: Community not selected or data not loaded." and
    status 400, and the selection page with an empty list of names.  No
    request brings the data back. *)
Theorem failed_load_answers ns0 e ns1 :
  load_body ns0 = (Raise e, ns1) ->
  (forall r,
     serve r (snd (load_data ns0)) = (unavailable_answer r, snd (load_data ns0)))
  /\ index (snd (load_data ns0))
     = (Ok {| template_name := "index.html"; community_names := [] |},
        snd (load_data ns0)).
Proof.
  intros H. rewrite (load_data_raise _ _ _ H). cbn [snd]. split.
  - intros [| form]; [reflexivity | apply show_map_unavailable].
  - reflexivity.
Qed.

End AcrossRoutes.

(** ** The further theorems at the sample data *)

Lemma ready_namespace_of selected properties communities sectors :
  selected <> "" ->
  ready (namespace_of properties communities sectors) (select selected) selected
    properties communities.
Proof.
  intros Hsel. unfold ready, select. rewrite lookup_insert_eq.
  repeat split; [exact Hsel | eexists; reflexivity].
Qed.

Lemma sample_names_are_text (row : gmap string value) :
  row ∈ rows sample_communities -> exists s, cell row "name" = VStr s.
Proof. intros Hrow. cbn in Hrow. each_member Hrow; eexists; reflexivity. Qed.

Lemma format_assessed_value_raises_witness :
  exists e,
    format_assessed_value
      (<["assessed_value" := VStr "n/a"]> (row_series sample_properties property_01B))
    = Raise e
    /\ (e = unknown_format_code \/ e = invalid_format_specifier).
Proof.
  apply (format_assessed_value_raises
           (<["assessed_value" := VStr "n/a"]>
              (row_series sample_properties property_01B))
           "assessed_value").
  - unfold value_columns. set_solver.
  - left. exists "n/a". vm_compute. reflexivity.
Defined.

Lemma load_succeeds_witness :
  exists p' c' s' center,
    @load_data sample_libs fresh_namespace
    = (Ok tt, {| properties_gdf := Bound (Some p');
                 communities_gdf := Bound (Some c');
                 sector_gdf := Bound (Some s');
                 calgary_center := Bound center |})
    /\ @preprocess_properties sample_libs sample_properties = Ok p'
    /\ @preprocess_communities sample_libs sample_communities = Ok c'
    /\ @ensure_epsg_4326 sample_libs sample_sectors = Ok s'
    /\ (crs s' = Some EPSG_4326 \/ crs sample_sectors = None /\ s' = sample_sectors).
Proof.
  apply (@load_succeeds sample_libs fresh_namespace
           sample_properties sample_communities sample_sectors);
    reflexivity.
Defined.

Lemma sector_table_reference_system_witness :
  crs sample_sectors = None \/ crs sample_sectors = Some EPSG_4326.
Proof.
  apply (@sector_table_reference_system sample_libs fresh_namespace sample_sectors).
  vm_compute. reflexivity.
Defined.

Lemma loaded_summaries_agree_witness :
  has_column sample_loaded_properties "formatted_assessed_values" = true
  /\ forall row,
       row ∈ rows sample_loaded_properties ->
       (forall col, col ∈ value_columns ->
          has_column sample_loaded_properties col = true ->
          exists x, cell row col = VNum x)
       /\ cell row "formatted_assessed_values"
          = VStr (summary_spec (row_series sample_loaded_properties row))
       /\ format_assessed_value (row_series sample_loaded_properties row)
          = Ok (summary_spec (row_series sample_loaded_properties row)).
Proof.
  apply (@loaded_summaries_agree sample_libs fresh_namespace sample_loaded_properties).
  vm_compute. reflexivity.
Defined.

Lemma preprocess_properties_idempotent_witness :
  @preprocess_properties sample_libs sample_loaded_properties
  = Ok sample_loaded_properties.
Proof.
  apply (@preprocess_properties_idempotent sample_libs sample_properties
           sample_loaded_properties).
  vm_compute. reflexivity.
Defined.

Lemma failed_load_answers_witness :
  (forall r,
     @serve failing_libs r (snd (@load_data failing_libs fresh_namespace))
     = (unavailable_answer r, snd (@load_data failing_libs fresh_namespace)))
  /\ @index sample_builtins (snd (@load_data failing_libs fresh_namespace))
     = (Ok {| template_name := "index.html"; community_names := [] |},
        snd (@load_data failing_libs fresh_namespace)).
Proof.
  apply (@failed_load_answers failing_libs sample_builtins fresh_namespace
           (IOError communities_url)
           {| properties_gdf := Bound (Some sample_properties);
              communities_gdf := Unbound; sector_gdf := Unbound;
              calgary_center := Unbound |}).
  reflexivity.
Defined.

Lemma index_names_witness :
  exists names,
    @index sample_builtins sample_namespace
    = (Ok {| template_name := "index.html"; community_names := map VStr names |},
       sample_namespace)
    /\ StronglySorted str_le names
    /\ NoDup names
    /\ (forall s,
          s ∈ names
          <-> exists row, row ∈ rows sample_communities /\ cell row "name" = VStr s)
    /\ forall names',
         StronglySorted str_le names' -> NoDup names' ->
         (forall s, s ∈ names' <-> s ∈ names) ->
         names' = names.
Proof.
  apply (@index_names sample_builtins sample_namespace sample_communities).
  - reflexivity.
  - reflexivity.
  - apply sample_names_are_text.
Defined.

Lemma offered_name_is_found_witness :
  (exists row,
     row ∈ rows sample_communities /\ row !! "name" = Some (VStr "HILLHURST"))
  /\ forall other status,
       fst (@serve sample_libs (POST_map (select "HILLHURST"))
              (@loaded_namespace sample_libs))
       <> Text ("No boundary data found for community: " +:+ other) status.
Proof.
  apply (@offered_name_is_found sample_libs sample_builtins
           (@loaded_namespace sample_libs)
           (select "HILLHURST") "HILLHURST" sample_loaded_properties
           sample_communities
           {| template_name := "index.html";
              community_names := [VStr "01B"; VStr "BOWNESS PARK"; VStr "HILLHURST"] |}).
  - apply loaded_ready. discriminate.
  - apply sample_names_are_text.
  - vm_compute. reflexivity.
  - cbn. rewrite !elem_of_cons. auto.
Defined.

Lemma detail_text_answers_witness :
  (404%Z = 400%Z
   /\ "No boundary data found for community: hillhurst"
      = "Error: Community not selected or data not loaded.")
  \/ (404%Z = 404%Z
      /\ exists selected,
           select "hillhurst" !! "community_name" = Some selected
           /\ ("No boundary data found for community: hillhurst"
               = "No boundary data found for community: " +:+ selected
               \/ exists name code,
                    "No boundary data found for community: hillhurst"
                    = "No property data found for community: " +:+ name
                      +:+ " (Filter Code: " +:+ code +:+ ").")).
Proof.
  apply (@detail_text_answers sample_libs sample_namespace (select "hillhurst")).
  vm_compute. reflexivity.
Defined.

Lemma detail_internal_errors_witness :
  AssertionError "address"
    ["comm_code"; "comm_name"; "assessment_class_description"; "assessed_value";
     "re_assessed_value"; "formatted_assessed_values"]
  ∈ [NameError "properties_gdf"; NameError "communities_gdf";
     NameError "sector_gdf"; KeyError "name"; KeyError "comm_code";
     KeyError "comm_name"; AttributeError "geometry"; naive_geometries;
     nan_location]
  \/ exists field keys,
       AssertionError "address"
         ["comm_code"; "comm_name"; "assessment_class_description";
          "assessed_value"; "re_assessed_value"; "formatted_assessed_values"]
       = AssertionError field keys
       /\ field ∈ ["address"; "assessment_class_description";
                   "formatted_assessed_values"].
Proof.
  apply (@detail_internal_errors sample_libs
           (@loaded_namespace (serving unaddressed_properties))
           (select "HILLHURST")).
  vm_compute. reflexivity.
Defined.

Lemma detail_route_total_witness :
  @serve sample_libs (POST_map (select "HILLHURST")) (@loaded_namespace sample_libs)
  = (Text ("No boundary data found for community: " +:+ "HILLHURST") 404,
     @loaded_namespace sample_libs)
  \/ (exists code,
        @serve sample_libs (POST_map (select "HILLHURST"))
          (@loaded_namespace sample_libs)
        = (Text ("No property data found for community: " +:+ "HILLHURST"
                 +:+ " (Filter Code: " +:+ code +:+ ").") 404,
           @loaded_namespace sample_libs))
  \/ (exists map_html community_name,
        @serve sample_libs (POST_map (select "HILLHURST"))
          (@loaded_namespace sample_libs)
        = (Template "map.html" map_html community_name,
           @loaded_namespace sample_libs))
  \/ @serve sample_libs (POST_map (select "HILLHURST"))
       (@loaded_namespace sample_libs)
     = (InternalServerError nan_location, @loaded_namespace sample_libs).
Proof.
  apply (@detail_route_total sample_libs (@loaded_namespace sample_libs)
           (select "HILLHURST") "HILLHURST" sample_loaded_properties
           sample_communities).
  - apply loaded_ready. discriminate.
  - apply loaded_schema.
  - apply loaded_popup_schema.
Defined.

Lemma detail_page_layers_witness :
  exists selected boundary properties,
    select "HILLHURST" !! "community_name" = Some selected
    /\ "map.html" = "map.html"
    /\ zoom_start projected_hillhurst_map = 14%Z
    /\ children projected_hillhurst_map
       = [Layer boundary; Layer properties; LayerControl]
    /\ name boundary = "Boundary: " +:+ @py_str sample_libs (VStr "HILLHURST")
    /\ name properties = selected +:+ " Properties"
    /\ tooltip properties = detail_fields /\ popup properties = detail_fields
    /\ crs (data boundary) = Some EPSG_4326
    /\ crs (data properties) = Some EPSG_4326
    /\ rows (data boundary) <> []
    /\ rows (data properties) <> [].
Proof.
  apply (@detail_page_layers sample_libs
           (@loaded_namespace (serving projected_properties))
           (select "HILLHURST")).
  vm_compute. reflexivity.
Defined.

Lemma detail_map_contents_witness :
  exists boundary_layer property_layer,
    @serve sample_libs (POST_map (select "01B")) (@loaded_namespace sample_libs)
    = (Template "map.html"
         {| location := (snd (@centroid_of sample_libs (cell boundary_01B "geometry")),
                         fst (@centroid_of sample_libs (cell boundary_01B "geometry")));
            zoom_start := 14;
            children := [Layer boundary_layer; Layer property_layer; LayerControl] |}
         (cell loaded_property_01B "comm_name"), @loaded_namespace sample_libs)
    /\ data boundary_layer = only sample_communities boundary_01B
    /\ data property_layer = only sample_loaded_properties loaded_property_01B
    /\ rows (only sample_loaded_properties loaded_property_01B)
       = List.filter
           (fun row => value_eqb (cell row "comm_code") (cell boundary_01B "comm_code"))
           (rows sample_loaded_properties).
Proof.
  apply (@detail_map_contents sample_libs (@loaded_namespace sample_libs)
           (select "01B") "01B"
           sample_loaded_properties sample_communities
           (only sample_communities boundary_01B) boundary_01B []
           (only sample_loaded_properties loaded_property_01B)
           loaded_property_01B []).
  - apply loaded_ready. discriminate.
  - apply loaded_schema.
  - apply loaded_popup_schema.
  - reflexivity.
  - reflexivity.
  - reflexivity.
  - reflexivity.
  - split; reflexivity.
  - vm_compute. reflexivity.
  - reflexivity.
Defined.

Lemma missing_code_matches_nothing_witness :
  select_eq sample_properties "comm_code" (cell uncoded_row "comm_code")
  = Ok {| columns := columns sample_properties; rows := [];
          crs := crs sample_properties |}
  /\ @serve sample_libs (POST_map (select "NOSE HILL PARK"))
       (namespace_of sample_properties uncoded_communities sample_sectors)
     = (Text ("No property data found for community: " +:+ "NOSE HILL PARK"
              +:+ " (Filter Code: "
              +:+ @py_str sample_libs (cell uncoded_row "comm_code") +:+ ").")
          404,
        namespace_of sample_properties uncoded_communities sample_sectors).
Proof.
  apply (@missing_code_matches_nothing sample_libs
           (namespace_of sample_properties uncoded_communities sample_sectors)
           (select "NOSE HILL PARK") "NOSE HILL PARK"
           sample_properties uncoded_communities
           (only uncoded_communities uncoded_row) uncoded_row []).
  - apply ready_namespace_of. discriminate.
  - reflexivity.
  - reflexivity.
  - reflexivity.
  - reflexivity.
  - reflexivity.
  - reflexivity.
Defined.

Lemma missing_join_column_witness :
  @serve sample_libs (POST_map (select "HILLHURST"))
    (namespace_of sample_properties sample_sectors sample_sectors)
  = (InternalServerError (KeyError "name"),
     namespace_of sample_properties sample_sectors sample_sectors)
  /\ @serve sample_libs (POST_map (select "HILLHURST"))
       (namespace_of uncoded_properties sample_communities sample_sectors)
     = (InternalServerError (KeyError "comm_code"),
        namespace_of uncoded_properties sample_communities sample_sectors).
Proof.
  split.
  - apply (@missing_join_column sample_libs
             (namespace_of sample_properties sample_sectors sample_sectors)
             (select "HILLHURST") "HILLHURST" sample_properties sample_sectors).
    + apply ready_namespace_of. discriminate.
    + reflexivity.
  - apply (proj2 (@missing_join_column sample_libs
                    (namespace_of uncoded_properties sample_communities sample_sectors)
                    (select "HILLHURST") "HILLHURST" uncoded_properties
                    sample_communities
                    ltac:(apply ready_namespace_of; discriminate))
             (only sample_communities boundary_HIL) boundary_HIL []).
    + reflexivity.
    + reflexivity.
    + reflexivity.
    + right. reflexivity.
Defined.

Lemma undeclared_crs_fails_witness :
  @serve sample_libs (POST_map (select "01B"))
    (namespace_of naive_properties sample_communities sample_sectors)
  = (InternalServerError naive_geometries,
     namespace_of naive_properties sample_communities sample_sectors)
  /\ @ensure_epsg_4326 sample_libs (only naive_properties property_01B)
     = Ok (only naive_properties property_01B).
Proof.
  apply (@undeclared_crs_fails sample_libs
           (namespace_of naive_properties sample_communities sample_sectors)
           (select "01B") "01B" naive_properties sample_communities
           (only sample_communities boundary_01B) boundary_01B []
           (only naive_properties property_01B) property_01B []).
  - apply ready_namespace_of. discriminate.
  - reflexivity.
  - reflexivity.
  - reflexivity.
  - reflexivity.
  - reflexivity.
  - reflexivity.
  - reflexivity.
  - reflexivity.
  - reflexivity.
  - reflexivity.
Defined.

Lemma detail_ignores_sectors_witness :
  fst (@serve sample_libs (POST_map (select "HILLHURST"))
         (@loaded_namespace sample_libs))
  = fst (@serve sample_libs (POST_map (select "HILLHURST"))
           (namespace_of sample_loaded_properties sample_communities
              sample_communities)).
Proof.
  apply (@detail_ignores_sectors sample_libs (@loaded_namespace sample_libs)
           (namespace_of sample_loaded_properties sample_communities
              sample_communities)
           (select "HILLHURST") (Some sample_loaded_properties)
           (Some sample_communities) sample_sectors sample_communities);
    reflexivity.
Defined.

(** The selection page of the sample, and the page of a community whose
    property records were read in the projected system of the city. *)
Example sample_index :
  fst (@index sample_builtins sample_namespace)
  = Ok {| template_name := "index.html";
          community_names := [VStr "01B"; VStr "BOWNESS PARK"; VStr "HILLHURST"] |}.
Proof. vm_compute. reflexivity. Qed.

Example sample_projected_page :
  fst (@serve sample_libs (POST_map (select "HILLHURST"))
         (@loaded_namespace (serving projected_properties)))
  = Template "map.html" projected_hillhurst_map (VStr "HILLHURST").
Proof. vm_compute. reflexivity. Qed.
